(** * NutriSnap backend: the AI Council pipeline and its HTTP endpoints

    A shallow embedding of [backend/services/ai_council.py] and of the
    endpoints of [backend/main.py], with the properties the specification
    states about them.

    - Python numbers are modelled as they are at run time: an [int] is an
      unbounded integer, a [float] is an IEEE 754 binary64 value (Rocq's
      primitive floats, round to nearest even), and mixed arithmetic
      converts the [int] operand first, raising [OverflowError] when it
      does not fit.
    - Python exceptions are values of [exn]; a function that may raise
      returns [exn + A], and stateful code threads a [world] (database,
      environment variables, trace of external calls) through a small
      state-and-exception monad.
    - The three AI providers, the clock, the id generator of the
      document store and its refusal of a write are oracles: arbitrary
      functions of what they are given. *)

From Stdlib Require Import ZArith Floats Uint63 Permutation Ascii String.
From stdpp Require Import gmap strings list pretty.

Set Warnings "-inexact-float".
Set Default Proof Using "Type".

Local Open Scope string_scope.
Local Open Scope list_scope.
Local Open Scope Z_scope.

(** ** Exceptions *)

Inductive exn_class :=
| Exception           (* raise Exception(...) *)
| ValueError
| OverflowError
| RuntimeError
| TimeoutException    (* httpx.TimeoutException and its subclasses *)
| ValidationError     (* pydantic.ValidationError *)
| AttributeError
| ProviderError.      (* any other exception raised inside a client library *)

Inductive exn :=
| PyExc (cls : exn_class) (msg : string)
| HTTPException (status_code : Z) (detail : string).

(** [str(e)] for the exceptions whose text the code reads. *)
Definition str_exn (e : exn) : string :=
  match e with
  | PyExc _ msg => msg
  | HTTPException code detail => pretty code +:+ ": " +:+ detail
  end.

Definition is_timeout (e : exn) : bool :=
  match e with
  | PyExc TimeoutException _ => true
  | _ => false
  end.

Definition is_http_exception (e : exn) : bool :=
  match e with
  | HTTPException _ _ => true
  | _ => false
  end.

(** ** Strings

    A string is the sequence of the bytes of its UTF-8 encoding. *)

Module PyStr.

(** [needle in hay] *)
Fixpoint contains (needle hay : string) : bool :=
  String.prefix needle hay ||
  match hay with
  | EmptyString => false
  | String _ hay' => contains needle hay'
  end.

(** [s.startswith(p)] *)
Definition startswith (s p : string) : bool := String.prefix p s.

Definition lower_ascii (c : ascii) : ascii :=
  let n := Ascii.N_of_ascii c in
  if ((65 <=? n) && (n <=? 90))%N then Ascii.ascii_of_N (n + 32) else c.

(** [s.lower()], on the ASCII letters. The code compares the result
    with "openrouter" only, and no character outside ASCII lower-cases
    to one of its letters. *)
Fixpoint lower (s : string) : string :=
  match s with
  | EmptyString => EmptyString
  | String c s' => String (lower_ascii c) (lower s')
  end.

(** The characters for which [str.isspace] holds are ten ASCII
    characters, U+0085 and U+00A0 (two bytes each), and U+1680, U+2000
    to U+200A, U+2028, U+2029, U+202F, U+205F and U+3000 (three bytes
    each). *)
Definition is_space (c : ascii) : bool :=
  let n := Ascii.N_of_ascii c in
  (((9 <=? n) && (n <=? 13)) || ((28 <=? n) && (n <=? 32)))%N.

Definition is_space2 (a b : ascii) : bool :=
  let x := Ascii.N_of_ascii a in
  let y := Ascii.N_of_ascii b in
  ((x =? 194) && ((y =? 133) || (y =? 160)))%N.

Definition is_space3 (a b c : ascii) : bool :=
  let x := Ascii.N_of_ascii a in
  let y := Ascii.N_of_ascii b in
  let z := Ascii.N_of_ascii c in
  (((x =? 225) && (y =? 154) && (z =? 128))
   || ((x =? 226) && (y =? 128)
       && (((128 <=? z) && (z <=? 138)) || (z =? 168) || (z =? 169) || (z =? 175)))
   || ((x =? 226) && (y =? 129) && (z =? 159))
   || ((x =? 227) && (y =? 128) && (z =? 128)))%N.

(** The bytes that are left when the whitespace characters at the front
    are dropped; [sp2] and [sp3] recognise the characters of two and of
    three bytes. *)
Fixpoint drop_spaces (sp2 : ascii -> ascii -> bool) (sp3 : ascii -> ascii -> ascii -> bool)
    (l : list ascii) : list ascii :=
  match l with
  | [] => []
  | a :: l1 =>
      if is_space a then drop_spaces sp2 sp3 l1
      else
        match l1 with
        | [] => l
        | b :: l2 =>
            if sp2 a b then drop_spaces sp2 sp3 l2
            else
              match l2 with
              | [] => l
              | c :: l3 => if sp3 a b c then drop_spaces sp2 sp3 l3 else l
              end
        end
  end.

Definition lstrip (s : string) : string :=
  string_of_list_ascii (drop_spaces is_space2 is_space3 (list_ascii_of_string s)).

(** At the end of the string the bytes of a character are met last
    byte first. *)
Definition rstrip (s : string) : string :=
  string_of_list_ascii
    (rev (drop_spaces (fun b a => is_space2 a b) (fun c b a => is_space3 a b c)
            (rev (list_ascii_of_string s)))).

(** [s.strip()] *)
Definition strip (s : string) : string := rstrip (lstrip s).

(** Truthiness of an optional string: [if not s] holds for [None] and [""]. *)
Definition truthy (o : option string) : bool :=
  match o with
  | Some (String _ _) => true
  | _ => false
  end.

End PyStr.

(** ** Numbers *)

Module PyNum.

Inductive pynum :=
| PyInt (z : Z)
| PyFloat (f : float).

(** [float(z)]: the nearest binary64 value, ties to even;
    [OverflowError] when that is not finite. *)
Definition float_of_int (z : Z) : exn + float :=
  let f := SF2Prim (binary_normalize prec emax z 0 false) in
  if is_infinity f
  then inl (PyExc OverflowError "int too large to convert to float")
  else inr f.

Definition lift2 (op : float -> float -> float) (iop : Z -> Z -> Z)
    (a b : pynum) : exn + pynum :=
  match a, b with
  | PyInt x, PyInt y => inr (PyInt (iop x y))
  | PyInt x, PyFloat g =>
      match float_of_int x with
      | inl e => inl e
      | inr f => inr (PyFloat (op f g))
      end
  | PyFloat f, PyInt y =>
      match float_of_int y with
      | inl e => inl e
      | inr g => inr (PyFloat (op f g))
      end
  | PyFloat f, PyFloat g => inr (PyFloat (op f g))
  end.

(** [a + b] and [a - b] *)
Definition add : pynum -> pynum -> exn + pynum := lift2 PrimFloat.add Z.add.
Definition sub : pynum -> pynum -> exn + pynum := lift2 PrimFloat.sub Z.sub.

(** The integer nearest to [n / d] for [d > 0], ties to the even one. *)
Definition round_half_even_div (n d : Z) : Z :=
  let q := n / d in
  let r := n mod d in
  match 2 * r ?= d with
  | Lt => q
  | Gt => q + 1
  | Eq => if Z.even q then q else q + 1
  end.

(** [round(x, 1)] on a float: the decimal with one fractional digit
    nearest to the exact value of [x] (ties to even), then the binary64
    value nearest to that decimal. From [2^49] on the spacing of
    binary64 values is at least [1/8], so the result is [x] itself;
    below, ten times the result is an integer under [2^53] and one
    correctly rounded division gives the answer. Zeros, infinities and
    NaN round to themselves. *)
Definition float_round1 (x : float) : float :=
  match Prim2SF x with
  | S754_finite s m e =>
      if (PrimFloat.abs x <? 0x1p49)%float then
        let q := if 0 <=? e then 10 * Zpos m * 2 ^ e
                 else round_half_even_div (10 * Zpos m) (2 ^ (- e)) in
        let r := (of_uint63 (Uint63.of_Z q) / 10)%float in
        if s then (- r)%float else r
      else x
  | _ => x
  end.

(** [round(a, 1)]: an [int] is returned unchanged. *)
Definition round1 (a : pynum) : pynum :=
  match a with
  | PyInt z => PyInt z
  | PyFloat f => PyFloat (float_round1 f)
  end.

(** [a >= 0] *)
Definition ge0 (a : pynum) : bool :=
  match a with
  | PyInt z => 0 <=? z
  | PyFloat f => (0 <=? f)%float
  end.

(** [a < 0] *)
Definition lt0 (a : pynum) : bool :=
  match a with
  | PyInt z => z <? 0
  | PyFloat f => (f <? 0)%float
  end.

Fixpoint sum_from (acc : pynum) (xs : list pynum) : exn + pynum :=
  match xs with
  | [] => inr acc
  | x :: xs' =>
      match add acc x with
      | inl e => inl e
      | inr acc' => sum_from acc' xs'
      end
  end.

(** The builtin [sum(xs)]: the items are added from left to right,
    starting from the integer [0]. *)
Definition sum (xs : list pynum) : exn + pynum := sum_from (PyInt 0) xs.

Definition is_int (a : pynum) : bool :=
  match a with
  | PyInt _ => true
  | PyFloat _ => false
  end.

(** An [int] against a [float]: Python compares the exact values, the
    [int] is not converted. No order holds with a NaN. *)
Definition compare_int_float (z : Z) (f : float) : option comparison :=
  match Prim2SF f with
  | S754_nan => None
  | S754_infinity s => Some (if s then Gt else Lt)
  | S754_zero _ => Some (z ?= 0)
  | S754_finite s m e =>
      let v := cond_Zopp s (Zpos m) in
      Some (if 0 <=? e then z ?= v * 2 ^ e else z * 2 ^ (- e) ?= v)
  end.

(** [a < b] *)
Definition ltb (a b : pynum) : bool :=
  match a, b with
  | PyInt x, PyInt y => x <? y
  | PyInt x, PyFloat g =>
      match compare_int_float x g with Some Lt => true | _ => false end
  | PyFloat f, PyInt y =>
      match compare_int_float y f with Some Gt => true | _ => false end
  | PyFloat f, PyFloat g => (f <? g)%float
  end.

Definition eqb (a b : pynum) : bool :=
  match a, b with
  | PyInt x, PyInt y => Z.eqb x y
  | PyFloat f, PyFloat g => PrimFloat.Leibniz.eqb f g
  | _, _ => false
  end.

End PyNum.

Abbreviation pynum := PyNum.pynum.
Abbreviation PyInt := PyNum.PyInt.
Abbreviation PyFloat := PyNum.PyFloat.

(** ** Data exchanged with the providers and kept in the store *)

(** One food item of a CalorieNinjas response: a JSON object whose
    members are numbers (the members the code never reads may be there
    too). *)
Abbreviation item := (gmap string pynum).

(** What [client.get] returned. [json] is [response.json()]: it raises, or
    gives the decoded object's ["items"] member when it has one. *)
Record http_response := {
  status_code : Z;
  text : string;
  json : exn + option (list item);
}.

(** The dictionary [calculate_nutrition] returns. *)
Record nutrition := {
  calories : pynum;
  protein : pynum;
  carbs : pynum;
  fats : pynum;
}.

(** The [user_profile] dictionary of [process_meal]: each of the two keys
    it reads may be absent. *)
Record user_profile := {
  up_health_goal : option string;
  up_daily_calorie_goal : option pynum;
}.

(** What [process_meal] returns. *)
Record meal_result := {
  r_nutrition : nutrition;
  r_ai_advice : string;
}.

(** The arguments of one call of the Advisor Step. *)
Record advice_request := {
  a_health_goal : string;
  a_dish_name : string;
  a_total_calories : pynum;
  a_remaining_calories : pynum;
}.

(** A document of the [users] collection, as far as the endpoints read it. *)
Record user_doc := {
  u_health_goal : option string;
  u_daily_calorie_goal : option Z;
}.

(** A document of the [meal_logs] collection. Timestamps are microseconds
    since the epoch, UTC. *)
Record meal_doc := {
  m_user_id : string;
  m_timestamp : Z;
  m_dish_name : string;
  m_image_url : option string;
  m_nutrition : option (gmap string pynum);
  m_ai_advice : string;
}.

Record database := {
  users : gmap string user_doc;
  meal_logs : list meal_doc;
}.

(** The trace of the pipeline's steps: each step records that it was
    entered, with its arguments, and that it was left, with its result. *)
Inductive event :=
| VisionBegin (image_bytes : list Byte.byte)
| VisionEnd (r : exn + string)
| NutritionBegin (food_description : string)
| NutritionEnd (r : exn + nutrition)
| AdvisorBegin (req : advice_request)
| AdvisorEnd (r : exn + string).

(** The state the endpoints run in. [w_db] is [None] until
    [connect_to_mongo] has run. *)
Record world := {
  w_db : option database;
  w_env : gmap string string;
  w_trace : list event;
}.

Definition set_db (d : database) (w : world) : world :=
  {| w_db := Some d; w_env := w_env w; w_trace := w_trace w |}.

Definition add_event (ev : event) (w : world) : world :=
  {| w_db := w_db w; w_env := w_env w; w_trace := w_trace w ++ [ev] |}.

(** ** The monad of stateful code that may raise *)

Definition M (A : Type) : Type := world -> (exn + A) * world.

Definition ret {A} (a : A) : M A := fun w => (inr a, w).

Definition raise {A} (e : exn) : M A := fun w => (inl e, w).

Definition bind {A B} (m : M A) (k : A -> M B) : M B :=
  fun w =>
    match m w with
    | (inl e, w') => (inl e, w')
    | (inr a, w') => k a w'
    end.

(** [try: m except ... as e: h e]; what [m] did to the state before it
    raised stays done. *)
Definition try_except {A} (m : M A) (h : exn -> M A) : M A :=
  fun w =>
    match m w with
    | (inl e, w') => h e w'
    | (inr a, w') => (inr a, w')
    end.

(** A pure computation that may raise. *)
Definition lift {A} (r : exn + A) : M A := fun w => (r, w).

Definition get_world : M world := fun w => (inr w, w).

Definition log (ev : event) : M unit := fun w => (inr tt, add_event ev w).

Notation "'let*' x ':=' m 'in' k" := (bind m (fun x => k))
  (at level 10, x name, m at level 100, k at level 200).

(** A step with its trace: the entry event, the body, the exit event with
    the body's result, which is passed on unchanged. *)
Definition traced {A} (enter : event) (leave : exn + A -> event) (body : M A) : M A :=
  fun w =>
    let '(r, w') := body (add_event enter w) in
    (r, add_event (leave r) w').

(** ** The providers

    What the outside world answers is not fixed by the code: each
    provider is an arbitrary function of the trace so far and of what it
    is sent. A provider call returns its answer or raises. *)
Record providers := {
  (** Gemini through [model.ainvoke]: the key, the image; [response.content]. *)
  vision_api : list event -> string -> list Byte.byte -> exn + string;
  (** CalorieNinjas through [client.get]: the key, the query. *)
  nutrition_api : list event -> string -> string -> exn + http_response;
  (** Groq through the LangChain chain: the key, the model name, the
      values put into the prompt; [response.content]. *)
  groq_api : list event -> string -> string -> advice_request -> exn + string;
  (** OpenRouter through [client.post] (with [raise_for_status] and the
      decoding of the answer): the key, the model name, the values put
      into the prompt. *)
  openrouter_api : list event -> string -> string -> advice_request -> exn + string;
  (** [datetime.utcnow()], microseconds since the epoch. *)
  utcnow : list event -> Z;
  (** [bson.ObjectId(s)]: the identifier a string denotes, if any. *)
  ObjectId : string -> option string;
  (** The [_id] the store gives a new document, as a string. *)
  inserted_id : list meal_doc -> meal_doc -> string;
  (** What [insert_one] raises when the document is not written: the
      server refuses the write or cannot be reached, or the document
      holds a value BSON cannot encode (an [int] of more than 8 bytes). *)
  insert_error : list meal_doc -> meal_doc -> option exn;
}.

(** * services/ai_council.py *)

Module Council.
Section Council.

Variable P : providers.

(** [os.getenv(name)] and [os.getenv(name, default)] *)
Definition getenv (name : string) : M (option string) :=
  fun w => (inr (w_env w !! name), w).

Definition getenv_default (name dflt : string) : M string :=
  fun w => (inr (default dflt (w_env w !! name)), w).

(** *** VisionAgent *)

Record VisionAgent := {
  v_google_api_key : string;
  v_model : string;
}.

Definition VisionAgent_init : M VisionAgent :=
  let* api_key := getenv "GOOGLE_API_KEY" in
  if negb (PyStr.truthy api_key) then
    raise (PyExc ValueError "GOOGLE_API_KEY not found in environment variables")
  else
    ret {| v_google_api_key := default "" api_key; v_model := "gemini-1.5-flash" |}.

Definition VisionAgent_analyze_image (self : VisionAgent)
    (image_bytes : list Byte.byte) : M string :=
  traced (VisionBegin image_bytes) VisionEnd
    (try_except
       (let* w := get_world in
        let* content := lift (vision_api P (w_trace w) (v_google_api_key self) image_bytes) in
        let detected_text := PyStr.strip content in
        ret detected_text)
       (fun e => raise (PyExc Exception ("Vision Agent failed: " +:+ str_exn e)))).

(** *** NutritionCalculator *)

Record NutritionCalculator := {
  n_api_key : string;
  n_base_url : string;
}.

Definition NutritionCalculator_init : M NutritionCalculator :=
  let* api_key := getenv "CALORIENINJAS_API_KEY" in
  if negb (PyStr.truthy api_key) then
    raise (PyExc ValueError "CALORIENINJAS_API_KEY not found in environment variables")
  else
    ret {| n_api_key := default "" api_key;
           n_base_url := "https://api.calorieninjas.com/v1/nutrition" |}.

Definition no_items_message : string :=
  "No food items recognized. Please simplify the description " +:+
  "(e.g., 'chickpea soup 300ml' instead of 'Hlalem').".

Definition timeout_message : string :=
  "CalorieNinjas API timeout. Please try again.".

(** [item.get(key, 0)] *)
Definition item_get (key : string) (it : item) : pynum :=
  default (PyInt 0) (it !! key).

(** [sum(item.get(key, 0) for item in items)] *)
Definition sum_field (key : string) (items : list item) : exn + pynum :=
  PyNum.sum (map (item_get key) items).

(** The body of the [try] of [calculate_nutrition]. *)
Definition calculate_nutrition_body (self : NutritionCalculator)
    (food_description : string) : M nutrition :=
  let* w := get_world in
  let* response := lift (nutrition_api P (w_trace w) (n_api_key self) food_description) in
  if negb (status_code response =? 200) then
    raise (PyExc Exception
             ("CalorieNinjas API error: " +:+ pretty (status_code response)
              +:+ " - " +:+ text response))
  else
    let* data := lift (json response) in
    let items := default [] data in
    match items with
    | [] => raise (PyExc Exception no_items_message)
    | _ :: _ =>
        let* total_calories := lift (sum_field "calories" items) in
        let* total_protein := lift (sum_field "protein_g" items) in
        let* total_carbs := lift (sum_field "carbohydrates_total_g" items) in
        let* total_fats := lift (sum_field "fat_total_g" items) in
        ret {| calories := PyNum.round1 total_calories;
               protein := PyNum.round1 total_protein;
               carbs := PyNum.round1 total_carbs;
               fats := PyNum.round1 total_fats |}
    end.

(** The two [except] clauses of [calculate_nutrition], in their order. *)
Definition calculate_nutrition_handler (e : exn) : M nutrition :=
  if is_timeout e then raise (PyExc Exception timeout_message)
  else if PyStr.contains "No food items recognized" (str_exn e) then raise e
  else raise (PyExc Exception ("Nutrition calculation failed: " +:+ str_exn e)).

Definition calculate_nutrition (self : NutritionCalculator)
    (food_description : string) : M nutrition :=
  traced (NutritionBegin food_description) NutritionEnd
    (try_except (calculate_nutrition_body self food_description)
                calculate_nutrition_handler).

(** *** AdvisorAgent *)

(** The attributes [__init__] sets: on the OpenRouter branch [api_key],
    [model_name] and [api_url]; on the Groq branch [model], a [ChatGroq]
    with its key and model name. *)
Inductive advisor_backend :=
| OpenRouterBackend (api_key model_name api_url : string)
| GroqBackend (groq_api_key model_name : string).

Record AdvisorAgent := {
  provider : string;
  backend : advisor_backend;
}.

Definition AdvisorAgent_init : M AdvisorAgent :=
  let* provider_raw := getenv_default "ADVISOR_PROVIDER" "groq" in
  let provider := PyStr.lower provider_raw in
  if String.eqb provider "openrouter" then
    let* api_key := getenv "OPENROUTER_API_KEY" in
    if negb (PyStr.truthy api_key) then
      raise (PyExc ValueError "OPENROUTER_API_KEY not found in environment variables")
    else
      let* model_name := getenv_default "OPENROUTER_MODEL" "anthropic/claude-3.5-sonnet" in
      ret {| provider := provider;
             backend := OpenRouterBackend (default "" api_key) model_name
                          "https://openrouter.ai/api/v1/chat/completions" |}
  else
    let* api_key := getenv "GROQ_API_KEY" in
    if negb (PyStr.truthy api_key) then
      raise (PyExc ValueError "GROQ_API_KEY not found in environment variables")
    else
      ret {| provider := provider;
             backend := GroqBackend (default "" api_key) "llama3-70b-8192" |}.

Definition missing_attribute (name : string) : exn :=
  PyExc AttributeError ("'AdvisorAgent' object has no attribute '" +:+ name +:+ "'").

Definition query_openrouter (self : AdvisorAgent) (req : advice_request) : M string :=
  match backend self with
  | OpenRouterBackend api_key model_name _ =>
      let* w := get_world in
      lift (openrouter_api P (w_trace w) api_key model_name req)
  | GroqBackend _ _ => raise (missing_attribute "api_key")
  end.

Definition query_groq (self : AdvisorAgent) (req : advice_request) : M string :=
  match backend self with
  | GroqBackend groq_api_key model_name =>
      let* w := get_world in
      lift (groq_api P (w_trace w) groq_api_key model_name req)
  | OpenRouterBackend _ _ _ => raise (missing_attribute "model")
  end.

(** The prompt is the template filled with the four arguments; the
    providers are given the arguments themselves. *)
Definition generate_advice (self : AdvisorAgent) (health_goal dish_name : string)
    (total_calories remaining_calories : pynum) : M string :=
  let req := {| a_health_goal := health_goal;
                a_dish_name := dish_name;
                a_total_calories := total_calories;
                a_remaining_calories := remaining_calories |} in
  traced (AdvisorBegin req) AdvisorEnd
    (try_except
       (let* advice :=
          (if String.eqb (provider self) "openrouter"
           then query_openrouter self req
           else query_groq self req) in
        ret (PyStr.strip advice))
       (fun e => raise (PyExc Exception ("Advisor Agent failed: " +:+ str_exn e)))).

(** *** AICouncil *)

Record AICouncil := {
  vision_agent : VisionAgent;
  nutrition_calculator : NutritionCalculator;
  advisor_agent : AdvisorAgent;
}.

Definition AICouncil_init : M AICouncil :=
  let* v := VisionAgent_init in
  let* n := NutritionCalculator_init in
  let* a := AdvisorAgent_init in
  ret {| vision_agent := v; nutrition_calculator := n; advisor_agent := a |}.

Definition analyze_image (self : AICouncil) (image_bytes : list Byte.byte) : M string :=
  VisionAgent_analyze_image (vision_agent self) image_bytes.

Definition process_meal (self : AICouncil) (verified_text : string)
    (profile : user_profile) (current_daily_total : pynum) : M meal_result :=
  let* nutrition := calculate_nutrition (nutrition_calculator self) verified_text in
  let daily_goal := default (PyInt 2500) (up_daily_calorie_goal profile) in
  let* new_total := lift (PyNum.add current_daily_total (calories nutrition)) in
  let* remaining := lift (PyNum.sub daily_goal new_total) in
  let* advice :=
    generate_advice (advisor_agent self)
      (default "maintain" (up_health_goal profile))
      verified_text
      (calories nutrition)
      remaining in
  ret {| r_nutrition := nutrition; r_ai_advice := advice |}.

Definition get_ai_council : M AICouncil := AICouncil_init.

End Council.
End Council.

(** * main.py *)

Module Main.
Section Main.

Variable P : providers.

(** ** Request and response models (models.py) *)

Record UploadFile := {
  content_type : option string;
  file_bytes : list Byte.byte;
}.

Record AnalyzeImageResponse := {
  detected_text : string;
}.

Record LogMealRequest := {
  user_id : string;
  verified_text : string;
  image_url : option string;
}.

Record LogMealResponse := {
  meal_id : string;
  dish_name : string;
  lm_nutrition : nutrition;
  ai_advice : string;
  timestamp : Z;
}.

Record DashboardResponse := {
  d_user_id : string;
  daily_goal : Z;
  total_consumed : pynum;
  remaining : pynum;
  meals_today : nat;
  nutrition_totals : nutrition;
}.

(** A field declared [float] with [ge=0]: pydantic converts an [int] to
    a [float] (an [int] too large for one is no valid number) and then
    checks the bound. *)
Definition float_field (x : pynum) : exn + float :=
  match (match x with
         | PyNum.PyInt z => PyNum.float_of_int z
         | PyNum.PyFloat f => inr f
         end) with
  | inl _ =>
      inl (PyExc ValidationError
             "validation error for NutritionData: Input should be a valid number")
  | inr f =>
      if (0 <=? f)%float then inr f
      else inl (PyExc ValidationError
                  "validation error for NutritionData: Input should be greater than or equal to 0")
  end.

(** [NutritionData(calories=.., protein=.., carbs=.., fats=..)]: the
    four fields are floats; a value that is refused makes the
    constructor raise (pydantic's message lists every refused field, the
    text kept here is that of the first). *)
Definition NutritionData (n : nutrition) : exn + nutrition :=
  match float_field (calories n) with
  | inl e => inl e
  | inr c =>
  match float_field (protein n) with
  | inl e => inl e
  | inr p =>
  match float_field (carbs n) with
  | inl e => inl e
  | inr cb =>
  match float_field (fats n) with
  | inl e => inl e
  | inr f =>
      inr {| calories := PyFloat c; protein := PyFloat p;
             carbs := PyFloat cb; fats := PyFloat f |}
  end end end end.

(** ** The store (database.py and the Motor collections) *)

Definition get_database : M database :=
  fun w =>
    match w_db w with
    | Some d => (inr d, w)
    | None =>
        (inl (PyExc RuntimeError
                "Database not connected. Ensure connect_to_mongo() was called during startup."),
         w)
    end.

(** The accessors return a handle; what a query reads is the collection
    at the time of the query. *)
Definition get_users_collection : M unit :=
  let* _ := get_database in ret tt.

Definition get_meal_logs_collection : M unit :=
  let* _ := get_database in ret tt.

(** [users_collection.find_one({"_id": oid})] *)
Definition users_find_one (oid : string) : M (option user_doc) :=
  let* d := get_database in ret (users d !! oid).

(** The filter [{"user_id": oid, "timestamp": {"$gte": since}}]. *)
Definition matches (oid : string) (since : Z) (m : meal_doc) : bool :=
  String.eqb (m_user_id m) oid && (since <=? m_timestamp m).

(** [meal_logs_collection.find(...)], read to the end. *)
Definition meal_logs_find (oid : string) (since : Z) : M (list meal_doc) :=
  let* d := get_database in ret (filter (fun m => matches oid since m = true) (meal_logs d)).

(** [meal_logs_collection.insert_one(doc)]: the document is appended
    and the identifier the store gave it is returned, or the call
    raises and nothing is written. The store keeps times in
    milliseconds. *)
Definition stored (doc : meal_doc) : meal_doc :=
  {| m_user_id := m_user_id doc;
     m_timestamp := 1000 * (m_timestamp doc / 1000);
     m_dish_name := m_dish_name doc;
     m_image_url := m_image_url doc;
     m_nutrition := m_nutrition doc;
     m_ai_advice := m_ai_advice doc |}.

Definition meal_logs_insert_one (doc : meal_doc) : M string :=
  fun w =>
    match w_db w with
    | Some d =>
        match insert_error P (meal_logs d) doc with
        | Some e => (inl e, w)
        | None =>
            (inr (inserted_id P (meal_logs d) doc),
             set_db {| users := users d; meal_logs := meal_logs d ++ [stored doc] |} w)
        end
    | None =>
        (inl (PyExc RuntimeError
                "Database not connected. Ensure connect_to_mongo() was called during startup."),
         w)
    end.

Definition now : M Z := fun w => (inr (utcnow P (w_trace w)), w).

(** [t.replace(hour=0, minute=0, second=0, microsecond=0)] *)
Definition microseconds_per_day : Z := 86400 * 1000000.
Definition midnight (t : Z) : Z := t - t mod microseconds_per_day.

(** The nutrition dictionary as it is written into a document. *)
Definition nutrition_dict (n : nutrition) : gmap string pynum :=
  <["calories" := calories n]>
    (<["protein" := protein n]>
       (<["carbs" := carbs n]>
          (<["fats" := fats n]> ∅))).

(** [meal.get("nutrition", {}).get(key, 0)] *)
Definition meal_get (key : string) (m : meal_doc) : pynum :=
  default (PyInt 0) (default ∅ (m_nutrition m) !! key).

(** The two [except] clauses every endpoint ends with. *)
Definition endpoint_handler {A} (what : string) (e : exn) : M A :=
  if is_http_exception e then raise e
  else raise (HTTPException 500 (what +:+ " failed: " +:+ str_exn e)).

(** ** POST /analyze *)

Definition analyze_image (image : UploadFile) : M AnalyzeImageResponse :=
  try_except
    (let* ct :=
       (match content_type image with
        | Some ct => ret ct
        | None => raise (PyExc AttributeError
                           "'NoneType' object has no attribute 'startswith'")
        end) in
     if negb (PyStr.startswith ct "image/") then
       raise (HTTPException 400 "Invalid file type. Only images (JPEG/PNG) are supported.")
     else
       let image_bytes := file_bytes image in
       if 10 * 1024 * 1024 <? Z.of_nat (length image_bytes) then
         raise (HTTPException 400 "Image too large (max 10MB).")
       else
         let* council := Council.get_ai_council in
         let* detected := Council.analyze_image P council image_bytes in
         ret {| detected_text := detected |})
    (endpoint_handler "Image analysis").

(** ** POST /log-meal *)

(** The loop that adds up the calories of today's meals. *)
Fixpoint add_calories (total : pynum) (meals : list meal_doc) : exn + pynum :=
  match meals with
  | [] => inr total
  | meal :: rest =>
      match PyNum.add total (meal_get "calories" meal) with
      | inl e => inl e
      | inr total' => add_calories total' rest
      end
  end.

Definition log_meal (request : LogMealRequest) : M LogMealResponse :=
  try_except
    (let* _ := get_users_collection in
     let* _ := get_meal_logs_collection in
     let* user_object_id :=
       (match ObjectId P (user_id request) with
        | Some oid => ret oid
        | None => raise (HTTPException 400 "Invalid user_id format.")
        end) in
     let* found := users_find_one user_object_id in
     match found with
     | None => raise (HTTPException 404 "User not found.")
     | Some user =>
         let* t := now in
         let today_start := midnight t in
         let* today_meals := meal_logs_find user_object_id today_start in
         let* current_daily_total := lift (add_calories (PyFloat 0) today_meals) in
         let* council := Council.get_ai_council in
         let* result :=
           Council.process_meal P council (verified_text request)
             {| up_health_goal := Some (default "maintain" (u_health_goal user));
                up_daily_calorie_goal :=
                  Some (PyInt (default 2500 (u_daily_calorie_goal user))) |}
             current_daily_total in
         let* t' := now in
         let meal_log :=
           {| m_user_id := user_object_id;
              m_timestamp := t';
              m_dish_name := verified_text request;
              m_image_url := image_url request;
              m_nutrition := Some (nutrition_dict (r_nutrition result));
              m_ai_advice := r_ai_advice result |} in
         let* new_id := meal_logs_insert_one meal_log in
         let* checked := lift (NutritionData (r_nutrition result)) in
         ret {| meal_id := new_id;
                dish_name := verified_text request;
                lm_nutrition := checked;
                ai_advice := r_ai_advice result;
                timestamp := m_timestamp meal_log |}
     end)
    (endpoint_handler "Meal logging").

(** ** GET /dashboard/{user_id} *)

Record totals := {
  total_calories : pynum;
  total_protein : pynum;
  total_carbs : pynum;
  total_fats : pynum;
  meals_count : nat;
}.

(** One turn of the aggregation loop. *)
Definition add_meal (acc : totals) (meal : meal_doc) : exn + totals :=
  match PyNum.add (total_calories acc) (meal_get "calories" meal) with
  | inl e => inl e
  | inr c =>
  match PyNum.add (total_protein acc) (meal_get "protein" meal) with
  | inl e => inl e
  | inr p =>
  match PyNum.add (total_carbs acc) (meal_get "carbs" meal) with
  | inl e => inl e
  | inr cb =>
  match PyNum.add (total_fats acc) (meal_get "fats" meal) with
  | inl e => inl e
  | inr f =>
      inr {| total_calories := c; total_protein := p; total_carbs := cb;
             total_fats := f; meals_count := S (meals_count acc) |}
  end end end end.

Fixpoint aggregate (acc : totals) (meals : list meal_doc) : exn + totals :=
  match meals with
  | [] => inr acc
  | meal :: rest =>
      match add_meal acc meal with
      | inl e => inl e
      | inr acc' => aggregate acc' rest
      end
  end.

Definition zero_totals : totals :=
  {| total_calories := PyFloat 0; total_protein := PyFloat 0;
     total_carbs := PyFloat 0; total_fats := PyFloat 0; meals_count := 0 |}.

Definition get_dashboard (uid : string) : M DashboardResponse :=
  try_except
    (let* _ := get_users_collection in
     let* _ := get_meal_logs_collection in
     let* user_object_id :=
       (match ObjectId P uid with
        | Some oid => ret oid
        | None => raise (HTTPException 400 "Invalid user_id format.")
        end) in
     let* found := users_find_one user_object_id in
     match found with
     | None => raise (HTTPException 404 "User not found.")
     | Some user =>
         let goal := default 2500 (u_daily_calorie_goal user) in
         let* t := now in
         let today_start := midnight t in
         let* today_meals := meal_logs_find user_object_id today_start in
         let* tot := lift (aggregate zero_totals today_meals) in
         let* rest := lift (PyNum.sub (PyInt goal) (total_calories tot)) in
         let* checked :=
           lift (NutritionData
                   {| calories := PyNum.round1 (total_calories tot);
                      protein := PyNum.round1 (total_protein tot);
                      carbs := PyNum.round1 (total_carbs tot);
                      fats := PyNum.round1 (total_fats tot) |}) in
         ret {| d_user_id := uid;
                daily_goal := goal;
                total_consumed := PyNum.round1 (total_calories tot);
                remaining := PyNum.round1 rest;
                meals_today := meals_count tot;
                nutrition_totals := checked |}
     end)
    (endpoint_handler "Dashboard fetch").

End Main.
End Main.

(** * database.py *)

Module Database.

(** The Motor driver as the module uses it: what the constructor of a
    client, the subscript of a client by a database name and a ping of
    the server raise, when they raise. A ping can fail at one time and
    succeed at another: it is given the number of pings made before. *)
Record driver := {
  client_error : string -> option exn;
  database_error : string -> option exn;
  ping_error : string -> nat -> option exn;
}.

(** A client object. [close] changes the object in place, so the
    objects live in a heap and the globals hold their addresses. *)
Record client := {
  uri : string;
  closed : bool;
}.

(** An [AsyncIOMotorDatabase]: the client it was taken from and its
    name; and a collection of it. *)
Record database_handle := {
  of_client : nat;
  name : string;
}.

Record collection_handle := {
  of_database : database_handle;
  collection : string;
}.

(** The module's two globals, with the heap, the environment, what was
    printed and the number of pings made. *)
Record state := {
  heap : list client;
  _client : option nat;
  _database : option database_handle;
  environ : gmap string string;
  stdout : list string;
  pings : nat;
}.

Definition print (line : string) (s : state) : state :=
  {| heap := heap s; _client := _client s; _database := _database s;
     environ := environ s; stdout := stdout s ++ [line]; pings := pings s |}.

(** [_client = AsyncIOMotorClient(mongo_uri)]: a new object, and the
    global set to it. *)
Definition new_client (mongo_uri : string) (s : state) : state :=
  {| heap := heap s ++ [{| uri := mongo_uri; closed := false |}];
     _client := Some (length (heap s));
     _database := _database s;
     environ := environ s; stdout := stdout s; pings := pings s |}.

Definition set_database (db : database_handle) (s : state) : state :=
  {| heap := heap s; _client := _client s; _database := Some db;
     environ := environ s; stdout := stdout s; pings := pings s |}.

Definition pinged (s : state) : state :=
  {| heap := heap s; _client := _client s; _database := _database s;
     environ := environ s; stdout := stdout s; pings := S (pings s) |}.

(** [c.close()] on the object at address [c]. *)
Definition close_client (c : nat) (s : state) : state :=
  {| heap := alter (fun cl => {| uri := uri cl; closed := true |}) c (heap s);
     _client := _client s; _database := _database s;
     environ := environ s; stdout := stdout s; pings := pings s |}.

Definition connect_to_mongo (drv : driver) (s : state) : (exn + unit) * state :=
  let mongo_uri := default "mongodb://localhost:27017" (environ s !! "MONGO_URI") in
  let database_name := default "nutrisnap_db" (environ s !! "DATABASE_NAME") in
  (* except Exception as e: print(...); raise *)
  let failed (e : exn) (s' : state) :=
    (@inl exn unit e, print ("❌ Failed to connect to MongoDB: " +:+ str_exn e) s') in
  match client_error drv mongo_uri with
  | Some e => failed e s
  | None =>
      let s1 := new_client mongo_uri s in
      match database_error drv database_name with
      | Some e => failed e s1
      | None =>
          let s2 := set_database {| of_client := length (heap s); name := database_name |} s1 in
          match ping_error drv mongo_uri (pings s) with
          | Some e => failed e (pinged s2)
          | None => (inr tt, print ("✅ Connected to MongoDB: " +:+ database_name) (pinged s2))
          end
      end
  end.

(** [if _client:] holds for every client object. *)
Definition close_mongo_connection (s : state) : (exn + unit) * state :=
  match _client s with
  | Some c => (inr tt, print "📴 MongoDB connection closed" (close_client c s))
  | None => (inr tt, s)
  end.

Definition get_database (s : state) : exn + database_handle :=
  match _database s with
  | None =>
      inl (PyExc RuntimeError
             "Database not connected. Ensure connect_to_mongo() was called during startup.")
  | Some db => inr db
  end.

Definition get_users_collection (s : state) : exn + collection_handle :=
  match get_database s with
  | inl e => inl e
  | inr db => inr {| of_database := db; collection := "users" |}
  end.

Definition get_meal_logs_collection (s : state) : exn + collection_handle :=
  match get_database s with
  | inl e => inl e
  | inr db => inr {| of_database := db; collection := "meal_logs" |}
  end.

(** The two halves of [lifespan] in main.py: what runs before the
    [yield] and what runs after it. *)
Definition lifespan_startup (drv : driver) (s : state) : (exn + unit) * state :=
  connect_to_mongo drv (print "🚀 NutriSnap Backend Starting..." s).

Definition lifespan_shutdown (s : state) : (exn + unit) * state :=
  close_mongo_connection (print "🛑 NutriSnap Backend Shutting Down..." s).

End Database.

(** * seed_db.py *)

Module Seed.

(** A field of a user document, and a document: its [_id] and its other
    fields. *)
Inductive value :=
| Str (s : string)
| Num (n : pynum).

Definition document : Type := string * gmap string value.

(** The server as the script uses it: what the two operations on the
    collection raise, when they raise (each is given the number of
    operations made before), and the [_id] a new document gets. *)
Record server := {
  operation_error : nat -> option exn;
  new_id : list document -> string;
}.

(** The [users] collections, by the URI of the server and the name of
    the database, with the client objects, the environment, what was
    printed and the number of operations made. *)
Record state := {
  users : gmap (string * string) (list document);
  heap : list Database.client;
  environ : gmap string string;
  stdout : list string;
  operations : nat;
}.

Definition print (line : string) (s : state) : state :=
  {| users := users s; heap := heap s; environ := environ s;
     stdout := stdout s ++ [line]; operations := operations s |}.

Definition new_client (mongo_uri : string) (s : state) : state :=
  {| users := users s;
     heap := heap s ++ [{| Database.uri := mongo_uri; Database.closed := false |}];
     environ := environ s; stdout := stdout s; operations := operations s |}.

Definition operated (s : state) : state :=
  {| users := users s; heap := heap s; environ := environ s;
     stdout := stdout s; operations := S (operations s) |}.

Definition close_client (c : nat) (s : state) : state :=
  {| users := users s;
     heap := alter (fun cl => {| Database.uri := Database.uri cl;
                                 Database.closed := true |}) c (heap s);
     environ := environ s; stdout := stdout s; operations := operations s |}.

(** The filter [{"username": "test_user"}]. *)
Definition is_test_user (d : document) : bool :=
  match snd d !! "username" with
  | Some (Str s) => String.eqb s "test_user"
  | _ => false
  end.

(** [find_one(filter)]: the first document of the collection, in its
    natural order, that matches. *)
Definition find_one (filter : document -> bool) (docs : list document) : option document :=
  List.find filter docs.

Definition test_user : gmap string value :=
  {[ "username" := Str "test_user";
     "daily_calorie_goal" := Num (PyInt 2500);
     "health_goal" := Str "gain_muscle";
     "height_cm" := Num (PyFloat 175.0);
     "weight_kg" := Num (PyFloat 70.0) ]}.

(** [insert_one(doc)] into the collection of [key]. *)
Definition insert_one (key : string * string) (d : document) (s : state) : state :=
  {| users := <[key := default [] (users s !! key) ++ [d]]> (users s);
     heap := heap s; environ := environ s; stdout := stdout s;
     operations := operations s |}.

Definition newline : string := String (Ascii.ascii_of_nat 10) EmptyString.

Definition seed_database (drv : Database.driver) (srv : server) (s : state)
    : (exn + unit) * state :=
  let mongo_uri := default "mongodb://localhost:27017" (environ s !! "MONGO_URI") in
  let database_name := default "nutrisnap_db" (environ s !! "DATABASE_NAME") in
  match Database.client_error drv mongo_uri with
  | Some e => (inl e, s)
  | None =>
      let client := length (heap s) in
      let s1 := new_client mongo_uri s in
      match Database.database_error drv database_name with
      | Some e => (inl e, s1)
      | None =>
          let users_collection := default [] (users s !! (mongo_uri, database_name)) in
          match operation_error srv (operations s) with
          | Some e => (inl e, operated s1)
          | None =>
              let s2 := operated s1 in
              match find_one is_test_user users_collection with
              | Some existing_user =>
                  (inr tt,
                   print (newline +:+ "[INFO] Use this user_id for API testing: "
                          +:+ fst existing_user)
                     (print ("[OK] Test user already exists with ID: " +:+ fst existing_user)
                        s2))
              | None =>
                  match operation_error srv (operations s2) with
                  | Some e => (inl e, operated s2)
                  | None =>
                      let inserted_id := new_id srv users_collection in
                      let s3 :=
                        insert_one (mongo_uri, database_name) (inserted_id, test_user)
                          (operated s2) in
                      let s4 :=
                        print (newline +:+ "[KEY] Use this user_id for API testing: "
                               +:+ inserted_id)
                          (print "   Daily Calorie Target: 2500"
                             (print "   Goal: Gain Muscle"
                                (print "   Username: test_user"
                                   (print (newline +:+ "[INFO] User Profile:")
                                      (print ("[OK] Created test user with ID: "
                                              +:+ inserted_id) s3))))) in
                      (inr tt, close_client client s4)
                  end
              end
          end
      end
  end.

End Seed.

(** * Vocabulary of the statements *)

(** The events a run added to the trace. *)
Definition new_events (w w' : world) : list event :=
  drop (length (w_trace w)) (w_trace w').

(** A computation that leaves the world as it found it. *)
Definition readonly {A} (m : M A) : Prop := forall w, snd (m w) = w.

(** What the two steps of [process_meal] return when entered in [w]. *)
Definition nutrition_outcome (P : providers) (self : Council.NutritionCalculator)
    (food_description : string) (w : world) : exn + nutrition :=
  fst (Council.calculate_nutrition P self food_description w).

Definition advisor_outcome (P : providers) (self : Council.AdvisorAgent)
    (req : advice_request) (w : world) : exn + string :=
  fst (Council.generate_advice P self (a_health_goal req) (a_dish_name req)
         (a_total_calories req) (a_remaining_calories req) w).

(** The world after a step that was entered in [w] and returned [r]. *)
Definition after_nutrition (food_description : string) (r : exn + nutrition)
    (w : world) : world :=
  add_event (NutritionEnd r) (add_event (NutritionBegin food_description) w).

Definition after_advisor (req : advice_request) (r : exn + string) (w : world) : world :=
  add_event (AdvisorEnd r) (add_event (AdvisorBegin req) w).

(** What the [except] clauses of an endpoint turn an exception into. *)
Definition at_boundary (what : string) (e : exn) : exn :=
  if is_http_exception e then e
  else HTTPException 500 (what +:+ " failed: " +:+ str_exn e).

(** The profile [log_meal] builds from a user document. *)
Definition profile_of (user : user_doc) : user_profile :=
  {| up_health_goal := Some (default "maintain" (u_health_goal user));
     up_daily_calorie_goal := Some (PyInt (default 2500 (u_daily_calorie_goal user))) |}.

(** The meals of [oid] that the store holds with a time at or after
    [since], in the order of the store. *)
Definition meals_since (oid : string) (since : Z) (d : database) : list meal_doc :=
  filter (fun m => Main.matches oid since m = true) (meal_logs d).

(** The document [log_meal] writes for a result obtained at time [t]. *)
Definition meal_log_of (oid : string) (request : Main.LogMealRequest)
    (res : meal_result) (t : Z) : meal_doc :=
  {| m_user_id := oid;
     m_timestamp := t;
     m_dish_name := Main.verified_text request;
     m_image_url := Main.image_url request;
     m_nutrition := Some (Main.nutrition_dict (r_nutrition res));
     m_ai_advice := r_ai_advice res |}.

Definition insert_meal (doc : meal_doc) (d : database) : database :=
  {| users := users d; meal_logs := meal_logs d ++ [Main.stored doc] |}.

(** The four members of an item that [calculate_nutrition] reads. *)
Definition macro_fields : list string :=
  ["calories"; "protein_g"; "carbohydrates_total_g"; "fat_total_g"].

(** An item whose four macro-nutrient values are Python ints. *)
Definition int_valued (it : item) : Prop :=
  forall key, In key macro_fields -> PyNum.is_int (Council.item_get key it) = true.

(** An item whose macro-nutrient values, where it has them, are Python
    floats. *)
Definition float_valued (it : item) : Prop :=
  forall key v, In key macro_fields -> it !! key = Some v -> PyNum.is_int v = false.


(** What the [except] clauses of [calculate_nutrition] raise for [e]. *)
Definition nutrition_failure (e : exn) : exn :=
  if is_timeout e then PyExc Exception Council.timeout_message
  else if PyStr.contains "No food items recognized" (str_exn e) then e
  else PyExc Exception ("Nutrition calculation failed: " +:+ str_exn e).

(** The summary of a non-empty list of items, or the first exception the
    four sums raise. *)
Definition summarise (items : list item) : exn + nutrition :=
  match Council.sum_field "calories" items with
  | inl e => inl e
  | inr c =>
  match Council.sum_field "protein_g" items with
  | inl e => inl e
  | inr p =>
  match Council.sum_field "carbohydrates_total_g" items with
  | inl e => inl e
  | inr cb =>
  match Council.sum_field "fat_total_g" items with
  | inl e => inl e
  | inr f =>
      inr {| calories := PyNum.round1 c; protein := PyNum.round1 p;
             carbs := PyNum.round1 cb; fats := PyNum.round1 f |}
  end end end end.

(** The trace the nutrition provider sees when the Nutrition Step is
    entered in [w]. *)
Definition trace_at_nutrition (q : string) (w : world) : list event :=
  w_trace w ++ [NutritionBegin q].

(** CPython from 3.12 on adds the floats of [sum] with Neumaier's
    compensated summation: [hi] is the running sum, [lo] the running
    compensation, added at the end when it is finite and not zero. The
    model above follows the language reference (left to right with [+]);
    this variant is here to check that the order dependence shown below
    is not an artefact of that choice. *)
Fixpoint compensated_from (hi lo : float) (xs : list float) : float :=
  match xs with
  | [] =>
      if PrimFloat.is_zero lo || PrimFloat.is_nan lo || PrimFloat.is_infinity lo
      then hi else (hi + lo)%float
  | x :: xs' =>
      let t := (hi + x)%float in
      let c := if (PrimFloat.abs x <=? PrimFloat.abs hi)%float
               then ((hi - t) + x)%float
               else ((x - t) + hi)%float in
      compensated_from t (lo + c)%float xs'
  end.

Definition compensated_sum (xs : list float) : float :=
  match xs with
  | [] => 0%float
  | x :: xs' => compensated_from (0 + x)%float 0%float xs'
  end.

(** The exception the Nutrition Step raises when no item was recognised. *)
Definition no_items_error : exn := PyExc Exception Council.no_items_message.

(** An answer of the provider with no item in it. *)
Definition no_items (response : http_response) : Prop :=
  status_code response = 200 /\
  (json response = inr None \/ json response = inr (Some [])).

(** ** Signs of IEEE values *)

(** [r] is a zero, a finite value or an infinity of sign [sx]. *)
Definition sf_signed (sx : bool) (r : spec_float) : bool :=
  match r with
  | S754_zero s | S754_infinity s | S754_finite s _ _ => Bool.eqb s sx
  | S754_nan => false
  end.

(** [r >= 0]: a zero of either sign, a positive finite value or plus
    infinity. *)
Definition sf_nonneg (r : spec_float) : bool :=
  match r with
  | S754_zero _ => true
  | S754_infinity s | S754_finite s _ _ => negb s
  | S754_nan => false
  end.

(** [r < 0]: a negative finite value or minus infinity. *)
Definition sf_negative (r : spec_float) : bool :=
  match r with
  | S754_infinity s | S754_finite s _ _ => s
  | _ => false
  end.

(** The subtraction [a - b] converts no [int] that a float cannot
    hold: the operands are of one kind, or the [int] among them is at
    most [2^53] in absolute value. *)
Definition converted_exactly (a b : pynum) : bool :=
  match a, b with
  | PyNum.PyInt x, PyNum.PyFloat _ => Z.abs x <=? 2 ^ 53
  | PyNum.PyFloat _, PyNum.PyInt y => Z.abs y <=? 2 ^ 53
  | _, _ => true
  end.

(** The four keys of the nutrition dictionary of a stored meal. *)
Definition nutrition_keys : list string := ["calories"; "protein"; "carbs"; "fats"].


(** A summary none of whose four fields is negative. *)
Definition summary_non_negative (n : nutrition) : Prop :=
  PyNum.ge0 (calories n) = true /\ PyNum.ge0 (protein n) = true /\
  PyNum.ge0 (carbs n) = true /\ PyNum.ge0 (fats n) = true.

(** The running total of one nutrition value over a list of meals, as
    the loops of the endpoints compute it: from the float [0.0], meal
    after meal. *)
Definition running_sum (key : string) (meals : list meal_doc) : exn + pynum :=
  PyNum.sum_from (PyFloat 0) (map (Main.meal_get key) meals).

(** What [generate_advice] makes of the provider's answer. *)
Definition advice_of (r : exn + string) : exn + string :=
  match r with
  | inl e => inl (PyExc Exception ("Advisor Agent failed: " +:+ str_exn e))
  | inr s => inr (PyStr.strip s)
  end.

(** The trace the advisor's provider sees when the Advisor Step is
    entered in [w]. *)
Definition trace_at_advisor (req : advice_request) (w : world) : list event :=
  w_trace w ++ [AdvisorBegin req].

(** A computation whose result depends on the world through the
    environment only. *)
Definition env_only {A} (m : M A) : Prop :=
  forall w1 w2, w_env w1 = w_env w2 -> fst (m w1) = fst (m w2).

(** What the Vision Step makes of the provider's answer. *)
Definition description_of (r : exn + string) : exn + string :=
  match r with
  | inl e => inl (PyExc Exception ("Vision Agent failed: " +:+ str_exn e))
  | inr content => inr (PyStr.strip content)
  end.

(** What the Vision Step returns when entered in [w], and the world
    after it. *)
Definition vision_outcome (P : providers) (self : Council.VisionAgent)
    (image_bytes : list Byte.byte) (w : world) : exn + string :=
  description_of
    (vision_api P (w_trace w ++ [VisionBegin image_bytes])
       (Council.v_google_api_key self) image_bytes).

Definition after_vision (image_bytes : list Byte.byte) (r : exn + string)
    (w : world) : world :=
  add_event (VisionEnd r) (add_event (VisionBegin image_bytes) w).

(** A vision provider whose answer depends on the key and the image
    only, not on what happened before. *)
Definition deterministic_vision (P : providers) : Prop :=
  forall tr tr' key image_bytes,
    vision_api P tr key image_bytes = vision_api P tr' key image_bytes.

(** A user document with what [log_meal] and [get_dashboard] take for
    its missing goal fields written out. *)
Definition with_defaults (user : user_doc) : user_doc :=
  {| u_health_goal := Some (default "maintain" (u_health_goal user));
     u_daily_calorie_goal := Some (default 2500 (u_daily_calorie_goal user)) |}.

(** The database with the document of [oid] replaced. *)
Definition put_user (oid : string) (user : user_doc) (d : database) : database :=
  {| users := <[oid := user]> (users d); meal_logs := meal_logs d |}.

(** The meal records of a world, when it has a database. *)
Definition logs_of (w : world) : option (list meal_doc) := option_map meal_logs (w_db w).

(** * Concrete runs

    Mock providers, an environment and a store on which the statements
    below are evaluated. *)

Module Scenario.

(** A nutrition provider that always answers with the given response, a
    Groq provider that always returns the given result, a vision
    provider that always reads the same dish, a clock that stands at
    [t], a store that accepts every write. *)
Definition mock (resp : exn + http_response) (advice : exn + string) (t : Z)
    : providers :=
  {| vision_api := fun _ _ _ => inr "  Bowl of Lablabi with tuna and egg, approx 400g ";
     nutrition_api := fun _ _ _ => resp;
     groq_api := fun _ _ _ _ => advice;
     openrouter_api := fun _ _ _ _ => advice;
     utcnow := fun _ => t;
     ObjectId := fun s => if Nat.eqb (String.length s) 24 then Some s else None;
     inserted_id := fun _ _ => "507f191e810c19729de860ea";
     insert_error := fun _ _ => None |}.

Definition ok_response (items : list item) : exn + http_response :=
  inr {| status_code := 200; text := ""; json := inr (Some items) |}.

Definition food (c p cb f : pynum) : item :=
  {[ "calories" := c; "protein_g" := p;
     "carbohydrates_total_g" := cb; "fat_total_g" := f ]}.

(** 2026-01-18 17:30:00 UTC, and the midnight before it. *)
Definition t0 : Z := 1768757400 * 1000000.
Definition day0 : Z := 1768694400 * 1000000.

Definition env0 : gmap string string :=
  {[ "GOOGLE_API_KEY" := "g-key"; "CALORIENINJAS_API_KEY" := "c-key";
     "GROQ_API_KEY" := "q-key" ]}.

Definition uid : string := "507f1f77bcf86cd799439011".
Definition other_uid : string := "507f1f77bcf86cd799439012".

Definition user0 : user_doc :=
  {| u_health_goal := Some "lose_weight"; u_daily_calorie_goal := Some 2000 |}.

Definition meal (who : string) (t : Z) (n : gmap string pynum) : meal_doc :=
  {| m_user_id := who; m_timestamp := t; m_dish_name := "couscous";
     m_image_url := None; m_nutrition := Some n; m_ai_advice := "" |}.

Definition world_with (logs : list meal_doc) : world :=
  {| w_db := Some {| users := {[ uid := user0 ]}; meal_logs := logs |};
     w_env := env0;
     w_trace := [] |}.

Definition w0 : world := world_with [].

Definition council : Council.AICouncil :=
  {| Council.vision_agent :=
       {| Council.v_google_api_key := "g-key"; Council.v_model := "gemini-1.5-flash" |};
     Council.nutrition_calculator :=
       {| Council.n_api_key := "c-key";
          Council.n_base_url := "https://api.calorieninjas.com/v1/nutrition" |};
     Council.advisor_agent :=
       {| Council.provider := "groq";
          Council.backend := Council.GroqBackend "q-key" "llama3-70b-8192" |} |}.

Definition profile0 : user_profile :=
  {| up_health_goal := Some "lose_weight"; up_daily_calorie_goal := Some (PyInt 2000) |}.

Definition fish_and_salad : list item :=
  [ food (PyFloat 200.0) (PyFloat 35.0) (PyFloat 0.0) (PyFloat 10.0);
    food (PyFloat 150.0) (PyFloat 5.0) (PyFloat 10.0) (PyFloat 2.0) ].

(** The provider recognises the two items of the specification's
    end-to-end scenario. *)
Definition P_ok : providers := mock (ok_response fish_and_salad) (inr " Eat light tonight. ") t0.

(** The provider recognises nothing. *)
Definition P_empty : providers := mock (ok_response []) (inr "unused") t0.

(** The request to the nutrition provider times out. *)
Definition P_timeout : providers :=
  mock (inl (PyExc TimeoutException "timed out")) (inr "unused") t0.

(** The advisor's provider fails. *)
Definition P_no_advice : providers :=
  mock (ok_response fish_and_salad) (inl (PyExc ProviderError "503 Service Unavailable")) t0.

(** One item of 250.1 kcal. *)
Definition P_snack : providers :=
  mock (ok_response [food (PyFloat 250.1) (PyFloat 3.0) (PyFloat 40.0) (PyFloat 8.5)])
       (inr "Keep it up.") t0.

(** One date, 4 kcal; and a profile whose goal is an integer that no
    float holds, [2^53 + 3]. *)
Definition P_date : providers :=
  mock (ok_response [food (PyFloat 4.0) (PyFloat 0.0) (PyFloat 1.0) (PyFloat 0.0)])
       (inr "Keep it up.") t0.

Definition profile_beyond_floats : user_profile :=
  {| up_health_goal := Some "maintain";
     up_daily_calorie_goal := Some (PyInt (2 ^ 53 + 3)) |}.

Definition request0 : Main.LogMealRequest :=
  {| Main.user_id := uid;
     Main.verified_text := "grilled fish with salad, 300g";
     Main.image_url := None |}.

(** Four items whose calories are 2^53, 1, 2^-53 and 2^-53, and the same
    four in the opposite order. *)
Definition wide_items : list item :=
  [ food (PyFloat 9007199254740992.0) (PyFloat 0.0) (PyFloat 0.0) (PyFloat 0.0);
    food (PyFloat 1.0) (PyFloat 0.0) (PyFloat 0.0) (PyFloat 0.0);
    food (PyFloat 0x1p-53) (PyFloat 0.0) (PyFloat 0.0) (PyFloat 0.0);
    food (PyFloat 0x1p-53) (PyFloat 0.0) (PyFloat 0.0) (PyFloat 0.0) ].

Definition P_wide : providers := mock (ok_response wide_items) (inr "unused") t0.
Definition P_wide_rev : providers := mock (ok_response (rev wide_items)) (inr "unused") t0.

(** Three items with integer values. *)
Definition int_items : list item :=
  [ food (PyInt 120) (PyInt 4) (PyInt 20) (PyInt 2);
    food (PyInt 95) (PyInt 1) (PyInt 22) (PyInt 0);
    {[ "calories" := PyInt 310; "fat_total_g" := PyInt 11 ]} ].

Definition P_int : providers := mock (ok_response int_items) (inr "unused") t0.
Definition P_int_rev : providers := mock (ok_response (rev int_items)) (inr "unused") t0.

Definition nc : Council.NutritionCalculator := Council.nutrition_calculator council.

(** Three items of 13.93, 241.94 and 164.58 kcal, in two orders. *)
Definition three_items : list item :=
  [ food (PyFloat 13.93) (PyFloat 0.5) (PyFloat 2.0) (PyFloat 0.25);
    food (PyFloat 241.94) (PyFloat 12.0) (PyFloat 30.0) (PyFloat 8.0);
    food (PyFloat 164.58) (PyFloat 3.0) (PyFloat 35.0) (PyFloat 1.5) ].

Definition three_items_swapped : list item :=
  [ food (PyFloat 241.94) (PyFloat 12.0) (PyFloat 30.0) (PyFloat 8.0);
    food (PyFloat 164.58) (PyFloat 3.0) (PyFloat 35.0) (PyFloat 1.5);
    food (PyFloat 13.93) (PyFloat 0.5) (PyFloat 2.0) (PyFloat 0.25) ].

(** The calories of a result, as the IEEE value it is (NaN when there is
    no float to look at). *)
Definition calories_bits (r : exn + nutrition) : spec_float :=
  match r with
  | inr {| calories := PyFloat f |} => Prim2SF f
  | _ => S754_nan
  end.

(** The provider answers 503 with an error page. *)
Definition P_unavailable : providers :=
  mock (inr {| status_code := 503; text := "Service Unavailable";
               json := inl (PyExc ProviderError "Expecting value: line 1 column 1 (char 0)") |})
       (inr "unused") t0.


(** A stored nutrition dictionary. *)
Definition nd (c p cb f : pynum) : gmap string pynum :=
  Main.nutrition_dict {| calories := c; protein := p; carbs := cb; fats := f |}.

(** The store of the dashboard scenario of the specification: for [uid]
    three meals today (450, 320 and 680 kcal, the first of them exactly
    at midnight) and one a millisecond before midnight; one meal of
    another user today. *)
Definition dashboard_logs : list meal_doc :=
  [ meal uid (day0 - 1000) (nd (PyFloat 999.0) (PyFloat 9.0) (PyFloat 9.0) (PyFloat 9.0));
    meal uid day0 (nd (PyFloat 450.0) (PyFloat 25.0) (PyFloat 50.0) (PyFloat 15.0));
    meal other_uid (day0 + 3600 * 1000000)
      (nd (PyFloat 700.0) (PyFloat 7.0) (PyFloat 7.0) (PyFloat 7.0));
    meal uid (day0 + 7 * 3600 * 1000000)
      (nd (PyFloat 320.0) (PyFloat 18.0) (PyFloat 45.0) (PyFloat 8.0));
    meal uid (t0 - 60 * 1000000)
      (nd (PyFloat 680.0) (PyFloat 37.0) (PyFloat 65.0) (PyFloat 22.0)) ].

(** Three meals of today, of 2^53, 1 and 1 kcal; and the same three
    values with the large meal logged last. *)
Definition wide_logs : list meal_doc :=
  [ meal uid (day0 + 1000)
      (nd (PyFloat 9007199254740992.0) (PyFloat 0.0) (PyFloat 0.0) (PyFloat 0.0));
    meal uid (day0 + 2000) (nd (PyFloat 1.0) (PyFloat 0.0) (PyFloat 0.0) (PyFloat 0.0));
    meal uid (day0 + 3000) (nd (PyFloat 1.0) (PyFloat 0.0) (PyFloat 0.0) (PyFloat 0.0)) ].

Definition wide_logs_late : list meal_doc :=
  [ meal uid (day0 + 1000) (nd (PyFloat 1.0) (PyFloat 0.0) (PyFloat 0.0) (PyFloat 0.0));
    meal uid (day0 + 2000) (nd (PyFloat 1.0) (PyFloat 0.0) (PyFloat 0.0) (PyFloat 0.0));
    meal uid (day0 + 3000)
      (nd (PyFloat 9007199254740992.0) (PyFloat 0.0) (PyFloat 0.0) (PyFloat 0.0)) ].

(** One meal of today, of 1197.9 kcal. *)
Definition one_meal_logs : list meal_doc :=
  [ meal uid (day0 + 1000) (nd (PyFloat 1197.9) (PyFloat 60.0) (PyFloat 120.0) (PyFloat 40.5)) ].

Definition db_with (logs : list meal_doc) : database :=
  {| users := {[ uid := user0 ]}; meal_logs := logs |}.

(** What the dashboard of [uid] reports as consumed and as remaining in a
    store holding [logs] (NaN when it does not answer). *)
Definition reported (logs : list meal_doc) : pynum * pynum :=
  match fst (Main.get_dashboard P_ok uid (world_with logs)) with
  | inr resp => (Main.total_consumed resp, Main.remaining resp)
  | inl _ => (PyFloat nan, PyFloat nan)
  end.

(** Environments for the advisor: OpenRouter chosen with a key and no
    model name; Groq chosen implicitly, with a model name nobody reads;
    a provider name that is neither of the two; OpenRouter in capitals
    and with a model name. *)
Definition env_openrouter : gmap string string :=
  {[ "ADVISOR_PROVIDER" := "openrouter"; "OPENROUTER_API_KEY" := "or-key" ]}.

Definition env_groq_model : gmap string string :=
  {[ "GROQ_API_KEY" := "q-key"; "GROQ_MODEL" := "mixtral-8x7b" ]}.

Definition env_mistral : gmap string string :=
  {[ "ADVISOR_PROVIDER" := "mistral"; "GROQ_API_KEY" := "q-key" ]}.

Definition env_capitals : gmap string string :=
  {[ "ADVISOR_PROVIDER" := "OpenRouter"; "OPENROUTER_API_KEY" := "or-key";
     "OPENROUTER_MODEL" := "meta-llama/llama-3-70b-instruct" ]}.

Definition world_of_env (env : gmap string string) : world :=
  {| w_db := None; w_env := env; w_trace := [] |}.

Definition photo : Main.UploadFile :=
  {| Main.content_type := Some "image/jpeg";
     Main.file_bytes := [Byte.xff; Byte.xd8; Byte.xff; Byte.xe0] |}.

(** A user document without goal fields, and a store holding it. *)
Definition bare_user : user_doc := {| u_health_goal := None; u_daily_calorie_goal := None |}.

Definition bare_world : world :=
  {| w_db := Some {| users := {[ uid := bare_user ]}; meal_logs := [] |};
     w_env := env0;
     w_trace := [] |}.

Definition no_profile : user_profile :=
  {| up_health_goal := None; up_daily_calorie_goal := None |}.

End Scenario.


(** * Vocabulary of the further properties *)

(** ** Credentials *)

(** The variable that holds the credential of the advice provider the
    environment selects. *)
Definition advisor_key (env : gmap string string) : string :=
  if String.eqb (PyStr.lower (default "groq" (env !! "ADVISOR_PROVIDER"))) "openrouter"
  then "OPENROUTER_API_KEY" else "GROQ_API_KEY".

(** The variables [AICouncil()] needs, in the order in which its three
    constructors read them. *)
Definition required_keys (env : gmap string string) : list string :=
  ["GOOGLE_API_KEY"; "CALORIENINJAS_API_KEY"; advisor_key env].

(** The first of them that is unset or empty. *)
Definition first_missing (env : gmap string string) : option string :=
  List.find (fun k => negb (PyStr.truthy (env !! k))) (required_keys env).

(** The exception a constructor raises for the variable [k]. *)
Definition not_found (k : string) : exn :=
  PyExc ValueError (k +:+ " not found in environment variables").

(** ** Uploads *)

(** The largest upload [POST /analyze] accepts, in bytes. *)
Definition max_image_bytes : Z := 10 * 1024 * 1024.

(** An upload that passes the two checks of [POST /analyze]. *)
Definition acceptable (image : Main.UploadFile) : Prop :=
  (exists ct, Main.content_type image = Some ct /\ PyStr.startswith ct "image/" = true) /\
  Z.of_nat (length (Main.file_bytes image)) <= max_image_bytes.

(** The exception [get_database] raises before [connect_to_mongo] has
    set the database. *)
Definition not_connected : exn :=
  PyExc RuntimeError
    "Database not connected. Ensure connect_to_mongo() was called during startup.".

(** ** Further concrete runs *)

Module Cases.

(** An environment with the key of the vision provider and of the advice
    provider, and none for the nutrition provider. *)
Definition env_no_nutrition_key : gmap string string :=
  {[ "GOOGLE_API_KEY" := "g-key"; "GROQ_API_KEY" := "q-key" ]}.

(** An environment whose vision key is set to the empty string. *)
Definition env_empty_key : gmap string string :=
  {[ "GOOGLE_API_KEY" := ""; "CALORIENINJAS_API_KEY" := "c-key"; "GROQ_API_KEY" := "q-key" ]}.

Definition world_of (env : gmap string string) (logs : list meal_doc) : world :=
  {| w_db := Some (Scenario.db_with logs); w_env := env; w_trace := [] |}.

(** A world whose database is not connected. *)
Definition offline : world :=
  {| w_db := None; w_env := Scenario.env0; w_trace := [] |}.

(** The provider of the end-to-end scenario, with a clock that stands
    123456 microseconds after [t0]. *)
Definition P_micro : providers :=
  Scenario.mock (Scenario.ok_response Scenario.fish_and_salad)
    (inr " Eat light tonight. ") (Scenario.t0 + 123456).

(** The nutrition provider answers 502 and quotes an upstream error. *)
Definition P_quoting : providers :=
  Scenario.mock
    (inr {| status_code := 502; text := "upstream: No food items recognized";
            json := inl (PyExc ProviderError "Expecting value: line 1 column 1 (char 0)") |})
    (inr "unused") Scenario.t0.

(** One item as the provider sends it, with a serving size and sugars
    and an explicit zero for the carbohydrates; and the same item
    reduced to what is read, the carbohydrates left out. *)
Definition rich_item : item :=
  {[ "calories" := PyFloat 200.0; "protein_g" := PyFloat 35.0;
     "carbohydrates_total_g" := PyInt 0; "fat_total_g" := PyFloat 10.0;
     "serving_size_g" := PyFloat 100.0; "sugar_g" := PyFloat 3.0 ]}.

Definition bare_item : item :=
  {[ "calories" := PyFloat 200.0; "protein_g" := PyFloat 35.0;
     "fat_total_g" := PyFloat 10.0 ]}.

Definition P_rich : providers :=
  Scenario.mock (Scenario.ok_response [rich_item]) (inr "unused") Scenario.t0.

Definition P_bare : providers :=
  Scenario.mock (Scenario.ok_response [bare_item]) (inr "unused") Scenario.t0.

(** What the store raises for a document one of whose nutrition values
    is an integer that does not fit 8 bytes. *)
Definition bson_error (doc : meal_doc) : option exn :=
  if existsb (fun key => match Main.meal_get key doc with
                         | PyNum.PyInt z => (z <? - 2 ^ 63) || (2 ^ 63 <=? z)
                         | PyNum.PyFloat _ => false
                         end) nutrition_keys
  then Some (PyExc OverflowError "MongoDB can only handle up to 8-byte ints")
  else None.

(** The providers [P] with a store that refuses such documents. *)
Definition with_bson_store (P : providers) : providers :=
  {| vision_api := vision_api P;
     nutrition_api := nutrition_api P;
     groq_api := groq_api P;
     openrouter_api := openrouter_api P;
     utcnow := utcnow P;
     ObjectId := ObjectId P;
     inserted_id := inserted_id P;
     insert_error := fun _ doc => bson_error doc |}.

(** The nutrition provider answers with an integer number of calories
    that does not fit 8 bytes. *)
Definition huge_item : item :=
  {[ "calories" := PyInt (2 ^ 63); "protein_g" := PyFloat 1.0;
     "carbohydrates_total_g" := PyFloat 2.0; "fat_total_g" := PyFloat 3.0 ]}.

Definition P_huge : providers :=
  with_bson_store
    (Scenario.mock (Scenario.ok_response [huge_item]) (inr "Eat light tonight.")
       Scenario.t0).

End Cases.

(** ** Well-formed records and answers *)

(** A value that is the integer [0] of a missing key, or a float that is
    not negative (and not NaN). *)
Definition zero_or_positive_float (x : pynum) : Prop :=
  x = PyInt 0 \/ (PyNum.is_int x = false /\ PyNum.ge0 x = true).

(** A stored meal whose nutrition values, where it has them, are such
    values: what [log_meal] stores when the nutrition provider answers
    with floats that are not negative. *)
Definition well_stored (m : meal_doc) : Prop :=
  forall key v,
    In key nutrition_keys -> default ∅ (m_nutrition m) !! key = Some v ->
    zero_or_positive_float v.

(** An item of the nutrition provider whose macro-nutrient values, where
    it has them, are floats that are not negative. *)
Definition well_formed_item (it : item) : Prop :=
  forall key v,
    In key macro_fields -> it !! key = Some v ->
    PyNum.is_int v = false /\ PyNum.ge0 v = true.

(** Advice providers that answer every request. *)
Definition advice_available (P : providers) : Prop :=
  (forall tr key model req, exists s, groq_api P tr key model req = inr s) /\
  (forall tr key model req, exists s, openrouter_api P tr key model req = inr s).

(** What the advice provider that the environment selects answers to
    the request [req], asked at the trace [tr] with the key and the
    model name the environment gives. *)
Definition selected_answer (P : providers) (env : gmap string string)
    (tr : list event) (req : advice_request) : exn + string :=
  if String.eqb (PyStr.lower (default "groq" (env !! "ADVISOR_PROVIDER"))) "openrouter"
  then openrouter_api P tr (default "" (env !! "OPENROUTER_API_KEY"))
         (default "anthropic/claude-3.5-sonnet" (env !! "OPENROUTER_MODEL")) req
  else groq_api P tr (default "" (env !! "GROQ_API_KEY")) "llama3-70b-8192" req.

(** A number as a response field declared [float] holds it: an [int]
    is converted. *)
Definition response_float (x : pynum) : pynum :=
  match x with
  | PyNum.PyInt z =>
      match PyNum.float_of_int z with
      | inr f => PyFloat f
      | inl _ => x
      end
  | PyNum.PyFloat _ => x
  end.

(** A summary as the response of [log_meal] holds it. *)
Definition response_summary (n : nutrition) : nutrition :=
  {| calories := response_float (calories n);
     protein := response_float (protein n);
     carbs := response_float (carbs n);
     fats := response_float (fats n) |}.

(** A store that accepts the well-stored records of the user [oid]
    with the text [text]: no other reason than a value BSON cannot
    encode makes it refuse the record [log_meal] writes. *)
Definition write_accepted (P : providers) (d : database) (oid text : string) : Prop :=
  forall doc,
    m_user_id doc = oid -> m_dish_name doc = text -> well_stored doc ->
    insert_error P (meal_logs d) doc = None.

(** ** Texts *)

(** The text [calculate_nutrition] looks for in the exceptions it
    catches. *)
Definition marker : string := "No food items recognized".

(** A string that begins, or ends, with an ASCII whitespace character. *)
Definition starts_with_space (s : string) : bool :=
  match s with
  | EmptyString => false
  | String c _ => PyStr.is_space c
  end.

Fixpoint ends_with_space (s : string) : bool :=
  match s with
  | EmptyString => false
  | String c EmptyString => PyStr.is_space c
  | String _ s' => ends_with_space s'
  end.

(** Whether the bytes begin with a whitespace character. *)
Definition space_ahead (sp2 : ascii -> ascii -> bool) (sp3 : ascii -> ascii -> ascii -> bool)
    (l : list ascii) : bool :=
  match l with
  | [] => false
  | a :: l1 =>
      PyStr.is_space a ||
      match l1 with
      | [] => false
      | b :: l2 =>
          sp2 a b ||
          match l2 with
          | [] => false
          | c :: _ => sp3 a b c
          end
      end
  end.

(** ** Items *)

(** Two items with the same four macro-nutrient values, a missing one
    counting as the integer [0]. *)
Definition same_macros (a b : item) : Prop :=
  forall key, In key macro_fields -> Council.item_get key a = Council.item_get key b.

(** ** The connection to the database *)

(** The URI and the database name the environment gives, with the
    defaults of database.py and seed_db.py. *)
Definition mongo_uri (env : gmap string string) : string :=
  default "mongodb://localhost:27017" (env !! "MONGO_URI").

Definition database_name (env : gmap string string) : string :=
  default "nutrisnap_db" (env !! "DATABASE_NAME").

(** The state of the module when it is imported. *)
Definition imported (env : gmap string string) : Database.state :=
  {| Database.heap := []; Database._client := None; Database._database := None;
     Database.environ := env; Database.stdout := []; Database.pings := 0 |}.

(** A call of one of the four functions of the connection's life, each
    connection with a driver of its own. *)
Inductive call :=
| Connect (drv : Database.driver)
| Close
| Startup (drv : Database.driver)
| Shutdown.

Definition after_call (c : call) (s : Database.state) : Database.state :=
  match c with
  | Connect drv => snd (Database.connect_to_mongo drv s)
  | Close => snd (Database.close_mongo_connection s)
  | Startup drv => snd (Database.lifespan_startup drv s)
  | Shutdown => snd (Database.lifespan_shutdown s)
  end.

(** The state after a sequence of calls, the first call first. *)
Definition after_calls (cs : list call) (s : Database.state) : Database.state :=
  fold_left (fun s c => after_call c s) cs s.

(** The client a database handle was taken from is closed. *)
Definition on_closed_client (s : Database.state) (db : Database.database_handle) : Prop :=
  exists cl, Database.heap s !! Database.of_client db = Some cl /\ Database.closed cl = true.

(** ** Seeding *)

(** The collection of users the script works on. *)
Definition seeded_collection (s : Seed.state) : list Seed.document :=
  default [] (Seed.users s !! (mongo_uri (Seed.environ s), database_name (Seed.environ s))).

(** * Properties *)

(** ** The monad *)

Lemma readonly_ret {A} (a : A) : readonly (ret a).
Proof. now intros w. Qed.

Lemma readonly_raise {A} (e : exn) : readonly (@raise A e).
Proof. now intros w. Qed.

Lemma readonly_lift {A} (r : exn + A) : readonly (lift r).
Proof. now intros w. Qed.

Lemma readonly_get_world : readonly get_world.
Proof. now intros w. Qed.

Lemma readonly_bind {A B} (m : M A) (k : A -> M B) :
  readonly m -> (forall a, readonly (k a)) -> readonly (bind m k).
Proof.
  intros Hm Hk w. unfold bind. specialize (Hm w).
  destruct (m w) as [[e|a] w']; simpl in *; subst; auto. apply Hk.
Qed.

Lemma readonly_try_except {A} (m : M A) (h : exn -> M A) :
  readonly m -> (forall e, readonly (h e)) -> readonly (try_except m h).
Proof.
  intros Hm Hh w. unfold try_except. specialize (Hm w).
  destruct (m w) as [[e|a] w']; simpl in *; subst; auto. apply Hh.
Qed.

Ltac readonly_tac :=
  repeat first
    [ apply readonly_ret | apply readonly_raise | apply readonly_lift
    | apply readonly_get_world
    | apply readonly_bind; [| intros ?]
    | apply readonly_try_except; [| intros ?]
    | match goal with
      | |- readonly (if ?b then _ else _) => destruct b
      | |- readonly (match ?x with _ => _ end) => destruct x
      end ].

Lemma traced_run {A} en lv (body : M A) w :
  readonly body ->
  traced en lv body w =
    (fst (body (add_event en w)),
     add_event (lv (fst (body (add_event en w)))) (add_event en w)).
Proof.
  intros H. unfold traced. specialize (H (add_event en w)).
  destruct (body (add_event en w)) as [r w']. simpl in *. now subst.
Qed.

Lemma new_events_app w w' evs :
  w_trace w' = w_trace w ++ evs -> new_events w w' = evs.
Proof. intros H. unfold new_events. rewrite H. apply drop_app_length. Qed.

(** ** Numbers *)

Lemma is_int_inv x : PyNum.is_int x = true -> exists z, x = PyInt z.
Proof. destruct x as [z|f]; [eauto | discriminate]. Qed.

Lemma sum_from_ints xs :
  Forall (fun x => PyNum.is_int x = true) xs ->
  forall a, exists z, PyNum.sum_from (PyInt a) xs = inr (PyInt z).
Proof.
  induction 1 as [|x xs Hx _ IH]; intros a; simpl.
  - eauto.
  - destruct (is_int_inv x Hx) as [v ->]. simpl. apply IH.
Qed.

(** A sum of Python ints does not depend on their order. *)
Lemma sum_from_ints_perm xs ys :
  Permutation xs ys ->
  Forall (fun x => PyNum.is_int x = true) xs ->
  forall a, exists z,
    PyNum.sum_from (PyInt a) xs = inr (PyInt z) /\
    PyNum.sum_from (PyInt a) ys = inr (PyInt z).
Proof.
  induction 1 as [|x xs ys Hp IH|x y l|xs ys zs Hp1 IH1 Hp2 IH2]; intros Hall a.
  - exists a. now split.
  - inversion Hall as [|? ? Hx Hxs]; subst.
    destruct (is_int_inv x Hx) as [v ->]. simpl. apply IH, Hxs.
  - inversion Hall as [|? ? Hy Hrest]; subst.
    inversion Hrest as [|? ? Hx Hl]; subst.
    destruct (is_int_inv x Hx) as [v ->]. destruct (is_int_inv y Hy) as [u ->].
    simpl. replace (a + v + u) with (a + u + v) by lia.
    destruct (sum_from_ints l Hl (a + u + v)) as [z Hz]. exists z. now split.
  - destruct (IH1 Hall a) as [z [H1 H2]].
    assert (Hall' : Forall (fun x => PyNum.is_int x = true) ys).
    { eapply Permutation_Forall; eassumption. }
    destruct (IH2 Hall' a) as [z' [H3 H4]].
    exists z. split; [assumption|]. congruence.
Qed.

(** A sum of floats and of integer zeros never raises. *)
Lemma sum_from_floats xs :
  Forall (fun x => x = PyInt 0 \/ PyNum.is_int x = false) xs ->
  forall acc, acc = PyInt 0 \/ PyNum.is_int acc = false ->
  exists s, PyNum.sum_from acc xs = inr s.
Proof.
  assert (H0 : exists g, PyNum.float_of_int 0 = inr g) by (vm_compute; eauto).
  destruct H0 as [g0 Hg0].
  induction 1 as [|x xs Hx _ IH]; intros acc Hacc; simpl; [eauto|].
  assert (Hadd : exists acc', PyNum.add acc x = inr acc' /\
                              (acc' = PyInt 0 \/ PyNum.is_int acc' = false)).
  { unfold PyNum.add, PyNum.lift2.
    destruct Hacc as [-> | Hacc]; destruct Hx as [-> | Hx].
    - eexists. split; [reflexivity|]. now left.
    - destruct x as [z|f]; [discriminate|]. rewrite Hg0. eexists. split; [reflexivity|].
      now right.
    - destruct acc as [z|a]; [discriminate|]. rewrite Hg0. eexists. split; [reflexivity|].
      now right.
    - destruct acc as [z|a]; [discriminate|]. destruct x as [z|f]; [discriminate|].
      eexists. split; [reflexivity|]. now right. }
  destruct Hadd as [acc' [-> Hacc']]. now apply IH.
Qed.

(** *** Signs

    Adding two values that are not negative, converting an int that is
    not negative and rounding a value that is not negative give values
    that are not negative: the rounding of the IEEE operations never
    changes the sign. *)

Lemma iter_pos_invariant {A} (I : A -> Prop) (f : A -> A) :
  (forall x, I x -> I (f x)) -> forall n x, I x -> I (SpecFloat.iter_pos f n x).
Proof.
  intros Hf. induction n as [n IH|n IH|]; intros x Hx; simpl; auto.
Qed.

Lemma shr_1_nonneg mrs : 0 <= shr_m mrs -> 0 <= shr_m (shr_1 mrs).
Proof.
  destruct mrs as [m r s]. simpl. intros Hm.
  destruct m as [|[p|p|]|p]; simpl; lia.
Qed.

Lemma shr_nonneg mrs e n : 0 <= shr_m mrs -> 0 <= shr_m (fst (shr mrs e n)).
Proof.
  intros Hm. unfold shr. destruct n as [|p|p]; simpl; try assumption.
  apply (iter_pos_invariant (fun x => 0 <= shr_m x)); [apply shr_1_nonneg | assumption].
Qed.

Lemma shr_record_of_loc_m m l : shr_m (shr_record_of_loc m l) = m.
Proof. destruct l as [|[]]; reflexivity. Qed.

Lemma shr_fexp_nonneg prec emax m e l :
  0 <= m -> 0 <= shr_m (fst (shr_fexp prec emax m e l)).
Proof.
  intros Hm. unfold shr_fexp. apply shr_nonneg. now rewrite shr_record_of_loc_m.
Qed.

Lemma round_nearest_even_nonneg m l : 0 <= m -> 0 <= round_nearest_even m l.
Proof.
  intros Hm. unfold round_nearest_even.
  destruct l as [|[]]; try lia. destruct (Z.even m); lia.
Qed.

Lemma binary_round_aux_signed prec emax sx mx ex lx :
  0 <= mx -> sf_signed sx (binary_round_aux prec emax sx mx ex lx) = true.
Proof.
  intros Hm. unfold binary_round_aux.
  pose proof (shr_fexp_nonneg prec emax mx ex lx Hm) as H1.
  destruct (shr_fexp prec emax mx ex lx) as [mrs' e']. simpl in H1.
  pose proof (shr_fexp_nonneg prec emax
                (round_nearest_even (shr_m mrs') (loc_of_shr_record mrs')) e' loc_Exact
                (round_nearest_even_nonneg _ _ H1)) as H2.
  destruct (shr_fexp prec emax _ e' loc_Exact) as [mrs'' e'']. simpl in H2.
  destruct (shr_m mrs'') as [|m|m]; simpl.
  - apply Bool.eqb_reflx.
  - destruct (e'' <=? emax - prec); simpl; apply Bool.eqb_reflx.
  - lia.
Qed.

Lemma binary_round_signed prec emax sx mx ex :
  sf_signed sx (binary_round prec emax sx mx ex) = true.
Proof.
  unfold binary_round. destruct (shl_align mx ex _) as [mz ez].
  apply binary_round_aux_signed. lia.
Qed.

Lemma sf_signed_nonneg r : sf_signed false r = true -> sf_nonneg r = true.
Proof. destruct r as [s|s| |s m e]; simpl; try discriminate; destruct s; auto. Qed.

Lemma binary_normalize_nonneg prec emax z e :
  0 <= z -> sf_nonneg (binary_normalize prec emax z e false) = true.
Proof.
  intros Hz. destruct z as [|m|m]; simpl; [reflexivity| |lia].
  apply sf_signed_nonneg, binary_round_signed.
Qed.

Lemma SFadd_nonneg prec emax x y :
  sf_nonneg x = true -> sf_nonneg y = true -> sf_nonneg (SFadd prec emax x y) = true.
Proof.
  destruct x as [sx|sx| |sx mx ex]; destruct y as [sy|sy| |sy my ey]; simpl;
    try discriminate; try (destruct sx; simpl; try discriminate);
    try (destruct sy; simpl; try discriminate); auto.
  intros _ _. apply sf_signed_nonneg.
  destruct (shl_align mx ex (Z.min ex ey)) as [mx' ex'].
  destruct (shl_align my ey (Z.min ex ey)) as [my' ey']. simpl.
  apply binary_round_signed.
Qed.

Lemma SFdiv_nonneg prec emax x my ey :
  sf_nonneg x = true ->
  sf_nonneg (SFdiv prec emax x (S754_finite false my ey)) = true.
Proof.
  destruct x as [sx|sx| |sx mx ex]; simpl; try discriminate; auto.
  - destruct sx; simpl; [discriminate|auto].
  - destruct sx; simpl; [discriminate|]. intros _.
    unfold SFdiv_core_binary.
    set (m' := match _ - _ - _ with Z0 => _ | Zpos _ => _ | Zneg _ => _ end).
    assert (Hm' : 0 <= m').
    { subst m'. destruct (_ - _ - _) as [|p|p]; try lia.
      apply Z.shiftl_nonneg. lia. }
    pose proof (Z_div_mod m' (Zpos my) ltac:(lia)) as Hd.
    destruct (Z.div_eucl m' (Zpos my)) as [q r]. destruct Hd as [Hq Hr].
    apply sf_signed_nonneg, binary_round_aux_signed. nia.
Qed.


Lemma SFleb_zero r : SFleb (S754_zero false) r = sf_nonneg r.
Proof. destruct r as [s|s| |s m e]; simpl; try reflexivity; destruct s; reflexivity. Qed.

Lemma leb_zero_spec (f : float) : (0 <=? f)%float = sf_nonneg (Prim2SF f).
Proof.
  rewrite FloatAxioms.leb_spec. change (Prim2SF 0) with (S754_zero false).
  apply SFleb_zero.
Qed.

Lemma float_add_nonneg (f g : float) :
  (0 <=? f)%float = true -> (0 <=? g)%float = true -> (0 <=? f + g)%float = true.
Proof.
  rewrite !leb_zero_spec, FloatAxioms.add_spec. apply SFadd_nonneg.
Qed.

Lemma of_uint63_nonneg n : sf_nonneg (Prim2SF (of_uint63 n)) = true.
Proof.
  rewrite FloatAxioms.of_uint63_spec. apply binary_normalize_nonneg.
  pose proof (Uint63.to_Z_bounded n). lia.
Qed.



Lemma float_round1_nonneg f :
  (0 <=? f)%float = true -> (0 <=? PyNum.float_round1 f)%float = true.
Proof.
  intros Hf. unfold PyNum.float_round1.
  pose proof Hf as Hs. rewrite leb_zero_spec in Hs.
  destruct (Prim2SF f) as [s|s| |s m e] eqn:Hp; try assumption.
  destruct (PrimFloat.abs f <? 0x1p49)%float; [|assumption].
  simpl in Hs. destruct s; [discriminate|].
  rewrite leb_zero_spec, FloatAxioms.div_spec.
  assert (H10 : exists m10 e10, Prim2SF 10 = S754_finite false m10 e10)
    by (vm_compute; eauto).
  destruct H10 as [m10 [e10 ->]].
  apply SFdiv_nonneg, of_uint63_nonneg.
Qed.


Lemma round1_nonneg a : PyNum.ge0 a = true -> PyNum.ge0 (PyNum.round1 a) = true.
Proof. destruct a as [z|f]; simpl; [auto | apply float_round1_nonneg]. Qed.


(** *** The sign of a difference

    [a - b] is negative whenever [a < b]: the operands of an IEEE
    subtraction are aligned on the smaller exponent, which is not below
    the least one, so the rounding of their non-zero difference never
    gives a zero. *)

Lemma digits2_pos_bounds m :
  2 ^ (Zpos (digits2_pos m) - 1) <= Zpos m < 2 ^ Zpos (digits2_pos m).
Proof.
  induction m as [m IH|m IH|]; simpl digits2_pos.
  - rewrite Pos2Z.inj_succ.
    replace (Z.succ (Zpos (digits2_pos m)) - 1) with (Z.succ (Zpos (digits2_pos m) - 1)) by lia.
    rewrite !Z.pow_succ_r by lia. lia.
  - rewrite Pos2Z.inj_succ.
    replace (Z.succ (Zpos (digits2_pos m)) - 1) with (Z.succ (Zpos (digits2_pos m) - 1)) by lia.
    rewrite !Z.pow_succ_r by lia. lia.
  - simpl. lia.
Qed.

Lemma shl_align_spec m e ez :
  ez <= e -> Zpos (fst (shl_align m e ez)) = Zpos m * 2 ^ (e - ez).
Proof.
  intros He. unfold shl_align.
  destruct (ez - e) as [|d|d] eqn:Hd; try lia; simpl.
  - replace (e - ez) with 0 by lia. simpl. lia.
  - change (Pos.iter xO m d) with (shift_pos d m).
    rewrite shift_pos_correct, Z.pow_pos_fold.
    replace (e - ez) with (Zpos d) by lia. apply Z.mul_comm.
Qed.

Lemma shl_align_exp m e ez : Z.min e ez <= snd (shl_align m e ez).
Proof.
  unfold shl_align. destruct (ez - e) as [|d|d] eqn:Hd; simpl; lia.
Qed.

Lemma shr_1_lower k mrs :
  0 <= k -> 2 ^ (k + 1) <= shr_m mrs -> 2 ^ k <= shr_m (shr_1 mrs).
Proof.
  intros Hk. destruct mrs as [m r s]. simpl. rewrite Z.pow_add_r by lia.
  assert (0 < 2 ^ k) by (apply Z.pow_pos_nonneg; lia).
  destruct m as [|[p|p|]|[p|p|]]; simpl; lia.
Qed.

Lemma iter_shr_1_lower n : forall k mrs,
  0 <= k -> 2 ^ (k + Zpos n) <= shr_m mrs ->
  2 ^ k <= shr_m (SpecFloat.iter_pos shr_1 n mrs).
Proof.
  induction n as [n IH|n IH|]; intros k mrs Hk Hm; simpl.
  - apply IH; [assumption|]. apply IH; [lia|]. apply shr_1_lower; [lia|].
    replace (k + Zpos n + Zpos n + 1) with (k + Zpos n~1) by lia. assumption.
  - apply IH; [assumption|]. apply IH; [lia|].
    replace (k + Zpos n + Zpos n) with (k + Zpos n~0) by lia. assumption.
  - now apply shr_1_lower.
Qed.

Lemma shr_fexp_pos prec emax m e l :
  0 < prec -> 0 < m -> SpecFloat.emin prec emax <= e ->
  0 < shr_m (fst (shr_fexp prec emax m e l)) /\
  SpecFloat.emin prec emax <= snd (shr_fexp prec emax m e l).
Proof.
  intros Hprec Hm He. unfold shr_fexp, shr, fexp.
  destruct m as [|p|p]; try lia. simpl Zdigits2.
  pose proof (digits2_pos_bounds p) as [Hlo _].
  destruct (Z.max _ _ - e) as [|n|n] eqn:Hn; simpl; rewrite ?shr_record_of_loc_m; try lia.
  split; [|lia].
  assert (H : 2 ^ (prec - 1)
              <= shr_m (SpecFloat.iter_pos shr_1 n (shr_record_of_loc (Zpos p) l))).
  { apply iter_shr_1_lower; [lia|]. rewrite shr_record_of_loc_m.
    replace (prec - 1 + Zpos n) with (Zpos (digits2_pos p) - 1) by lia. assumption. }
  assert (0 < 2 ^ (prec - 1)) by (apply Z.pow_pos_nonneg; lia). lia.
Qed.

Lemma round_nearest_even_pos m l : 0 < m -> 0 < round_nearest_even m l.
Proof.
  intros Hm. unfold round_nearest_even.
  destruct l as [|[]]; try lia. destruct (Z.even m); lia.
Qed.

Lemma binary_round_aux_negative prec emax mx ex lx :
  0 < prec -> 0 < mx -> SpecFloat.emin prec emax <= ex ->
  sf_negative (binary_round_aux prec emax true mx ex lx) = true.
Proof.
  intros Hprec Hm He. unfold binary_round_aux.
  destruct (shr_fexp_pos prec emax mx ex lx Hprec Hm He) as [H1 H1'].
  destruct (shr_fexp prec emax mx ex lx) as [mrs' e']. simpl in H1, H1'.
  destruct (shr_fexp_pos prec emax
              (round_nearest_even (shr_m mrs') (loc_of_shr_record mrs')) e' loc_Exact
              Hprec (round_nearest_even_pos _ _ H1) H1') as [H2 _].
  destruct (shr_fexp prec emax _ e' loc_Exact) as [mrs'' e'']. simpl in H2.
  destruct (shr_m mrs'') as [|m|m]; try lia.
  destruct (e'' <=? emax - prec); reflexivity.
Qed.

Lemma binary_round_negative prec emax mx ex :
  0 < prec -> SpecFloat.emin prec emax <= ex ->
  sf_negative (binary_round prec emax true mx ex) = true.
Proof.
  intros Hprec He. unfold binary_round.
  pose proof (shl_align_exp mx ex (fexp prec emax (Zpos (digits2_pos mx) + ex))) as Hs.
  destruct (shl_align mx ex _) as [mz ez]. simpl in Hs.
  apply binary_round_aux_negative; [assumption|lia|].
  unfold fexp in Hs. lia.
Qed.

Lemma binary_normalize_negative prec emax z e s :
  0 < prec -> z < 0 -> SpecFloat.emin prec emax <= e ->
  sf_negative (binary_normalize prec emax z e s) = true.
Proof.
  intros Hprec Hz He. destruct z as [|p|p]; try lia. now apply binary_round_negative.
Qed.

Lemma canonical_exp prec emax m e :
  canonical_mantissa prec emax m e = true ->
  SpecFloat.emin prec emax <= e /\ Zpos (digits2_pos m) <= prec /\
  (SpecFloat.emin prec emax < e -> Zpos (digits2_pos m) = prec).
Proof.
  unfold canonical_mantissa, fexp. intros H. apply Z.eqb_eq in H. lia.
Qed.

(** On canonical representations the order of the values is the order
    of the pairs of an exponent and a mantissa. *)
Lemma canonical_lt prec emax mx ex my ey :
  0 < prec ->
  canonical_mantissa prec emax mx ex = true ->
  canonical_mantissa prec emax my ey = true ->
  ex < ey \/ (ex = ey /\ (mx < my)%positive) ->
  Zpos mx * 2 ^ (ex - Z.min ex ey) < Zpos my * 2 ^ (ey - Z.min ex ey).
Proof.
  intros Hprec Hx Hy [Hlt | [-> Hlt]].
  - apply canonical_exp in Hx, Hy. destruct Hx as [Hx1 [Hx2 _]]. destruct Hy as [_ [_ Hy3]].
    rewrite Z.min_l by lia. replace (ex - ex) with 0 by lia. rewrite Z.pow_0_r, Z.mul_1_r.
    pose proof (digits2_pos_bounds mx) as [_ Hmx].
    pose proof (digits2_pos_bounds my) as [Hmy _].
    rewrite Hy3 in Hmy by lia.
    assert (Hp : 2 ^ Zpos (digits2_pos mx) <= 2 ^ prec) by (apply Z.pow_le_mono_r; lia).
    assert (Hq : 2 ^ 1 <= 2 ^ (ey - ex)) by (apply Z.pow_le_mono_r; lia).
    assert (Hr : 2 ^ prec = 2 ^ (prec - 1) * 2 ^ 1).
    { rewrite <- Z.pow_add_r by lia. f_equal. lia. }
    assert (0 < 2 ^ (prec - 1)) by (apply Z.pow_pos_nonneg; lia).
    nia.
  - rewrite Z.min_id. replace (ey - ey) with 0 by lia. simpl. lia.
Qed.

Lemma SFsub_negative prec emax x y :
  0 < prec ->
  SpecFloat.valid_binary prec emax x = true ->
  SpecFloat.valid_binary prec emax y = true ->
  SFltb x y = true -> sf_negative (SFsub prec emax x y) = true.
Proof.
  intros Hprec. unfold SFltb.
  destruct x as [sx|sx| |sx mx ex]; destruct y as [sy|sy| |sy my ey]; simpl;
    try discriminate;
    try (destruct sx; try discriminate); try (destruct sy; try discriminate);
    try reflexivity;
    intros Hx Hy Hc; apply andb_prop in Hx, Hy;
    destruct Hx as [Hx _]; destruct Hy as [Hy _];
    pose proof (canonical_exp _ _ _ _ Hx) as [Hex _];
    pose proof (canonical_exp _ _ _ _ Hy) as [Hey _];
    (apply binary_normalize_negative; [assumption| |lia]);
    unfold cond_Zopp.
  - rewrite !shl_align_spec by lia.
    assert (Hlt : Zpos my * 2 ^ (ey - Z.min ey ex) < Zpos mx * 2 ^ (ex - Z.min ey ex)).
    { apply (canonical_lt prec emax); try assumption.
      destruct (ex ?= ey) eqn:Hcmp.
      - apply Z.compare_eq in Hcmp. subst. right. split; [reflexivity|].
        destruct (Pos.compare_cont Eq mx my) eqn:Hm; try discriminate.
        now apply Pos.gt_lt.
      - discriminate.
      - apply Z.compare_gt_iff in Hcmp. now left. }
    rewrite (Z.min_comm ey ex) in Hlt. lia.
  - lia.
  - rewrite !shl_align_spec by lia.
    assert (Hlt : Zpos mx * 2 ^ (ex - Z.min ex ey) < Zpos my * 2 ^ (ey - Z.min ex ey)).
    { apply (canonical_lt prec emax); try assumption.
      destruct (ex ?= ey) eqn:Hcmp.
      - apply Z.compare_eq in Hcmp. subst. right. split; [reflexivity|].
        destruct (Pos.compare_cont Eq mx my) eqn:Hm; try discriminate.
        exact Hm.
      - apply Z.compare_lt_iff in Hcmp. now left.
      - discriminate. }
    lia.
Qed.

Lemma SFltb_zero r : SFltb r (S754_zero false) = sf_negative r.
Proof. destruct r as [s|s| |s m e]; simpl; try reflexivity; destruct s; reflexivity. Qed.

Lemma float_sub_negative (a b : float) :
  (a <? b)%float = true -> (a - b <? 0)%float = true.
Proof.
  rewrite !FloatAxioms.ltb_spec, FloatAxioms.sub_spec.
  change (Prim2SF 0) with (S754_zero false). rewrite SFltb_zero.
  apply SFsub_negative; try apply FloatAxioms.Prim2SF_valid. reflexivity.
Qed.

(** *** Exact comparison

    Python compares an int with a float by their exact values. An int
    of absolute value at most [2^53] is converted to a float without
    rounding, so for such an int the comparison of the converted values
    is the exact one. *)

(** Scaling both sides by a power of two keeps the order. *)
Lemma compare_scaled a b k : 0 <= k -> (a * 2 ^ k ?= b * 2 ^ k) = (a ?= b).
Proof.
  intros Hk. assert (0 < 2 ^ k) by (apply Z.pow_pos_nonneg; lia).
  destruct (a ?= b) eqn:H0.
  - apply Z.compare_eq in H0. subst. apply Z.compare_refl.
  - apply Z.compare_lt_iff in H0. apply Z.compare_lt_iff.
    now apply Z.mul_lt_mono_pos_r.
  - apply Z.compare_gt_iff in H0. apply Z.compare_gt_iff.
    now apply Z.mul_lt_mono_pos_r.
Qed.

(** The order of two canonical positive values, both scaled to integers. *)
Lemma canonical_compare prec emax mx ex my ey k :
  0 < prec ->
  canonical_mantissa prec emax mx ex = true ->
  canonical_mantissa prec emax my ey = true ->
  0 <= ex + k -> 0 <= ey + k ->
  (Zpos mx * 2 ^ (ex + k) ?= Zpos my * 2 ^ (ey + k))
  = match ex ?= ey with
    | Lt => Lt
    | Gt => Gt
    | Eq => Pos.compare_cont Eq mx my
    end.
Proof.
  intros Hprec Hx Hy Hkx Hky.
  assert (Hs : forall m e, 0 <= e + k ->
             Zpos m * 2 ^ (e + k)
             = Zpos m * 2 ^ (e - Z.min ex ey) * 2 ^ (Z.min ex ey + k)
             \/ e < Z.min ex ey).
  { intros m e He. destruct (Z_lt_le_dec e (Z.min ex ey)); [now right|left].
    rewrite <- Z.mul_assoc, <- Z.pow_add_r by lia. do 2 f_equal. lia. }
  destruct (ex ?= ey) eqn:Hc.
  - apply Z.compare_eq in Hc. subst ey. rewrite compare_scaled by lia. reflexivity.
  - apply Z.compare_lt_iff in Hc. apply Z.compare_lt_iff.
    pose proof (canonical_lt prec emax mx ex my ey Hprec Hx Hy (or_introl Hc)) as Hlt.
    destruct (Hs mx ex Hkx) as [-> | ?]; [|lia].
    destruct (Hs my ey Hky) as [-> | ?]; [|lia].
    assert (0 < 2 ^ (Z.min ex ey + k)) by (apply Z.pow_pos_nonneg; lia). nia.
  - apply Z.compare_gt_iff in Hc. apply Z.compare_gt_iff.
    pose proof (canonical_lt prec emax my ey mx ex Hprec Hy Hx (or_introl Hc)) as Hlt.
    rewrite (Z.min_comm ey ex) in Hlt.
    destruct (Hs mx ex Hkx) as [-> | ?]; [|lia].
    destruct (Hs my ey Hky) as [-> | ?]; [|lia].
    assert (0 < 2 ^ (Z.min ex ey + k)) by (apply Z.pow_pos_nonneg; lia). nia.
Qed.

(** [SFcompare] on two finite canonical values is the comparison of
    their exact values. *)
Lemma SFcompare_finite prec emax sx mx ex sy my ey k :
  0 < prec ->
  canonical_mantissa prec emax mx ex = true ->
  canonical_mantissa prec emax my ey = true ->
  0 <= ex + k -> 0 <= ey + k ->
  SFcompare (S754_finite sx mx ex) (S754_finite sy my ey)
  = Some (cond_Zopp sx (Zpos mx) * 2 ^ (ex + k) ?= cond_Zopp sy (Zpos my) * 2 ^ (ey + k)).
Proof.
  intros Hprec Hx Hy Hkx Hky. simpl SFcompare. f_equal.
  assert (0 < 2 ^ (ex + k)) by (apply Z.pow_pos_nonneg; lia).
  assert (0 < 2 ^ (ey + k)) by (apply Z.pow_pos_nonneg; lia).
  destruct sx, sy; unfold cond_Zopp.
  - transitivity (CompOpp (Zpos mx * 2 ^ (ex + k) ?= Zpos my * 2 ^ (ey + k))).
    + rewrite (canonical_compare prec emax mx ex my ey k) by assumption.
      now destruct (ex ?= ey).
    + rewrite <- Z.compare_antisym, <- Z.compare_opp. f_equal; lia.
  - symmetry. apply Z.compare_lt_iff. nia.
  - symmetry. apply Z.compare_gt_iff. nia.
  - symmetry. now apply (canonical_compare prec emax).
Qed.

Lemma digits2_pos_shift k m :
  Zpos (digits2_pos (shift_pos k m)) = Zpos (digits2_pos m) + Zpos k.
Proof.
  unfold shift_pos. revert m. induction k as [|k IH] using Pos.peano_ind; intros m.
  - simpl. lia.
  - rewrite Pos.iter_succ. simpl digits2_pos. rewrite Pos2Z.inj_succ, IH. lia.
Qed.

Lemma shr_fexp_exact m e :
  Zpos (digits2_pos m) = prec -> SpecFloat.emin prec emax <= e ->
  shr_fexp prec emax (Zpos m) e loc_Exact = (shr_record_of_loc (Zpos m) loc_Exact, e).
Proof.
  intros Hd He. unfold shr_fexp, fexp. simpl Zdigits2. rewrite Hd.
  replace (Z.max (prec + e - prec) (SpecFloat.emin prec emax) - e) with 0 by lia.
  reflexivity.
Qed.

Lemma binary_round_aux_exact s m e :
  Zpos (digits2_pos m) = prec -> SpecFloat.emin prec emax <= e <= emax - prec ->
  binary_round_aux prec emax s (Zpos m) e loc_Exact = S754_finite s m e.
Proof.
  intros Hd He. unfold binary_round_aux.
  rewrite shr_fexp_exact by (assumption || lia).
  change (shr_m (shr_record_of_loc (Zpos m) loc_Exact)) with (Zpos m).
  change (loc_of_shr_record (shr_record_of_loc (Zpos m) loc_Exact)) with loc_Exact.
  change (round_nearest_even (Zpos m) loc_Exact) with (Zpos m).
  rewrite shr_fexp_exact by (assumption || lia).
  change (shr_m (shr_record_of_loc (Zpos m) loc_Exact)) with (Zpos m).
  replace (e <=? emax - prec) with true by (symmetry; apply Z.leb_le; lia).
  reflexivity.
Qed.

(** An integer of at most 53 bits is converted without rounding: the
    mantissa is the integer shifted to 53 bits. *)
Lemma binary_round_exact s m :
  Zpos m < 2 ^ prec ->
  exists m' e, binary_round prec emax s m 0 = S754_finite s m' e /\
    canonical_mantissa prec emax m' e = true /\ e <= 0 /\
    Zpos m' = Zpos m * 2 ^ (- e).
Proof.
  intros Hm. pose proof (digits2_pos_bounds m) as [Hlo _].
  assert (Hd : Zpos (digits2_pos m) <= prec).
  { destruct (Z_le_gt_dec (Zpos (digits2_pos m)) prec) as [|Hgt]; [assumption|].
    assert (2 ^ prec <= 2 ^ (Zpos (digits2_pos m) - 1)) by (apply Z.pow_le_mono_r; lia).
    lia. }
  assert (Hfexp : forall e, -1074 <= e -> fexp prec emax (prec + e) = e).
  { intros e He. unfold fexp, SpecFloat.emin. change emax with 1024. change prec with 53. lia. }
  assert (Hround : forall m' e, Zpos (digits2_pos m') = prec -> -1074 <= e <= 0 ->
            binary_round_aux prec emax s (Zpos m') e loc_Exact = S754_finite s m' e /\
            canonical_mantissa prec emax m' e = true).
  { intros m' e Hd' He. split.
    - apply binary_round_aux_exact; [assumption|].
      unfold SpecFloat.emin. change emax with 1024. change prec with 53. lia.
    - unfold canonical_mantissa. apply Z.eqb_eq. rewrite Hd'. apply Hfexp. lia. }
  unfold binary_round, shl_align.
  replace (fexp prec emax (Zpos (digits2_pos m) + 0)) with (Zpos (digits2_pos m) - prec).
  2:{ unfold fexp, SpecFloat.emin. change emax with 1024. change prec with 53 in *. lia. }
  change prec with 53 in Hd.
  destruct (Zpos (digits2_pos m) - prec - 0) as [|d|d] eqn:Hsh;
    change prec with 53 in Hsh; try lia.
  - exists m, 0. destruct (Hround m 0) as [H1 H2]; [change prec with 53; lia|lia|].
    split; [assumption|]. split; [assumption|]. split; [lia|]. simpl. lia.
  - exists (shift_pos d m), (Zpos (digits2_pos m) - prec).
    pose proof (digits2_pos_shift d m) as Hds.
    destruct (Hround (shift_pos d m) (Zpos (digits2_pos m) - prec)) as [H1 H2];
      [change prec with 53; lia|change prec with 53; lia|].
    split; [exact H1|]. split; [exact H2|]. split; [change prec with 53; lia|].
    rewrite shift_pos_correct, Z.pow_pos_fold.
    replace (- (Zpos (digits2_pos m) - prec)) with (Zpos d) by (change prec with 53; lia).
    apply Z.mul_comm.
Qed.

(** The representation of [float(z)] for an integer of absolute value
    at most [2^53]: its exact value is [z]. *)
Lemma binary_normalize_exact z :
  z <> 0 -> Z.abs z <= 2 ^ prec ->
  exists s m e, binary_normalize prec emax z 0 false = S754_finite s m e /\
    canonical_mantissa prec emax m e = true /\ e <= emax - prec /\
    forall k, 0 <= k -> 0 <= e + k ->
      cond_Zopp s (Zpos m) * 2 ^ (e + k) = z * 2 ^ k.
Proof.
  intros Hz Hb.
  assert (Hsmall : forall s p, Zpos p <= 2 ^ prec ->
            exists m e, binary_round prec emax s p 0 = S754_finite s m e /\
              canonical_mantissa prec emax m e = true /\ e <= emax - prec /\
              forall k, 0 <= k -> 0 <= e + k -> Zpos m * 2 ^ (e + k) = Zpos p * 2 ^ k).
  { intros s p Hp. destruct (Z_lt_le_dec (Zpos p) (2 ^ prec)) as [Hlt|Hge].
    - destruct (binary_round_exact s p Hlt) as [m [e [H1 [H2 [H3 H4]]]]].
      exists m, e. split; [assumption|]. split; [assumption|].
      split; [change (emax - prec) with 971; lia|].
      intros k Hk Hek. rewrite H4, <- Z.mul_assoc, <- Z.pow_add_r by lia.
      do 2 f_equal. lia.
    - assert (Hp2 : p = 9007199254740992%positive).
      { change (2 ^ prec) with 9007199254740992 in *. lia. }
      subst p. exists 4503599627370496%positive, 1.
      split; [now destruct s; vm_compute|]. split; [reflexivity|].
      split; [vm_compute; discriminate|].
      intros k Hk _. rewrite Z.pow_add_r by lia. change (2 ^ 1) with 2. lia. }
  destruct z as [|p|p]; [congruence| |].
  - destruct (Hsmall false p Hb) as [m [e [H1 [H2 [H3 H4]]]]].
    exists false, m, e. simpl binary_normalize. auto.
  - destruct (Hsmall true p Hb) as [m [e [H1 [H2 [H3 H4]]]]].
    exists true, m, e. simpl binary_normalize. split; [assumption|].
    split; [assumption|]. split; [assumption|].
    intros k Hk Hek. specialize (H4 k Hk Hek). simpl cond_Zopp. lia.
Qed.

(** Python compares an int with a float by their exact values; for an
    int of absolute value at most [2^53] that is the comparison of the
    converted int with the float. *)
Lemma float_of_int_compare z fz f :
  Z.abs z <= 2 ^ prec -> PyNum.float_of_int z = inr fz ->
  SFcompare (Prim2SF fz) (Prim2SF f) = PyNum.compare_int_float z f.
Proof.
  intros Hb Hfz. unfold PyNum.float_of_int in Hfz.
  destruct (is_infinity _); [discriminate|]. injection Hfz as <-.
  unfold PyNum.compare_int_float.
  pose proof (FloatAxioms.Prim2SF_valid f) as Hv.
  destruct (Z.eq_dec z 0) as [->|Hz].
  - change (Prim2SF (SF2Prim (binary_normalize prec emax 0 0 false))) with (S754_zero false).
    destruct (Prim2SF f) as [s|s| |s m e]; try reflexivity.
    simpl SFcompare. f_equal. unfold cond_Zopp.
    destruct (0 <=? e) eqn:He; [|now destruct s].
    apply Z.leb_le in He. assert (0 < 2 ^ e) by (apply Z.pow_pos_nonneg; lia).
    destruct s; symmetry; [apply Z.compare_gt_iff | apply Z.compare_lt_iff]; nia.
  - destruct (binary_normalize_exact z Hz Hb) as [sa [ma [ea [HA [Hca [Hea Hval]]]]]].
    rewrite HA. rewrite FloatAxioms.Prim2SF_SF2Prim.
    2:{ simpl. unfold bounded. rewrite Hca. simpl. apply Z.leb_le. exact Hea. }
    assert (Hsign : (if sa then z < 0 else 0 < z)).
    { specialize (Hval (Z.max 0 (- ea)) ltac:(lia) ltac:(lia)).
      assert (0 < 2 ^ (ea + Z.max 0 (- ea))) by (apply Z.pow_pos_nonneg; lia).
      assert (0 < 2 ^ Z.max 0 (- ea)) by (apply Z.pow_pos_nonneg; lia).
      destruct sa; simpl cond_Zopp in Hval; nia. }
    destruct (Prim2SF f) as [s|s| |s m e]; try reflexivity.
    + simpl SFcompare. f_equal. destruct sa; symmetry;
        [apply Z.compare_lt_iff | apply Z.compare_gt_iff]; lia.
    + simpl in Hv. apply andb_prop in Hv. destruct Hv as [Hcb _].
      set (k := Z.max 0 (Z.max (- ea) (- e))).
      rewrite (SFcompare_finite prec emax sa ma ea s m e k); try assumption;
        try reflexivity; try (subst k; lia).
      f_equal. rewrite Hval by (subst k; lia).
      destruct (0 <=? e) eqn:He.
      * apply Z.leb_le in He. rewrite Z.pow_add_r by (subst k; lia).
        rewrite Z.mul_assoc. apply compare_scaled. subst k; lia.
      * apply Z.leb_gt in He.
        replace k with (- e + (e + k)) at 1 by lia.
        rewrite Z.pow_add_r by (subst k; lia).
        rewrite Z.mul_assoc. apply compare_scaled. subst k; lia.
Qed.

Lemma SFcompare_antisym x y :
  SFcompare y x = match SFcompare x y with Some c => Some (CompOpp c) | None => None end.
Proof.
  destruct x as [sx|sx| |sx mx ex]; destruct y as [sy|sy| |sy my ey]; simpl;
    try reflexivity; try (now destruct sx); try (now destruct sy);
    try (now destruct sx, sy).
  f_equal. rewrite (Z.compare_antisym ex ey).
  destruct sx, sy; try reflexivity;
    destruct (ex ?= ey); simpl; try reflexivity;
    rewrite (Pos.compare_cont_antisym mx my Eq); simpl;
    now destruct (Pos.compare_cont Eq mx my).
Qed.

Lemma float_ltb_compare (a b : float) :
  (a <? b)%float = match SFcompare (Prim2SF a) (Prim2SF b) with
                   | Some Lt => true
                   | _ => false
                   end.
Proof. rewrite FloatAxioms.ltb_spec. reflexivity. Qed.

(** Nothing clamps a difference: it is negative when the second operand
    exceeds the first and the conversion of an int operand is exact. *)
Lemma sub_negative goal new_total r :
  PyNum.ltb goal new_total = true -> converted_exactly goal new_total = true ->
  PyNum.sub goal new_total = inr r -> PyNum.lt0 r = true.
Proof.
  unfold PyNum.ltb, converted_exactly, PyNum.sub, PyNum.lift2.
  destruct goal as [g|g]; destruct new_total as [t|t].
  - intros Hlt _ H. injection H as <-. simpl. lia.
  - destruct (PyNum.float_of_int g) as [e|fg] eqn:Hfg; [discriminate|].
    intros Hlt Hb H. injection H as <-. apply Z.leb_le in Hb.
    apply float_sub_negative. rewrite float_ltb_compare.
    rewrite (float_of_int_compare g fg t Hb Hfg).
    destruct (PyNum.compare_int_float g t) as [[]|]; congruence.
  - destruct (PyNum.float_of_int t) as [e|ft] eqn:Hft; [discriminate|].
    intros Hlt Hb H. injection H as <-. apply Z.leb_le in Hb.
    apply float_sub_negative. rewrite float_ltb_compare.
    rewrite SFcompare_antisym, (float_of_int_compare t ft g Hb Hft).
    destruct (PyNum.compare_int_float t g) as [[]|]; simpl; congruence.
  - intros Hlt _ H. injection H as <-. now apply float_sub_negative.
Qed.

(** ** The steps *)

Section Steps.

Variable P : providers.

Lemma calculate_nutrition_body_readonly self q :
  readonly (Council.calculate_nutrition_body P self q).
Proof. unfold Council.calculate_nutrition_body. readonly_tac. Qed.

Lemma calculate_nutrition_handler_readonly e :
  readonly (Council.calculate_nutrition_handler e).
Proof. unfold Council.calculate_nutrition_handler. readonly_tac. Qed.

Lemma calculate_nutrition_run self q w :
  Council.calculate_nutrition P self q w =
    (nutrition_outcome P self q w,
     after_nutrition q (nutrition_outcome P self q w) w).
Proof.
  unfold nutrition_outcome, after_nutrition, Council.calculate_nutrition.
  rewrite traced_run; [reflexivity|].
  apply readonly_try_except.
  - apply calculate_nutrition_body_readonly.
  - apply calculate_nutrition_handler_readonly.
Qed.

Lemma generate_advice_run self g d c r w :
  let req := {| a_health_goal := g; a_dish_name := d;
                a_total_calories := c; a_remaining_calories := r |} in
  Council.generate_advice P self g d c r w =
    (advisor_outcome P self req w, after_advisor req (advisor_outcome P self req w) w).
Proof.
  unfold advisor_outcome, after_advisor, Council.generate_advice; simpl.
  rewrite traced_run; [reflexivity|].
  unfold Council.query_openrouter, Council.query_groq. readonly_tac.
Qed.

(** [process_meal], case by case. *)
Lemma process_meal_run self text profile total w :
  Council.process_meal P self text profile total w =
    let nc := Council.nutrition_calculator self in
    match nutrition_outcome P nc text w with
    | inl e => (inl e, after_nutrition text (inl e) w)
    | inr n =>
        let w1 := after_nutrition text (inr n) w in
        match PyNum.add total (calories n) with
        | inl e => (inl e, w1)
        | inr new_total =>
            match PyNum.sub (default (PyInt 2500) (up_daily_calorie_goal profile)) new_total with
            | inl e => (inl e, w1)
            | inr rest =>
                let req := {| a_health_goal := default "maintain" (up_health_goal profile);
                              a_dish_name := text;
                              a_total_calories := calories n;
                              a_remaining_calories := rest |} in
                let a := advisor_outcome P (Council.advisor_agent self) req w1 in
                (match a with
                 | inl e => inl e
                 | inr advice => inr {| r_nutrition := n; r_ai_advice := advice |}
                 end,
                 after_advisor req a w1)
            end
        end
    end.
Proof.
  unfold Council.process_meal, bind at 1.
  rewrite calculate_nutrition_run.
  destruct (nutrition_outcome P _ text w) as [e|n]; [reflexivity|].
  cbv zeta. unfold bind at 1, lift at 1.
  destruct (PyNum.add total (calories n)) as [e|new_total]; [reflexivity|].
  unfold bind at 1, lift at 1.
  destruct (PyNum.sub _ new_total) as [e|rest]; [reflexivity|].
  unfold bind at 1.
  rewrite generate_advice_run. cbv zeta.
  destruct (advisor_outcome P _ _ _) as [e|advice]; reflexivity.
Qed.

(** The outcome of the Nutrition Step, from the provider's answer. *)
Lemma nutrition_outcome_eq self q w :
  nutrition_outcome P self q w =
    match
      match nutrition_api P (trace_at_nutrition q w) (Council.n_api_key self) q with
      | inl e => inl e
      | inr response =>
          if negb (status_code response =? 200) then
            inl (PyExc Exception
                   ("CalorieNinjas API error: " +:+ pretty (status_code response)
                    +:+ " - " +:+ text response))
          else
            match json response with
            | inl e => inl e
            | inr data =>
                match default [] data with
                | [] => inl (PyExc Exception Council.no_items_message)
                | it :: its => summarise (it :: its)
                end
            end
      end
    with
    | inl e => inl (nutrition_failure e)
    | inr n => inr n
    end.
Proof.
  unfold nutrition_outcome, Council.calculate_nutrition.
  rewrite traced_run.
  2:{ apply readonly_try_except.
      - apply calculate_nutrition_body_readonly.
      - apply calculate_nutrition_handler_readonly. }
  simpl fst. unfold try_except, Council.calculate_nutrition_body.
  unfold bind at 1. unfold get_world at 1. unfold bind at 1. unfold lift at 1.
  change (w_trace (add_event (NutritionBegin q) w)) with (trace_at_nutrition q w).
  assert (Hh : forall e w', fst (Council.calculate_nutrition_handler e w')
                            = inl (nutrition_failure e)).
  { intros e w'. unfold Council.calculate_nutrition_handler, nutrition_failure.
    destruct (is_timeout e); [reflexivity|].
    destruct (PyStr.contains _ _); reflexivity. }
  destruct (nutrition_api P _ _ q) as [e|response]; [apply Hh|].
  destruct (negb (status_code response =? 200)); [apply Hh|].
  unfold bind at 1. unfold lift at 1.
  destruct (json response) as [e|data]; [apply Hh|].
  destruct (default [] data) as [|it its]; [apply Hh|].
  unfold summarise.
  unfold bind at 1. unfold lift at 1.
  destruct (Council.sum_field "calories" (it :: its)) as [e|c]; [apply Hh|].
  unfold bind at 1. unfold lift at 1.
  destruct (Council.sum_field "protein_g" (it :: its)) as [e|p]; [apply Hh|].
  unfold bind at 1. unfold lift at 1.
  destruct (Council.sum_field "carbohydrates_total_g" (it :: its)) as [e|cb]; [apply Hh|].
  unfold bind at 1. unfold lift at 1.
  destruct (Council.sum_field "fat_total_g" (it :: its)) as [e|f]; [apply Hh|].
  reflexivity.
Qed.

End Steps.

(** ** The Nutrition Step *)

Lemma int_valued_field items key :
  Forall int_valued items -> In key macro_fields ->
  Forall (fun x => PyNum.is_int x = true) (map (Council.item_get key) items).
Proof.
  intros Hall Hkey. induction Hall as [|it its Hit _ IH]; simpl.
  - constructor.
  - constructor; [now apply Hit | exact IH].
Qed.

Lemma sum_field_ints_perm items items' key :
  Permutation items items' -> Forall int_valued items -> In key macro_fields ->
  exists z,
    Council.sum_field key items = inr (PyInt z) /\
    Council.sum_field key items' = inr (PyInt z).
Proof.
  intros Hp Hall Hkey. unfold Council.sum_field, PyNum.sum.
  apply sum_from_ints_perm.
  - now apply Permutation_map.
  - now apply int_valued_field.
Qed.

Lemma sum_field_floats items key :
  Forall float_valued items -> In key macro_fields ->
  exists s, Council.sum_field key items = inr s.
Proof.
  intros Hall Hkey. unfold Council.sum_field, PyNum.sum.
  apply sum_from_floats; [|now left].
  induction Hall as [|it its Hit _ IH]; simpl; constructor; [|exact IH].
  unfold Council.item_get. destruct (it !! key) as [v|] eqn:Hv; simpl.
  - right. eapply Hit; eassumption.
  - now left.
Qed.

(** C1, as amended. For every answer of the provider with status 200 and
    at least one item: when none of the four sums raises, the Nutrition
    Step returns the summary whose fields are Python's [sum] of the
    per-item values (taken in the order of the answer, a missing member
    counting as [0]) rounded with [round(., 1)]; when the values are
    Python ints, every answer holding the same items in another order
    gives the same summary (with float values the summary can depend on
    the order); and when the values are floats no sum raises, so a
    summary is returned. *)
Theorem nutrition_summary_is_rounded_sum
    (P : providers) (self : Council.NutritionCalculator) (q : string) (w : world)
    (response : http_response) (items : list item) :
  nutrition_api P (trace_at_nutrition q w) (Council.n_api_key self) q = inr response ->
  status_code response = 200 ->
  json response = inr (Some items) ->
  items <> [] ->
  (forall c p cb f,
     Council.sum_field "calories" items = inr c ->
     Council.sum_field "protein_g" items = inr p ->
     Council.sum_field "carbohydrates_total_g" items = inr cb ->
     Council.sum_field "fat_total_g" items = inr f ->
     nutrition_outcome P self q w
     = inr {| calories := PyNum.round1 c; protein := PyNum.round1 p;
              carbs := PyNum.round1 cb; fats := PyNum.round1 f |}) /\
  (Forall int_valued items ->
   forall (P' : providers) (w' : world) (response' : http_response) (items' : list item),
     nutrition_api P' (trace_at_nutrition q w') (Council.n_api_key self) q = inr response' ->
     status_code response' = 200 ->
     json response' = inr (Some items') ->
     Permutation items items' ->
     exists n,
       nutrition_outcome P self q w = inr n /\
       nutrition_outcome P' self q w' = inr n) /\
  (Forall float_valued items -> exists n, nutrition_outcome P self q w = inr n).
Proof.
  intros Hresp Hstatus Hjson Hne.
  assert (Hout : nutrition_outcome P self q w
                 = match summarise items with
                   | inl e => inl (nutrition_failure e)
                   | inr n => inr n
                   end).
  { rewrite nutrition_outcome_eq, Hresp, Hstatus, Hjson. simpl.
    destruct items as [|it its]; [contradiction|reflexivity]. }
  split; [|split].
  - intros c p cb f Hc Hp Hcb Hf.
    rewrite Hout. unfold summarise. now rewrite Hc, Hp, Hcb, Hf.
  - intros Hall P' w' response' items' Hresp' Hstatus' Hjson' Hperm.
    assert (Hne' : items' <> []).
    { intros ->. apply Permutation_sym, Permutation_nil in Hperm. contradiction. }
    assert (Hout' : nutrition_outcome P' self q w'
                    = match summarise items' with
                      | inl e => inl (nutrition_failure e)
                      | inr n => inr n
                      end).
    { rewrite nutrition_outcome_eq, Hresp', Hstatus', Hjson'. simpl.
      destruct items' as [|it its]; [contradiction|reflexivity]. }
    rewrite Hout, Hout'. unfold summarise.
    destruct (sum_field_ints_perm items items' "calories" Hperm Hall)
      as [c [-> ->]]; [simpl; tauto|].
    destruct (sum_field_ints_perm items items' "protein_g" Hperm Hall)
      as [p [-> ->]]; [simpl; tauto|].
    destruct (sum_field_ints_perm items items' "carbohydrates_total_g" Hperm Hall)
      as [cb [-> ->]]; [simpl; tauto|].
    destruct (sum_field_ints_perm items items' "fat_total_g" Hperm Hall)
      as [f [-> ->]]; [simpl; tauto|].
    eauto.
  - intros Hall. rewrite Hout. unfold summarise.
    destruct (sum_field_floats items "calories" Hall) as [c ->]; [simpl; tauto|].
    destruct (sum_field_floats items "protein_g" Hall) as [p ->]; [simpl; tauto|].
    destruct (sum_field_floats items "carbohydrates_total_g" Hall) as [cb ->];
      [simpl; tauto|].
    destruct (sum_field_floats items "fat_total_g" Hall) as [f ->]; [simpl; tauto|].
    eauto.
Qed.

(** The scenario of the specification: fish (200 kcal) and salad
    (150 kcal) make a summary of 350 kcal; and three items with integer
    values give one summary in both orders. *)
Lemma nutrition_summary_is_rounded_sum_witness :
  nutrition_outcome Scenario.P_ok Scenario.nc "grilled fish with salad, 300g" Scenario.w0
  = inr {| calories := PyFloat 350.0; protein := PyFloat 40.0;
           carbs := PyFloat 10.0; fats := PyFloat 12.0 |} /\
  exists n,
    nutrition_outcome Scenario.P_int Scenario.nc "three dates" Scenario.w0 = inr n /\
    nutrition_outcome Scenario.P_int_rev Scenario.nc "three dates" Scenario.w0 = inr n.
Proof.
  split.
  - destruct (nutrition_summary_is_rounded_sum Scenario.P_ok Scenario.nc
                "grilled fish with salad, 300g" Scenario.w0
                {| status_code := 200; text := ""; json := inr (Some Scenario.fish_and_salad) |}
                Scenario.fish_and_salad eq_refl eq_refl eq_refl) as [H _].
    { discriminate. }
    apply (H (PyFloat 350.0) (PyFloat 40.0) (PyFloat 10.0) (PyFloat 12.0));
      vm_compute; reflexivity.
  - destruct (nutrition_summary_is_rounded_sum Scenario.P_int Scenario.nc
                "three dates" Scenario.w0
                {| status_code := 200; text := ""; json := inr (Some Scenario.int_items) |}
                Scenario.int_items eq_refl eq_refl eq_refl) as [_ [H _]].
    { discriminate. }
    apply (H ltac:(repeat constructor;
                   intros key [<-|[<-|[<-|[<-|[]]]]]; vm_compute; reflexivity)
             Scenario.P_int_rev Scenario.w0
             {| status_code := 200; text := "";
                json := inr (Some (rev Scenario.int_items)) |}
             (rev Scenario.int_items) eq_refl eq_refl eq_refl).
    apply Permutation_rev.
Defined.

(** C1, as stated, fails: the summary depends on the order of the items.
    The provider answers with four items of 2^53, 1, 2^-53 and 2^-53
    kcal: in this order the calories of the summary are
    9007199254740992.0, in the opposite order 9007199254740994.0. *)
Lemma nutrition_summary_depends_on_order :
  Permutation Scenario.wide_items (rev Scenario.wide_items) /\
  (exists n,
     nutrition_outcome Scenario.P_wide Scenario.nc "feast" Scenario.w0 = inr n /\
     calories n = PyFloat 9007199254740992.0) /\
  (exists n,
     nutrition_outcome Scenario.P_wide_rev Scenario.nc "feast" Scenario.w0 = inr n /\
     calories n = PyFloat 9007199254740994.0) /\
  nutrition_outcome Scenario.P_wide Scenario.nc "feast" Scenario.w0
  <> nutrition_outcome Scenario.P_wide_rev Scenario.nc "feast" Scenario.w0.
Proof.
  split; [apply Permutation_rev|].
  split; [eexists; split; vm_compute; reflexivity|].
  split; [eexists; split; vm_compute; reflexivity|].
  intros H. apply (f_equal Scenario.calories_bits) in H. vm_compute in H. discriminate.
Qed.

(** The same four values under the compensated summation of CPython 3.12
    and later: the two orders still give the two different sums, and
    rounding leaves both as they are. *)
Example compensated_sum_depends_on_order :
  compensated_sum [9007199254740992.0; 1.0; 0x1p-53; 0x1p-53]%float
  = 9007199254740992.0%float /\
  compensated_sum [0x1p-53; 0x1p-53; 1.0; 9007199254740992.0]%float
  = 9007199254740994.0%float /\
  PyNum.float_round1 9007199254740992.0 = 9007199254740992.0%float /\
  PyNum.float_round1 9007199254740994.0 = 9007199254740994.0%float.
Proof. repeat split; vm_compute; reflexivity. Qed.

(** With left-to-right addition, everyday values show it too: 13.93,
    241.94 and 164.58 kcal make 420.5 in this order and 420.4 when the
    first item comes last. *)
Example three_items_depend_on_order :
  Permutation Scenario.three_items Scenario.three_items_swapped /\
  (exists n, summarise Scenario.three_items = inr n /\ calories n = PyFloat 420.5) /\
  (exists n, summarise Scenario.three_items_swapped = inr n /\ calories n = PyFloat 420.4).
Proof.
  split.
  - unfold Scenario.three_items, Scenario.three_items_swapped.
    eapply Permutation_trans; [apply perm_swap|]. apply perm_skip. apply perm_swap.
  - split; eexists; split; vm_compute; reflexivity.
Qed.

(** ** The pipeline *)

(** C3. In every invocation of [process_meal]: when the Nutrition Step
    fails, [process_meal] fails with the same exception and the trace of
    the invocation holds the Nutrition Step alone, so the Advisor Step is
    never entered; and whenever the Advisor Step is entered, the trace of
    the invocation is the Nutrition Step, ended successfully, followed by
    the Advisor Step. *)
Theorem process_meal_advisor_only_after_nutrition
    (P : providers) (self : Council.AICouncil) (text : string)
    (profile : user_profile) (total : pynum) (w : world) :
  let run := Council.process_meal P self text profile total w in
  let evs := new_events w (snd run) in
  w_trace (snd run) = w_trace w ++ evs /\
  (forall e,
     nutrition_outcome P (Council.nutrition_calculator self) text w = inl e ->
     fst run = inl e /\
     evs = [NutritionBegin text; NutritionEnd (inl e)] /\
     forall req, ~ In (AdvisorBegin req) evs) /\
  (forall req,
     In (AdvisorBegin req) evs ->
     exists n a,
       nutrition_outcome P (Council.nutrition_calculator self) text w = inr n /\
       evs = [NutritionBegin text; NutritionEnd (inr n); AdvisorBegin req; AdvisorEnd a]).
Proof.
  cbv zeta. rewrite process_meal_run. cbv zeta.
  destruct (nutrition_outcome P _ text w) as [e|n] eqn:Hn.
  - assert (Hev : new_events w (after_nutrition text (inl e) w)
                  = [NutritionBegin text; NutritionEnd (inl e)]).
    { apply new_events_app. simpl. now rewrite <- app_assoc. }
    simpl fst; simpl snd. rewrite Hev. split; [|split].
    + simpl. now rewrite <- app_assoc.
    + intros e' He'. injection He' as <-. split; [reflexivity|]. split; [reflexivity|].
      intros req [H|[H|[]]]; discriminate.
    + intros req [H|[H|[]]]; discriminate.
  - assert (Hev1 : new_events w (after_nutrition text (inr n) w)
                   = [NutritionBegin text; NutritionEnd (inr n)]).
    { apply new_events_app. simpl. now rewrite <- app_assoc. }
    assert (Hstop : forall (e : exn),
              let run := (@inl exn meal_result e, after_nutrition text (inr n) w) in
              w_trace (snd run) = w_trace w ++ new_events w (snd run) /\
              (forall e0, @inr exn nutrition n = inl e0 ->
                 fst run = inl e0 /\
                 new_events w (snd run) = [NutritionBegin text; NutritionEnd (inl e0)] /\
                 forall req, ~ In (AdvisorBegin req) (new_events w (snd run))) /\
              (forall req, In (AdvisorBegin req) (new_events w (snd run)) ->
                 exists n0 a, @inr exn nutrition n = inr n0 /\
                   new_events w (snd run)
                   = [NutritionBegin text; NutritionEnd (inr n0); AdvisorBegin req; AdvisorEnd a])).
    { intros e. cbv zeta. simpl fst; simpl snd. rewrite Hev1. split; [|split].
      - simpl. now rewrite <- app_assoc.
      - discriminate.
      - intros req [H|[H|[]]]; discriminate. }
    destruct (PyNum.add total (calories n)) as [e|new_total]; [apply Hstop|].
    destruct (PyNum.sub _ new_total) as [e|rest]; [apply Hstop|].
    cbv zeta. simpl fst; simpl snd.
    set (req := {| a_health_goal := _ |}).
    set (a := advisor_outcome P _ req _).
    assert (Hev : new_events w (after_advisor req a (after_nutrition text (inr n) w))
                  = [NutritionBegin text; NutritionEnd (inr n); AdvisorBegin req; AdvisorEnd a]).
    { apply new_events_app. simpl. now rewrite <- !app_assoc. }
    rewrite Hev. split; [|split].
    + simpl. now rewrite <- !app_assoc.
    + discriminate.
    + intros req' [H|[H|[H|[H|[]]]]]; try discriminate.
      injection H as <-. now exists n, a.
Qed.

(** With a provider that recognises nothing, [process_meal] fails with
    the Nutrition Step's error and the Advisor Step is not entered; with
    the provider of the end-to-end scenario the trace is the Nutrition
    Step followed by the Advisor Step. *)
Lemma process_meal_advisor_only_after_nutrition_witness :
  (let run := Council.process_meal Scenario.P_empty Scenario.council "hlalem"
                Scenario.profile0 (PyFloat 800.0) Scenario.w0 in
   fst run = inl (PyExc Exception Council.no_items_message) /\
   forall req, ~ In (AdvisorBegin req) (new_events Scenario.w0 (snd run))) /\
  (let run := Council.process_meal Scenario.P_ok Scenario.council
                "grilled fish with salad, 300g"
                Scenario.profile0 (PyFloat 800.0) Scenario.w0 in
   exists req n a,
     In (AdvisorBegin req) (new_events Scenario.w0 (snd run)) /\
     new_events Scenario.w0 (snd run)
     = [NutritionBegin "grilled fish with salad, 300g"; NutritionEnd (inr n);
        AdvisorBegin req; AdvisorEnd a]).
Proof.
  split.
  - destruct (process_meal_advisor_only_after_nutrition Scenario.P_empty
                Scenario.council "hlalem" Scenario.profile0 (PyFloat 800.0) Scenario.w0)
      as [_ [H _]].
    destruct (H (PyExc Exception Council.no_items_message)) as [H1 [_ H3]].
    + vm_compute. reflexivity.
    + split; assumption.
  - destruct (process_meal_advisor_only_after_nutrition Scenario.P_ok
                Scenario.council "grilled fish with salad, 300g"
                Scenario.profile0 (PyFloat 800.0) Scenario.w0)
      as [_ [_ H]].
    set (req := {| a_health_goal := "lose_weight";
                   a_dish_name := "grilled fish with salad, 300g";
                   a_total_calories := PyFloat 350.0;
                   a_remaining_calories := PyFloat 850.0 |}).
    assert (Hin : In (AdvisorBegin req)
                    (new_events Scenario.w0
                       (snd (Council.process_meal Scenario.P_ok Scenario.council
                               "grilled fish with salad, 300g"
                               Scenario.profile0 (PyFloat 800.0) Scenario.w0)))).
    { vm_compute. right. right. left. reflexivity. }
    destruct (H req Hin) as [n [a [_ Hevs]]].
    exists req, n, a. split; assumption.
Defined.

(** C4, as amended. For every successful invocation of [process_meal]
    the Advisor Step was entered once, after the Nutrition Step, with the
    meal's calories and with the remaining calories computed as
    [daily_calorie_goal - (current_daily_total + nutrition.calories)], in
    Python's arithmetic and in that order (2500 standing in for a missing
    goal); nothing clamps the value: it is negative whenever the new
    total exceeds the goal ([goal < new_total] as Python compares them,
    by their exact values) and the subtraction converts no int of
    absolute value above [2^53], the only case in which the conversion
    of an operand can round. *)
Theorem advisor_receives_goal_minus_new_total
    (P : providers) (self : Council.AICouncil) (text : string)
    (profile : user_profile) (total : pynum) (w : world) (res : meal_result) :
  let run := Council.process_meal P self text profile total w in
  let goal := default (PyInt 2500) (up_daily_calorie_goal profile) in
  fst run = inr res ->
  exists req new_total,
    new_events w (snd run)
    = [NutritionBegin text; NutritionEnd (inr (r_nutrition res));
       AdvisorBegin req; AdvisorEnd (inr (r_ai_advice res))] /\
    a_total_calories req = calories (r_nutrition res) /\
    PyNum.add total (calories (r_nutrition res)) = inr new_total /\
    PyNum.sub goal new_total = inr (a_remaining_calories req) /\
    (PyNum.ltb goal new_total = true -> converted_exactly goal new_total = true ->
     PyNum.lt0 (a_remaining_calories req) = true).
Proof.
  cbv zeta. rewrite process_meal_run. cbv zeta.
  destruct (nutrition_outcome P _ text w) as [e|n]; [discriminate|].
  destruct (PyNum.add total (calories n)) as [e|new_total] eqn:Hadd; [discriminate|].
  destruct (PyNum.sub _ new_total) as [e|rest] eqn:Hsub; [discriminate|].
  cbv zeta. simpl fst; simpl snd.
  set (req := {| a_health_goal := _ |}).
  destruct (advisor_outcome P _ req _) as [e|advice]; [discriminate|].
  intros H. injection H as <-. simpl.
  exists req, new_total.
  split; [apply new_events_app; simpl; now rewrite <- !app_assoc|].
  split; [reflexivity|]. split; [assumption|]. split; [assumption|].
  intros Hex Hexact. exact (sub_negative _ _ _ Hex Hexact Hsub).
Qed.

(** The goal of 2000 kcal is already exceeded (2100 kcal eaten) when a
    meal of 350 kcal is logged: the Advisor Step is given -450. *)
Lemma advisor_receives_goal_minus_new_total_witness :
  exists res req,
    fst (Council.process_meal Scenario.P_ok Scenario.council
           "grilled fish with salad, 300g" Scenario.profile0 (PyFloat 2100.0) Scenario.w0)
    = inr res /\
    In (AdvisorBegin req)
       (new_events Scenario.w0
          (snd (Council.process_meal Scenario.P_ok Scenario.council
                  "grilled fish with salad, 300g" Scenario.profile0 (PyFloat 2100.0)
                  Scenario.w0))) /\
    a_remaining_calories req = PyFloat (-450.0) /\
    PyNum.lt0 (a_remaining_calories req) = true.
Proof.
  set (res := {| r_nutrition := {| calories := PyFloat 350.0; protein := PyFloat 40.0;
                                   carbs := PyFloat 10.0; fats := PyFloat 12.0 |};
                 r_ai_advice := "Eat light tonight." |}).
  destruct (advisor_receives_goal_minus_new_total Scenario.P_ok Scenario.council
              "grilled fish with salad, 300g" Scenario.profile0 (PyFloat 2100.0)
              Scenario.w0 res)
    as [req [new_total [Hevs [Hcal [Hadd [Hsub Hneg]]]]]].
  { vm_compute. reflexivity. }
  exists res, req. split; [vm_compute; reflexivity|].
  split; [rewrite Hevs; simpl; tauto|].
  assert (Hnt : new_total = PyFloat 2450.0).
  { vm_compute in Hadd. now injection Hadd as <-. }
  subst new_total.
  split.
  - assert (H : PyNum.sub (default (PyInt 2500) (up_daily_calorie_goal Scenario.profile0))
                  (PyFloat 2450.0) = inr (PyFloat (-450.0))) by (vm_compute; reflexivity).
    rewrite H in Hsub. now injection Hsub.
  - apply Hneg; vm_compute; reflexivity.
Defined.

(** C4, as stated, fails. With a goal of 2000 kcal, 512.2 kcal eaten and
    a meal of 250.1 kcal, the Advisor Step is given
    [2000 - (512.2 + 250.1) = 1237.6999999999998], while
    [2000 - 512.2 - 250.1 = 1237.7]. *)
Lemma remaining_is_not_goal_minus_total_minus_calories :
  let run := Council.process_meal Scenario.P_snack Scenario.council "msemen, one piece"
               Scenario.profile0 (PyFloat 512.2) Scenario.w0 in
  exists res req,
    fst run = inr res /\
    calories (r_nutrition res) = PyFloat 250.1 /\
    In (AdvisorBegin req) (new_events Scenario.w0 (snd run)) /\
    a_remaining_calories req = PyFloat 1237.6999999999998 /\
    PyNum.sub (PyInt 2000) (PyFloat 512.2) = inr (PyFloat 1487.8) /\
    PyNum.sub (PyFloat 1487.8) (PyFloat 250.1) = inr (PyFloat 1237.7) /\
    PyFloat 1237.6999999999998 <> PyFloat 1237.7.
Proof.
  cbv zeta.
  exists {| r_nutrition := {| calories := PyFloat 250.1; protein := PyFloat 3.0;
                              carbs := PyFloat 40.0; fats := PyFloat 8.5 |};
            r_ai_advice := "Keep it up." |},
         {| a_health_goal := "lose_weight"; a_dish_name := "msemen, one piece";
            a_total_calories := PyFloat 250.1;
            a_remaining_calories := PyFloat 1237.6999999999998 |}.
  split; [vm_compute; reflexivity|].
  split; [reflexivity|].
  split; [vm_compute; tauto|].
  split; [reflexivity|].
  split; [vm_compute; reflexivity|].
  split; [vm_compute; reflexivity|].
  intros H.
  apply (f_equal (fun x => match x with PyFloat f => Prim2SF f | PyInt _ => S754_nan end)) in H.
  vm_compute in H. discriminate.
Qed.

(** Why the bound of C4, as amended, is there. Beyond [2^53] the
    conversion of an int goal rounds, and an excess can go unseen: with
    the goal [2^53 + 3], [2^53] kcal eaten and a meal of 4 kcal, the new
    total [2^53 + 4.0] exceeds the goal, yet the subtraction converts
    the goal to [2^53 + 4.0] and the Advisor Step is given [0.0]. *)
Example excess_beyond_float_precision_goes_unseen :
  let run := Council.process_meal Scenario.P_date Scenario.council "one date"
               Scenario.profile_beyond_floats (PyFloat 9007199254740992.0) Scenario.w0 in
  exists res req,
    fst run = inr res /\
    In (AdvisorBegin req) (new_events Scenario.w0 (snd run)) /\
    PyNum.add (PyFloat 9007199254740992.0) (calories (r_nutrition res))
    = inr (PyFloat 9007199254740996.0) /\
    PyNum.ltb (PyInt (2 ^ 53 + 3)) (PyFloat 9007199254740996.0) = true /\
    converted_exactly (PyInt (2 ^ 53 + 3)) (PyFloat 9007199254740996.0) = false /\
    a_remaining_calories req = PyFloat 0 /\
    PyNum.lt0 (a_remaining_calories req) = false.
Proof.
  cbv zeta.
  exists {| r_nutrition := {| calories := PyFloat 4.0; protein := PyFloat 0.0;
                              carbs := PyFloat 1.0; fats := PyFloat 0.0 |};
            r_ai_advice := "Keep it up." |},
         {| a_health_goal := "maintain"; a_dish_name := "one date";
            a_total_calories := PyFloat 4.0;
            a_remaining_calories := PyFloat 0 |}.
  split; [vm_compute; reflexivity|].
  split; [vm_compute; tauto|].
  split; [vm_compute; reflexivity|].
  split; [vm_compute; reflexivity|].
  split; [vm_compute; reflexivity|].
  split; reflexivity.
Qed.

(** ** The endpoints *)

Section Endpoints.

Variable P : providers.

Lemma readonly_getenv name : readonly (Council.getenv name).
Proof. now intros w. Qed.

Lemma readonly_getenv_default name dflt : readonly (Council.getenv_default name dflt).
Proof. now intros w. Qed.

Lemma advisor_init_readonly : readonly Council.AdvisorAgent_init.
Proof.
  unfold Council.AdvisorAgent_init.
  repeat first
    [ apply readonly_getenv | apply readonly_getenv_default | progress readonly_tac ].
Qed.

Lemma get_ai_council_readonly : readonly Council.get_ai_council.
Proof.
  unfold Council.get_ai_council, Council.AICouncil_init, Council.VisionAgent_init,
    Council.NutritionCalculator_init, Council.AdvisorAgent_init.
  repeat first
    [ apply readonly_getenv | apply readonly_getenv_default | progress readonly_tac ].
Qed.

Lemma endpoint_handler_run {A} what e w :
  @Main.endpoint_handler A what e w = (inl (at_boundary what e), w).
Proof.
  unfold Main.endpoint_handler, at_boundary. now destruct (is_http_exception e).
Qed.

Lemma at_boundary_http what e :
  exists code detail, at_boundary what e = HTTPException code detail.
Proof.
  unfold at_boundary. destruct e as [cls msg|code detail]; simpl; eauto.
Qed.

Lemma process_meal_keeps_store self text profile total w :
  w_db (snd (Council.process_meal P self text profile total w)) = w_db w /\
  w_env (snd (Council.process_meal P self text profile total w)) = w_env w.
Proof.
  rewrite process_meal_run. cbv zeta.
  destruct (nutrition_outcome P _ text w); [now split|].
  destruct (PyNum.add total _); [now split|].
  destruct (PyNum.sub _ _); now split.
Qed.

(** [log_meal], case by case. *)
Lemma log_meal_run request w :
  Main.log_meal P request w =
    let fail e w' := (@inl exn Main.LogMealResponse (at_boundary "Meal logging" e), w') in
    match w_db w with
    | None =>
        fail (PyExc RuntimeError
                "Database not connected. Ensure connect_to_mongo() was called during startup.") w
    | Some d =>
    match ObjectId P (Main.user_id request) with
    | None => fail (HTTPException 400 "Invalid user_id format.") w
    | Some oid =>
    match users d !! oid with
    | None => fail (HTTPException 404 "User not found.") w
    | Some user =>
    match Main.add_calories (PyFloat 0)
            (meals_since oid (Main.midnight (utcnow P (w_trace w))) d) with
    | inl e => fail e w
    | inr total =>
    match fst (Council.get_ai_council w) with
    | inl e => fail e w
    | inr council =>
        let pm := Council.process_meal P council (Main.verified_text request)
                    (profile_of user) total w in
        match fst pm with
        | inl e => fail e (snd pm)
        | inr res =>
            let doc := meal_log_of oid request res (utcnow P (w_trace (snd pm))) in
            match insert_error P (meal_logs d) doc with
            | Some e => fail e (snd pm)
            | None =>
                let w2 := set_db (insert_meal doc d) (snd pm) in
                match Main.NutritionData (r_nutrition res) with
                | inl e => fail e w2
                | inr checked =>
                    (inr {| Main.meal_id := inserted_id P (meal_logs d) doc;
                            Main.dish_name := Main.verified_text request;
                            Main.lm_nutrition := checked;
                            Main.ai_advice := r_ai_advice res;
                            Main.timestamp := m_timestamp doc |},
                     w2)
                end
            end
        end
    end end end end end.
Proof.
  cbv zeta. unfold Main.log_meal, try_except.
  unfold Main.get_users_collection, Main.get_meal_logs_collection, Main.users_find_one,
    Main.meal_logs_find, Main.now, Main.get_database.
  unfold bind at 1. unfold bind at 1. 
  destruct (w_db w) as [d|] eqn:Hdb; [|apply endpoint_handler_run].
  unfold ret at 1. unfold bind at 1. unfold bind at 1. rewrite Hdb.
  unfold ret at 1. unfold bind at 1.
  destruct (ObjectId P (Main.user_id request)) as [oid|];
    [|unfold raise at 1; apply endpoint_handler_run].
  unfold ret at 1. unfold bind at 1. unfold bind at 1. rewrite Hdb.
  unfold ret at 1.
  destruct (users d !! oid) as [user|];
    [|unfold raise at 1; apply endpoint_handler_run].
  unfold bind at 1. unfold bind at 1. unfold bind at 1. rewrite Hdb.
  unfold ret at 1. unfold bind at 1. unfold lift at 1.
  fold (meals_since oid (Main.midnight (utcnow P (w_trace w))) d).
  destruct (Main.add_calories _ _) as [e|total]; [apply endpoint_handler_run|].
  unfold bind at 1.
  pose proof (get_ai_council_readonly w) as Hc.
  destruct (Council.get_ai_council w) as [[e|council] wc]; simpl in Hc; subst wc;
    [apply endpoint_handler_run|].
  simpl fst. unfold bind at 1. fold (profile_of user).
  pose proof (process_meal_keeps_store council (Main.verified_text request)
                (profile_of user) total w) as [Hk _].
  destruct (Council.process_meal P council _ _ total w) as [[e|res] w1]; simpl in Hk;
    simpl fst; simpl snd; [apply endpoint_handler_run|].
  unfold bind at 1. unfold bind at 1. unfold Main.meal_logs_insert_one at 1.
  rewrite Hk, Hdb.
  fold (meal_log_of oid request res (utcnow P (w_trace w1))).
  destruct (insert_error P (meal_logs d) _) as [e|]; [apply endpoint_handler_run|].
  fold (insert_meal (meal_log_of oid request res (utcnow P (w_trace w1))) d).
  unfold bind at 1. unfold lift at 1.
  destruct (Main.NutritionData (r_nutrition res)) as [e|checked];
    [apply endpoint_handler_run|].
  reflexivity.
Qed.

Lemma new_events_nil w : new_events w w = [].
Proof. unfold new_events. apply drop_all. Qed.

Lemma new_events_set_db w w' d : new_events w (set_db d w') = new_events w w'.
Proof. reflexivity. Qed.

(** A successful run of [process_meal] has no failed step in its trace. *)
Lemma process_meal_success_events self text profile total w res :
  fst (Council.process_meal P self text profile total w) = inr res ->
  exists req,
    new_events w (snd (Council.process_meal P self text profile total w))
    = [NutritionBegin text; NutritionEnd (inr (r_nutrition res));
       AdvisorBegin req; AdvisorEnd (inr (r_ai_advice res))].
Proof.
  rewrite process_meal_run. cbv zeta.
  destruct (nutrition_outcome P _ text w) as [e|n]; [discriminate|].
  destruct (PyNum.add total (calories n)) as [e|new_total]; [discriminate|].
  destruct (PyNum.sub _ new_total) as [e|rest]; [discriminate|].
  cbv zeta. simpl fst; simpl snd.
  set (req := {| a_health_goal := _ |}).
  destruct (advisor_outcome P _ req _) as [e|advice]; [discriminate|].
  intros H. injection H as <-. exists req.
  apply new_events_app. simpl. now rewrite <- !app_assoc.
Qed.

(** C5. For every invocation of [log_meal] in which the Nutrition Step
    or the Advisor Step fails, the endpoint answers with an HTTP error
    and the database (the users and the meal records) is exactly what it
    was: no record is written and the computed nutrition, if any, is
    dropped. *)
Theorem log_meal_all_or_nothing (request : Main.LogMealRequest) (w : world) :
  let run := Main.log_meal P request w in
  let evs := new_events w (snd run) in
  (exists e, In (NutritionEnd (inl e)) evs \/ In (AdvisorEnd (inl e)) evs) ->
  (exists code detail, fst run = inl (HTTPException code detail)) /\
  w_db (snd run) = w_db w.
Proof.
  cbv zeta. rewrite log_meal_run. cbv zeta.
  assert (Hnil : (exists e, In (NutritionEnd (inl e)) (new_events w w) \/
                            In (AdvisorEnd (inl e)) (new_events w w)) -> False).
  { intros [e He]. rewrite new_events_nil in He. destruct He as [[]|[]]. }
  destruct (w_db w) as [d|] eqn:Hdb;
    [|simpl fst; simpl snd; intros H; destruct (Hnil H)].
  destruct (ObjectId P (Main.user_id request)) as [oid|];
    [|simpl fst; simpl snd; intros H; destruct (Hnil H)].
  destruct (users d !! oid) as [user|];
    [|simpl fst; simpl snd; intros H; destruct (Hnil H)].
  destruct (Main.add_calories _ _) as [e|total];
    [simpl fst; simpl snd; intros H; destruct (Hnil H)|].
  destruct (fst (Council.get_ai_council w)) as [e|council];
    [simpl fst; simpl snd; intros H; destruct (Hnil H)|].
  pose proof (process_meal_keeps_store council (Main.verified_text request)
                (profile_of user) total w) as [Hk _].
  pose proof (process_meal_success_events council (Main.verified_text request)
                (profile_of user) total w) as Hok.
  destruct (fst (Council.process_meal P council _ _ total w)) as [e|res].
  - intros _. simpl fst; simpl snd. split; [|congruence].
    destruct (at_boundary_http "Meal logging" e) as [code [detail ->]]. eauto.
  - destruct (Hok res eq_refl) as [req Hevs].
    assert (Hno : (exists e, In (NutritionEnd (inl e))
                               (new_events w (snd (Council.process_meal P council
                                  (Main.verified_text request) (profile_of user) total w))) \/
                             In (AdvisorEnd (inl e))
                               (new_events w (snd (Council.process_meal P council
                                  (Main.verified_text request) (profile_of user) total w))))
                  -> False).
    { rewrite Hevs. intros [e [H|H]]; simpl in H;
        repeat (destruct H as [H|H]; [discriminate|]); destruct H. }
    destruct (insert_error P (meal_logs d) _) as [e|];
      [simpl fst; simpl snd; intros H; destruct (Hno H)|].
    destruct (Main.NutritionData (r_nutrition res)) as [e|checked];
      simpl fst; simpl snd; rewrite new_events_set_db; intros H; destruct (Hno H).
Qed.

End Endpoints.

(** A nutrition provider that times out, and an advice provider that
    fails after the nutrition was computed: both requests end in an HTTP
    error and the store is as it was. *)
Lemma log_meal_all_or_nothing_witness :
  (exists code detail,
     fst (Main.log_meal Scenario.P_timeout Scenario.request0 Scenario.w0)
     = inl (HTTPException code detail)) /\
  w_db (snd (Main.log_meal Scenario.P_timeout Scenario.request0 Scenario.w0))
  = w_db Scenario.w0 /\
  (exists code detail,
     fst (Main.log_meal Scenario.P_no_advice Scenario.request0 Scenario.w0)
     = inl (HTTPException code detail)) /\
  w_db (snd (Main.log_meal Scenario.P_no_advice Scenario.request0 Scenario.w0))
  = w_db Scenario.w0.
Proof.
  destruct (log_meal_all_or_nothing Scenario.P_timeout Scenario.request0 Scenario.w0)
    as [H1 H2].
  { exists (PyExc Exception Council.timeout_message). left. vm_compute. tauto. }
  destruct (log_meal_all_or_nothing Scenario.P_no_advice Scenario.request0 Scenario.w0)
    as [H3 H4].
  { exists (PyExc Exception "Advisor Agent failed: 503 Service Unavailable").
    right. vm_compute. tauto. }
  repeat split; assumption.
Defined.

(** ** The "no items recognized" error *)

Lemma no_items_outcome (P : providers) self q w response :
  nutrition_api P (trace_at_nutrition q w) (Council.n_api_key self) q = inr response ->
  no_items response ->
  nutrition_outcome P self q w = inl no_items_error.
Proof.
  intros Hresp [Hstatus Hjson].
  rewrite nutrition_outcome_eq, Hresp, Hstatus. simpl.
  destruct Hjson as [-> | ->]; reflexivity.
Qed.

(** C2, as amended. For every answer of the provider with status 200 and
    no item, the Nutrition Step raises the "no items recognized"
    exception, whose text carries the hint to simplify the description,
    and returns no summary; its own [except] clauses let it through as
    it is, while they turn a timeout into the timeout error and an
    answer with another status into a different exception;
    [process_meal] fails with the very same exception and never enters
    the Advisor Step. The [log_meal] endpoint does wrap it, as it wraps
    every exception that is not an [HTTPException]: the client gets HTTP
    500 with the detail "Meal logging failed: " followed by the text of
    the exception, and nothing is stored. *)
Theorem no_items_error_propagates
    (P : providers) (council : Council.AICouncil) (text : string) (w : world) :
  let self := Council.nutrition_calculator council in
  let answer := nutrition_api P (trace_at_nutrition text w) (Council.n_api_key self) text in
  PyStr.contains "Please simplify the description" (str_exn no_items_error) = true /\
  (forall response,
     answer = inr response -> no_items response ->
     nutrition_outcome P self text w = inl no_items_error /\
     (forall profile total,
        Council.process_meal P council text profile total w
        = (inl no_items_error, after_nutrition text (inl no_items_error) w)) /\
     (forall request d oid user total,
        Main.verified_text request = text ->
        w_db w = Some d ->
        ObjectId P (Main.user_id request) = Some oid ->
        users d !! oid = Some user ->
        Main.add_calories (PyFloat 0)
          (meals_since oid (Main.midnight (utcnow P (w_trace w))) d) = inr total ->
        fst (Council.get_ai_council w) = inr council ->
        Main.log_meal P request w
        = (inl (HTTPException 500
                  ("Meal logging failed: " +:+ Council.no_items_message)),
           after_nutrition text (inl no_items_error) w))) /\
  (forall e,
     answer = inl e -> is_timeout e = true ->
     nutrition_outcome P self text w = inl (PyExc Exception Council.timeout_message) /\
     PyExc Exception Council.timeout_message <> no_items_error) /\
  (forall response,
     answer = inr response -> status_code response <> 200 ->
     exists e, nutrition_outcome P self text w = inl e /\ e <> no_items_error).
Proof.
  cbv zeta. split; [reflexivity|]. split; [|split].
  - intros response Hresp Hno.
    pose proof (no_items_outcome P _ text w response Hresp Hno) as Hout.
    split; [exact Hout|].
    assert (Hpm : forall profile total,
              Council.process_meal P council text profile total w
              = (inl no_items_error, after_nutrition text (inl no_items_error) w)).
    { intros profile total. rewrite process_meal_run. cbv zeta. now rewrite Hout. }
    split; [exact Hpm|].
    intros request d oid user total Htext Hdb Hoid Huser Htotal Hcouncil.
    rewrite log_meal_run. cbv zeta.
    rewrite Hdb, Hoid, Huser, Htotal, Hcouncil, Htext, Hpm. reflexivity.
  - intros e Hans Htimeout. split; [|discriminate].
    rewrite nutrition_outcome_eq, Hans. unfold nutrition_failure. now rewrite Htimeout.
  - intros response Hans Hstatus.
    rewrite nutrition_outcome_eq, Hans.
    destruct (status_code response =? 200) eqn:Heq; [apply Z.eqb_eq in Heq; contradiction|].
    simpl. unfold nutrition_failure. simpl.
    destruct (PyStr.contains _ _); eexists; (split; [reflexivity|discriminate]).
Qed.

(** The provider recognises nothing in [hlalem]: the step raises the
    "no items" error, which [log_meal] answers as an HTTP 500; a timeout
    and an unavailable provider give other errors. *)
Lemma no_items_error_propagates_witness :
  nutrition_outcome Scenario.P_empty Scenario.nc "hlalem" Scenario.w0 = inl no_items_error /\
  Main.log_meal Scenario.P_empty
    {| Main.user_id := Scenario.uid; Main.verified_text := "hlalem";
       Main.image_url := None |} Scenario.w0
  = (inl (HTTPException 500 ("Meal logging failed: " +:+ Council.no_items_message)),
     after_nutrition "hlalem" (inl no_items_error) Scenario.w0) /\
  nutrition_outcome Scenario.P_timeout Scenario.nc "hlalem" Scenario.w0
  = inl (PyExc Exception Council.timeout_message) /\
  exists e,
    nutrition_outcome Scenario.P_unavailable Scenario.nc "hlalem" Scenario.w0 = inl e /\
    e <> no_items_error.
Proof.
  destruct (no_items_error_propagates Scenario.P_empty Scenario.council "hlalem" Scenario.w0)
    as [_ [H1 _]].
  destruct (H1 {| status_code := 200; text := ""; json := inr (Some []) |} eq_refl)
    as [Hstep [_ Hlog]].
  { split; [reflexivity | right; reflexivity]. }
  destruct (no_items_error_propagates Scenario.P_timeout Scenario.council "hlalem" Scenario.w0)
    as [_ [_ [H2 _]]].
  destruct (H2 (PyExc TimeoutException "timed out") eq_refl eq_refl) as [Htimeout _].
  destruct (no_items_error_propagates Scenario.P_unavailable Scenario.council "hlalem"
              Scenario.w0) as [_ [_ [_ H3]]].
  split; [exact Hstep|].
  split.
  - apply (Hlog {| Main.user_id := Scenario.uid; Main.verified_text := "hlalem";
                   Main.image_url := None |}
             {| users := {[ Scenario.uid := Scenario.user0 ]}; meal_logs := [] |}
             Scenario.uid Scenario.user0 (PyFloat 0)); vm_compute; reflexivity.
  - split; [exact Htimeout|].
    apply (H3 {| status_code := 503; text := "Service Unavailable";
                 json := inl (PyExc ProviderError
                                "Expecting value: line 1 column 1 (char 0)") |} eq_refl).
    discriminate.
Defined.

(** C2, as stated, fails at the endpoint. The provider recognises
    nothing: the Nutrition Step raises the "no items recognized"
    exception, and [log_meal], the layer around the pipeline, answers
    HTTP 500 "Meal logging failed: ...", the answer it also gives when the
    provider times out; what the client gets is not the exception the
    step raised. *)
Lemma no_items_error_is_wrapped_by_log_meal :
  nutrition_outcome Scenario.P_empty Scenario.nc "grilled fish with salad, 300g" Scenario.w0
  = inl no_items_error /\
  fst (Main.log_meal Scenario.P_empty Scenario.request0 Scenario.w0)
  = inl (HTTPException 500 ("Meal logging failed: " +:+ Council.no_items_message)) /\
  fst (Main.log_meal Scenario.P_timeout Scenario.request0 Scenario.w0)
  = inl (HTTPException 500 ("Meal logging failed: " +:+ Council.timeout_message)) /\
  fst (Main.log_meal Scenario.P_empty Scenario.request0 Scenario.w0) <> inl no_items_error.
Proof.
  split; [vm_compute; reflexivity|].
  split; [vm_compute; reflexivity|].
  split; [vm_compute; reflexivity|].
  intros H. vm_compute in H. discriminate.
Qed.

(** ** Non-negative summaries *)










(** ** The dashboard *)

Lemma add_calories_sum_from meals total :
  Main.add_calories total meals
  = PyNum.sum_from total (map (Main.meal_get "calories") meals).
Proof.
  revert total. induction meals as [|m meals IH]; intros total; simpl; [reflexivity|].
  destruct (PyNum.add total _); [reflexivity | apply IH].
Qed.

(** The aggregation loop computes the four running totals and counts the
    meals. *)
Lemma aggregate_sums meals acc c p cb f :
  PyNum.sum_from (Main.total_calories acc) (map (Main.meal_get "calories") meals) = inr c ->
  PyNum.sum_from (Main.total_protein acc) (map (Main.meal_get "protein") meals) = inr p ->
  PyNum.sum_from (Main.total_carbs acc) (map (Main.meal_get "carbs") meals) = inr cb ->
  PyNum.sum_from (Main.total_fats acc) (map (Main.meal_get "fats") meals) = inr f ->
  Main.aggregate acc meals
  = inr {| Main.total_calories := c; Main.total_protein := p; Main.total_carbs := cb;
           Main.total_fats := f;
           Main.meals_count := (Main.meals_count acc + length meals)%nat |}.
Proof.
  revert acc. induction meals as [|m meals IH]; intros acc; simpl.
  - intros Hc Hp Hcb Hf. injection Hc as <-. injection Hp as <-.
    injection Hcb as <-. injection Hf as <-.
    rewrite Nat.add_0_r. now destruct acc.
  - unfold Main.add_meal.
    destruct (PyNum.add (Main.total_calories acc) _) as [e|c']; [discriminate|].
    destruct (PyNum.add (Main.total_protein acc) _) as [e|p']; [discriminate|].
    destruct (PyNum.add (Main.total_carbs acc) _) as [e|cb']; [discriminate|].
    destruct (PyNum.add (Main.total_fats acc) _) as [e|f']; [discriminate|].
    intros Hc Hp Hcb Hf.
    rewrite (IH {| Main.total_calories := c'; Main.total_protein := p';
                   Main.total_carbs := cb'; Main.total_fats := f';
                   Main.meals_count := S (Main.meals_count acc) |} Hc Hp Hcb Hf).
    simpl. do 2 f_equal. lia.
Qed.

Lemma aggregate_inr meals acc tot :
  Main.aggregate acc meals = inr tot ->
  PyNum.sum_from (Main.total_calories acc) (map (Main.meal_get "calories") meals)
  = inr (Main.total_calories tot) /\
  PyNum.sum_from (Main.total_protein acc) (map (Main.meal_get "protein") meals)
  = inr (Main.total_protein tot) /\
  PyNum.sum_from (Main.total_carbs acc) (map (Main.meal_get "carbs") meals)
  = inr (Main.total_carbs tot) /\
  PyNum.sum_from (Main.total_fats acc) (map (Main.meal_get "fats") meals)
  = inr (Main.total_fats tot) /\
  Main.meals_count tot = (Main.meals_count acc + length meals)%nat.
Proof.
  revert acc. induction meals as [|m meals IH]; intros acc; simpl.
  - intros H. injection H as <-. rewrite Nat.add_0_r. now repeat split.
  - unfold Main.add_meal.
    destruct (PyNum.add (Main.total_calories acc) _) as [e|c']; [discriminate|].
    destruct (PyNum.add (Main.total_protein acc) _) as [e|p']; [discriminate|].
    destruct (PyNum.add (Main.total_carbs acc) _) as [e|cb']; [discriminate|].
    destruct (PyNum.add (Main.total_fats acc) _) as [e|f']; [discriminate|].
    intros H. destruct (IH _ H) as [Hc [Hp [Hcb [Hf Hn]]]]. simpl in *.
    repeat split; try assumption. lia.
Qed.

(** [get_dashboard], case by case. *)
Lemma get_dashboard_run (P : providers) uid w :
  Main.get_dashboard P uid w =
    let fail e := (@inl exn Main.DashboardResponse (at_boundary "Dashboard fetch" e), w) in
    match w_db w with
    | None =>
        fail (PyExc RuntimeError
                "Database not connected. Ensure connect_to_mongo() was called during startup.")
    | Some d =>
    match ObjectId P uid with
    | None => fail (HTTPException 400 "Invalid user_id format.")
    | Some oid =>
    match users d !! oid with
    | None => fail (HTTPException 404 "User not found.")
    | Some user =>
    let goal := default 2500 (u_daily_calorie_goal user) in
    match Main.aggregate Main.zero_totals
            (meals_since oid (Main.midnight (utcnow P (w_trace w))) d) with
    | inl e => fail e
    | inr tot =>
    match PyNum.sub (PyInt goal) (Main.total_calories tot) with
    | inl e => fail e
    | inr rest =>
    match Main.NutritionData
            {| calories := PyNum.round1 (Main.total_calories tot);
               protein := PyNum.round1 (Main.total_protein tot);
               carbs := PyNum.round1 (Main.total_carbs tot);
               fats := PyNum.round1 (Main.total_fats tot) |} with
    | inl e => fail e
    | inr checked =>
        (inr {| Main.d_user_id := uid;
                Main.daily_goal := goal;
                Main.total_consumed := PyNum.round1 (Main.total_calories tot);
                Main.remaining := PyNum.round1 rest;
                Main.meals_today := Main.meals_count tot;
                Main.nutrition_totals := checked |},
         w)
    end end end end end end.
Proof.
  cbv zeta. unfold Main.get_dashboard, try_except.
  unfold Main.get_users_collection, Main.get_meal_logs_collection, Main.users_find_one,
    Main.meal_logs_find, Main.now, Main.get_database.
  unfold bind at 1. unfold bind at 1.
  destruct (w_db w) as [d|] eqn:Hdb; [|apply endpoint_handler_run].
  unfold ret at 1. unfold bind at 1. unfold bind at 1. rewrite Hdb.
  unfold ret at 1. unfold bind at 1.
  destruct (ObjectId P uid) as [oid|];
    [|unfold raise at 1; apply endpoint_handler_run].
  unfold ret at 1. unfold bind at 1. unfold bind at 1. rewrite Hdb.
  unfold ret at 1.
  destruct (users d !! oid) as [user|];
    [|unfold raise at 1; apply endpoint_handler_run].
  unfold bind at 1. unfold bind at 1. unfold bind at 1. rewrite Hdb.
  unfold ret at 1. unfold bind at 1. unfold lift at 1.
  fold (meals_since oid (Main.midnight (utcnow P (w_trace w))) d).
  destruct (Main.aggregate _ _) as [e|tot]; [apply endpoint_handler_run|].
  unfold bind at 1. unfold lift at 1.
  destruct (PyNum.sub _ (Main.total_calories tot)) as [e|rest]; [apply endpoint_handler_run|].
  unfold bind at 1. unfold lift at 1.
  destruct (Main.NutritionData _) as [e|checked]; [apply endpoint_handler_run|].
  reflexivity.
Qed.

(** The sums of the endpoints start from [0.0]: they are floats. *)
Lemma add_float a x s :
  PyNum.is_int a = false -> PyNum.add a x = inr s -> PyNum.is_int s = false.
Proof.
  destruct a as [z|f]; [discriminate|]. intros _.
  unfold PyNum.add, PyNum.lift2. destruct x as [y|g].
  - destruct (PyNum.float_of_int y); [discriminate|]. intros H. now injection H as <-.
  - intros H. now injection H as <-.
Qed.

Lemma sum_from_float xs : forall a s,
  PyNum.is_int a = false -> PyNum.sum_from a xs = inr s -> PyNum.is_int s = false.
Proof.
  induction xs as [|x xs IH]; intros a s Ha; simpl.
  - intros H. now injection H as <-.
  - destruct (PyNum.add a x) as [e|a'] eqn:Hadd; [discriminate|].
    apply IH. exact (add_float a x a' Ha Hadd).
Qed.

Lemma running_sum_float key meals s :
  running_sum key meals = inr s -> PyNum.is_int s = false.
Proof. apply sum_from_float. reflexivity. Qed.

Lemma round1_float a : PyNum.is_int (PyNum.round1 a) = PyNum.is_int a.
Proof. now destruct a. Qed.

(** [NutritionData] on four floats: it accepts them exactly when none is
    negative, and keeps them as they are. *)
Lemma NutritionData_inr n checked :
  PyNum.is_int (calories n) = false -> PyNum.is_int (protein n) = false ->
  PyNum.is_int (carbs n) = false -> PyNum.is_int (fats n) = false ->
  Main.NutritionData n = inr checked <-> summary_non_negative n /\ checked = n.
Proof.
  destruct n as [[zc|c] [zp|p] [zcb|cb] [zf|f]]; simpl; try discriminate.
  intros _ _ _ _. unfold Main.NutritionData, Main.float_field, summary_non_negative. simpl.
  destruct (0 <=? c)%float, (0 <=? p)%float, (0 <=? cb)%float, (0 <=? f)%float;
    split; try discriminate; try (intros [[? [? [? ?]]] _]; discriminate).
  - intros H. injection H as <-. now repeat split.
  - intros [_ ->]. reflexivity.
Qed.

Lemma matches_true oid since m :
  Main.matches oid since m = true <-> m_user_id m = oid /\ since <= m_timestamp m.
Proof.
  unfold Main.matches. rewrite Bool.andb_true_iff, String.eqb_eq, Z.leb_le. reflexivity.
Qed.

Lemma meals_since_In oid since d m :
  In m (meals_since oid since d) <->
  In m (meal_logs d) /\ m_user_id m = oid /\ since <= m_timestamp m.
Proof.
  unfold meals_since. rewrite <- !list_elem_of_In, list_elem_of_filter, matches_true.
  tauto.
Qed.

Lemma midnight_spec t :
  Main.midnight t <= t < Main.midnight t + Main.microseconds_per_day /\
  Main.midnight t mod Main.microseconds_per_day = 0.
Proof.
  unfold Main.midnight.
  assert (Hd : 0 < Main.microseconds_per_day) by reflexivity.
  pose proof (Z.mod_pos_bound t _ Hd) as Hb.
  split; [lia|].
  rewrite Zminus_mod_idemp_r, Z.sub_diag. reflexivity.
Qed.

(** C7, as amended. For a user of the store, the dashboard counts
    exactly the stored meals of that user whose time is at or after
    midnight UTC of the current day (a meal at midnight itself is in, a
    meal before it is out), in the order of the store. When it answers,
    each total is the running float total of that value over these
    meals, from [0.0] and in that order, rounded with [round(., 1)];
    [meals_today] is their number; [remaining] is the goal (2500 when the
    user has none) minus the unrounded total of the calories, rounded
    with [round(., 1)]. It answers exactly when none of these operations
    raises and no rounded total is negative, and it leaves the world as
    it is. *)
Theorem dashboard_is_rounded_running_total
    (P : providers) (uid : string) (w : world)
    (d : database) (oid : string) (user : user_doc) :
  w_db w = Some d ->
  ObjectId P uid = Some oid ->
  users d !! oid = Some user ->
  let since := Main.midnight (utcnow P (w_trace w)) in
  let today := meals_since oid since d in
  let goal := default 2500 (u_daily_calorie_goal user) in
  (since <= utcnow P (w_trace w) < since + Main.microseconds_per_day /\
   since mod Main.microseconds_per_day = 0) /\
  (forall m,
     In m today <-> In m (meal_logs d) /\ m_user_id m = oid /\ since <= m_timestamp m) /\
  (forall resp,
     fst (Main.get_dashboard P uid w) = inr resp <->
     exists c p cb f rest,
       running_sum "calories" today = inr c /\
       running_sum "protein" today = inr p /\
       running_sum "carbs" today = inr cb /\
       running_sum "fats" today = inr f /\
       PyNum.sub (PyInt goal) c = inr rest /\
       summary_non_negative
         {| calories := PyNum.round1 c; protein := PyNum.round1 p;
            carbs := PyNum.round1 cb; fats := PyNum.round1 f |} /\
       resp = {| Main.d_user_id := uid;
                 Main.daily_goal := goal;
                 Main.total_consumed := PyNum.round1 c;
                 Main.remaining := PyNum.round1 rest;
                 Main.meals_today := length today;
                 Main.nutrition_totals :=
                   {| calories := PyNum.round1 c; protein := PyNum.round1 p;
                      carbs := PyNum.round1 cb; fats := PyNum.round1 f |} |}) /\
  snd (Main.get_dashboard P uid w) = w.
Proof.
  intros Hdb Hoid Huser. cbv zeta.
  split; [apply midnight_spec|].
  split; [intros m; apply meals_since_In|].
  rewrite get_dashboard_run. cbv zeta. rewrite Hdb, Hoid, Huser.
  set (today := meals_since oid _ d).
  split.
  - intros resp. split.
    + destruct (Main.aggregate _ today) as [e|tot] eqn:Hagg; [discriminate|].
      destruct (PyNum.sub _ (Main.total_calories tot)) as [e|rest] eqn:Hsub; [discriminate|].
      destruct (Main.NutritionData _) as [e|checked] eqn:Hnd; [discriminate|].
      simpl fst. intros H. injection H as <-.
      destruct (aggregate_inr _ _ _ Hagg) as [Hc [Hp [Hcb [Hf Hn]]]].
      apply NutritionData_inr in Hnd;
        try (simpl; rewrite round1_float; eapply running_sum_float; eassumption).
      destruct Hnd as [Hnn ->].
      exists (Main.total_calories tot), (Main.total_protein tot),
        (Main.total_carbs tot), (Main.total_fats tot), rest.
      split; [exact Hc|]. split; [exact Hp|]. split; [exact Hcb|]. split; [exact Hf|].
      split; [exact Hsub|]. split; [exact Hnn|]. now rewrite Hn.
    + intros [c [p [cb [f [rest [Hc [Hp [Hcb [Hf [Hsub [Hnn ->]]]]]]]]]]].
      rewrite (aggregate_sums today Main.zero_totals c p cb f Hc Hp Hcb Hf).
      simpl Main.total_calories. rewrite Hsub.
      simpl Main.total_protein. simpl Main.total_carbs. simpl Main.total_fats.
      destruct (Main.NutritionData _) as [e|checked] eqn:Hnd.
      * assert (Hok : Main.NutritionData
                        {| calories := PyNum.round1 c; protein := PyNum.round1 p;
                           carbs := PyNum.round1 cb; fats := PyNum.round1 f |}
                      = inr {| calories := PyNum.round1 c; protein := PyNum.round1 p;
                               carbs := PyNum.round1 cb; fats := PyNum.round1 f |})
          by (apply NutritionData_inr;
              try (simpl; rewrite round1_float; eapply running_sum_float; eassumption);
              now split).
        rewrite Hok in Hnd. discriminate.
      * apply NutritionData_inr in Hnd;
          try (simpl; rewrite round1_float; eapply running_sum_float; eassumption).
        destruct Hnd as [_ ->]. reflexivity.
  - destruct (Main.aggregate _ today) as [e|tot]; [reflexivity|].
    destruct (PyNum.sub _ _) as [e|rest]; [reflexivity|].
    destruct (Main.NutritionData _); reflexivity.
Qed.

(** The dashboard scenario of the specification: three meals of today of
    450, 320 and 680 kcal against a goal of 2000 kcal. The meal logged at
    midnight counts, the one logged a millisecond earlier does not. *)
Lemma dashboard_is_rounded_running_total_witness :
  fst (Main.get_dashboard Scenario.P_ok Scenario.uid
         (Scenario.world_with Scenario.dashboard_logs))
  = inr {| Main.d_user_id := Scenario.uid;
           Main.daily_goal := 2000;
           Main.total_consumed := PyFloat 1450.0;
           Main.remaining := PyFloat 550.0;
           Main.meals_today := 3;
           Main.nutrition_totals :=
             {| calories := PyFloat 1450.0; protein := PyFloat 80.0;
                carbs := PyFloat 160.0; fats := PyFloat 45.0 |} |} /\
  In (Scenario.meal Scenario.uid Scenario.day0
        (Scenario.nd (PyFloat 450.0) (PyFloat 25.0) (PyFloat 50.0) (PyFloat 15.0)))
     (meals_since Scenario.uid (Main.midnight Scenario.t0)
        (Scenario.db_with Scenario.dashboard_logs)) /\
  ~ In (Scenario.meal Scenario.uid (Scenario.day0 - 1000)
          (Scenario.nd (PyFloat 999.0) (PyFloat 9.0) (PyFloat 9.0) (PyFloat 9.0)))
       (meals_since Scenario.uid (Main.midnight Scenario.t0)
          (Scenario.db_with Scenario.dashboard_logs)).
Proof.
  destruct (dashboard_is_rounded_running_total Scenario.P_ok Scenario.uid
              (Scenario.world_with Scenario.dashboard_logs)
              (Scenario.db_with Scenario.dashboard_logs)
              Scenario.uid Scenario.user0 eq_refl eq_refl eq_refl)
    as [_ [Hin [Hresp _]]].
  split; [|split].
  - apply Hresp.
    exists (PyFloat 1450.0), (PyFloat 80.0), (PyFloat 160.0), (PyFloat 45.0), (PyFloat 550.0).
    repeat split; vm_compute; reflexivity.
  - apply Hin. split; [simpl; tauto|]. split; [reflexivity|]. vm_compute. discriminate.
  - intros H. apply Hin in H. destruct H as [_ [_ H]]. vm_compute in H. apply H. reflexivity.
Defined.

(** C7, as stated, fails. What the dashboard reports is not a function
    of the values of today's meals: for meals of 2^53, 1 and 1 kcal it
    reports 9007199254740992.0 consumed, and for the same three values
    with the large meal logged last, 9007199254740994.0. And it reports
    rounded values: with one meal of 1197.9 kcal and a goal of 2000 kcal
    the remaining calories are reported as 802.1, while
    [2000 - 1197.9 = 802.0999999999999]. *)
Lemma dashboard_total_depends_on_order_and_is_rounded :
  Permutation (map (Main.meal_get "calories") Scenario.wide_logs)
              (map (Main.meal_get "calories") Scenario.wide_logs_late) /\
  fst (Scenario.reported Scenario.wide_logs) = PyFloat 9007199254740992.0 /\
  fst (Scenario.reported Scenario.wide_logs_late) = PyFloat 9007199254740994.0 /\
  fst (Scenario.reported Scenario.wide_logs)
  <> fst (Scenario.reported Scenario.wide_logs_late) /\
  Scenario.reported Scenario.one_meal_logs = (PyFloat 1197.9, PyFloat 802.1) /\
  PyNum.sub (PyInt 2000) (PyFloat 1197.9) = inr (PyFloat 802.0999999999999) /\
  PyFloat 802.1 <> PyFloat 802.0999999999999.
Proof.
  split.
  { vm_compute. eapply Permutation_trans; [apply perm_swap|]. apply perm_skip, perm_swap. }
  split; [vm_compute; reflexivity|].
  split; [vm_compute; reflexivity|].
  split.
  { intros H.
    apply (f_equal (fun x => match x with PyFloat f => Prim2SF f | PyInt _ => S754_nan end))
      in H.
    vm_compute in H. discriminate. }
  split; [vm_compute; reflexivity|].
  split; [vm_compute; reflexivity|].
  intros H.
  apply (f_equal (fun x => match x with PyFloat f => Prim2SF f | PyInt _ => S754_nan end))
    in H.
  vm_compute in H. discriminate.
Qed.

(** ** The advisor's provider *)

Lemma truthy_inv o : PyStr.truthy o = true -> exists s, o = Some s /\ s <> "".
Proof.
  destruct o as [[|a s]|]; simpl; try discriminate.
  intros _. eexists. split; [reflexivity|discriminate].
Qed.

(** The constructor of the advisor, case by case. *)
Lemma advisor_init_run w :
  Council.AdvisorAgent_init w =
    (let choice := PyStr.lower (default "groq" (w_env w !! "ADVISOR_PROVIDER")) in
     if String.eqb choice "openrouter" then
       if negb (PyStr.truthy (w_env w !! "OPENROUTER_API_KEY")) then
         inl (PyExc ValueError "OPENROUTER_API_KEY not found in environment variables")
       else
         inr {| Council.provider := choice;
                Council.backend :=
                  Council.OpenRouterBackend
                    (default "" (w_env w !! "OPENROUTER_API_KEY"))
                    (default "anthropic/claude-3.5-sonnet" (w_env w !! "OPENROUTER_MODEL"))
                    "https://openrouter.ai/api/v1/chat/completions" |}
     else
       if negb (PyStr.truthy (w_env w !! "GROQ_API_KEY")) then
         inl (PyExc ValueError "GROQ_API_KEY not found in environment variables")
       else
         inr {| Council.provider := choice;
                Council.backend :=
                  Council.GroqBackend (default "" (w_env w !! "GROQ_API_KEY"))
                    "llama3-70b-8192" |},
     w).
Proof.
  unfold Council.AdvisorAgent_init, bind, Council.getenv_default, Council.getenv, ret, raise.
  cbv beta zeta.
  destruct (String.eqb _ "openrouter").
  - destruct (negb (PyStr.truthy (w_env w !! "OPENROUTER_API_KEY"))); reflexivity.
  - destruct (negb (PyStr.truthy (w_env w !! "GROQ_API_KEY"))); reflexivity.
Qed.

(** What an agent's [generate_advice] returns, from its provider's
    answer. *)
Lemma advisor_outcome_eq (P : providers) agent req w :
  advisor_outcome P agent req w =
    advice_of
      (if String.eqb (Council.provider agent) "openrouter" then
         match Council.backend agent with
         | Council.OpenRouterBackend key model _ =>
             openrouter_api P (trace_at_advisor req w) key model req
         | Council.GroqBackend _ _ => inl (Council.missing_attribute "api_key")
         end
       else
         match Council.backend agent with
         | Council.GroqBackend key model =>
             groq_api P (trace_at_advisor req w) key model req
         | Council.OpenRouterBackend _ _ _ => inl (Council.missing_attribute "model")
         end).
Proof.
  destruct req as [g dn c r]. unfold advisor_outcome, Council.generate_advice. simpl.
  rewrite traced_run.
  2:{ unfold Council.query_openrouter, Council.query_groq. readonly_tac. }
  simpl fst.
  unfold try_except, bind, Council.query_openrouter, Council.query_groq,
    get_world, lift, ret, raise, trace_at_advisor.
  cbv beta.
  destruct (String.eqb (Council.provider agent) "openrouter");
    destruct (Council.backend agent) as [key model url|key model]; simpl;
    try reflexivity.
  - destruct (openrouter_api P _ key model _); reflexivity.
  - destruct (groq_api P _ key model _); reflexivity.
Qed.

(** C8, as amended. [AdvisorAgent.__init__] reads [ADVISOR_PROVIDER]
    ("groq" when unset) and lower-cases it: the value "openrouter" selects
    OpenRouter, every other value selects Groq. The credential of the
    selected provider comes from the environment and has no default: the
    constructor raises [ValueError] when it is unset or empty. The model
    name of OpenRouter is [OPENROUTER_MODEL], with the default
    "anthropic/claude-3.5-sonnet"; the model name of Groq is always
    "llama3-70b-8192". The choice is made once, by the constructor: every
    later [generate_advice] of the agent calls the provider chosen then,
    with the key and the model name read then, whatever the environment
    has become. *)
Theorem advisor_provider_selection (P : providers) (w : world) :
  let env := w_env w in
  let choice := PyStr.lower (default "groq" (env !! "ADVISOR_PROVIDER")) in
  snd (Council.AdvisorAgent_init w) = w /\
  (choice = "openrouter" ->
   match fst (Council.AdvisorAgent_init w) with
   | inr agent =>
       exists key,
         env !! "OPENROUTER_API_KEY" = Some key /\ key <> "" /\
         agent = {| Council.provider := "openrouter";
                    Council.backend :=
                      Council.OpenRouterBackend key
                        (default "anthropic/claude-3.5-sonnet" (env !! "OPENROUTER_MODEL"))
                        "https://openrouter.ai/api/v1/chat/completions" |} /\
         forall req w',
           advisor_outcome P agent req w'
           = advice_of (openrouter_api P (trace_at_advisor req w') key
                          (default "anthropic/claude-3.5-sonnet" (env !! "OPENROUTER_MODEL"))
                          req)
   | inl e =>
       PyStr.truthy (env !! "OPENROUTER_API_KEY") = false /\
       e = PyExc ValueError "OPENROUTER_API_KEY not found in environment variables"
   end) /\
  (choice <> "openrouter" ->
   match fst (Council.AdvisorAgent_init w) with
   | inr agent =>
       exists key,
         env !! "GROQ_API_KEY" = Some key /\ key <> "" /\
         agent = {| Council.provider := choice;
                    Council.backend := Council.GroqBackend key "llama3-70b-8192" |} /\
         forall req w',
           advisor_outcome P agent req w'
           = advice_of (groq_api P (trace_at_advisor req w') key "llama3-70b-8192" req)
   | inl e =>
       PyStr.truthy (env !! "GROQ_API_KEY") = false /\
       e = PyExc ValueError "GROQ_API_KEY not found in environment variables"
   end).
Proof.
  cbv zeta. rewrite advisor_init_run. cbv zeta. simpl fst; simpl snd.
  split; [reflexivity|]. split.
  - intros Hchoice. rewrite Hchoice. simpl String.eqb. cbv iota.
    destruct (PyStr.truthy (w_env w !! "OPENROUTER_API_KEY")) eqn:Hkey; simpl negb; cbv iota.
    + destruct (truthy_inv _ Hkey) as [key [Hk Hne]]. rewrite Hk. simpl default at 1.
      exists key. split; [reflexivity|]. split; [assumption|]. split; [reflexivity|].
      intros req w'. rewrite advisor_outcome_eq. reflexivity.
    + split; reflexivity.
  - intros Hchoice.
    destruct (String.eqb (PyStr.lower (default "groq" (w_env w !! "ADVISOR_PROVIDER")))
                "openrouter") eqn:Heq;
      [apply String.eqb_eq in Heq; contradiction|].
    destruct (PyStr.truthy (w_env w !! "GROQ_API_KEY")) eqn:Hkey; simpl negb; cbv iota.
    + destruct (truthy_inv _ Hkey) as [key [Hk Hne]]. rewrite Hk. simpl default at 1.
      exists key. split; [reflexivity|]. split; [assumption|]. split; [reflexivity|].
      intros req w'. rewrite advisor_outcome_eq. simpl Council.provider. rewrite Heq.
      reflexivity.
    + split; reflexivity.
Qed.

(** [ADVISOR_PROVIDER=OpenRouter] selects OpenRouter with the model
    the environment names; [ADVISOR_PROVIDER=mistral] selects Groq. *)
Lemma advisor_provider_selection_witness :
  (exists agent,
     fst (Council.AdvisorAgent_init (Scenario.world_of_env Scenario.env_capitals))
     = inr agent /\
     forall req w',
       advisor_outcome Scenario.P_ok agent req w'
       = advice_of (openrouter_api Scenario.P_ok (trace_at_advisor req w') "or-key"
                      "meta-llama/llama-3-70b-instruct" req)) /\
  (exists agent,
     fst (Council.AdvisorAgent_init (Scenario.world_of_env Scenario.env_mistral))
     = inr agent /\
     forall req w',
       advisor_outcome Scenario.P_ok agent req w'
       = advice_of (groq_api Scenario.P_ok (trace_at_advisor req w') "q-key"
                      "llama3-70b-8192" req)).
Proof.
  split.
  - destruct (advisor_provider_selection Scenario.P_ok
                (Scenario.world_of_env Scenario.env_capitals)) as [_ [H _]].
    specialize (H eq_refl).
    destruct (fst (Council.AdvisorAgent_init (Scenario.world_of_env Scenario.env_capitals)))
      as [e|agent] eqn:Hinit.
    + destruct H as [H _]. vm_compute in H. discriminate.
    + destruct H as [key [Hkey [_ [_ Hadv]]]].
      vm_compute in Hkey. injection Hkey as <-.
      exists agent. split; [reflexivity|]. exact Hadv.
  - destruct (advisor_provider_selection Scenario.P_ok
                (Scenario.world_of_env Scenario.env_mistral)) as [_ [_ H]].
    assert (Hne : PyStr.lower
                    (default "groq"
                       (w_env (Scenario.world_of_env Scenario.env_mistral)
                          !! "ADVISOR_PROVIDER")) <> "openrouter")
      by (vm_compute; discriminate).
    specialize (H Hne).
    destruct (fst (Council.AdvisorAgent_init (Scenario.world_of_env Scenario.env_mistral)))
      as [e|agent] eqn:Hinit.
    + destruct H as [H _]. vm_compute in H. discriminate.
    + destruct H as [key [Hkey [_ [_ Hadv]]]].
      vm_compute in Hkey. injection Hkey as <-.
      exists agent. split; [reflexivity|]. exact Hadv.
Defined.

(** C8, as stated, fails. With OpenRouter selected and no
    [OPENROUTER_MODEL] in the environment the agent is built with the
    model name "anthropic/claude-3.5-sonnet"; with Groq the model name is
    "llama3-70b-8192" whatever the environment says; a provider name that
    is neither "groq" nor "openrouter" selects Groq; and "OpenRouter" in
    capitals selects OpenRouter. *)
Lemma advisor_model_names_have_defaults :
  Scenario.env_openrouter !! "OPENROUTER_MODEL" = None /\
  fst (Council.AdvisorAgent_init (Scenario.world_of_env Scenario.env_openrouter))
  = inr {| Council.provider := "openrouter";
           Council.backend :=
             Council.OpenRouterBackend "or-key" "anthropic/claude-3.5-sonnet"
               "https://openrouter.ai/api/v1/chat/completions" |} /\
  fst (Council.AdvisorAgent_init (Scenario.world_of_env Scenario.env_groq_model))
  = inr {| Council.provider := "groq";
           Council.backend := Council.GroqBackend "q-key" "llama3-70b-8192" |} /\
  fst (Council.AdvisorAgent_init (Scenario.world_of_env Scenario.env_mistral))
  = inr {| Council.provider := "mistral";
           Council.backend := Council.GroqBackend "q-key" "llama3-70b-8192" |} /\
  fst (Council.AdvisorAgent_init (Scenario.world_of_env Scenario.env_capitals))
  = inr {| Council.provider := "openrouter";
           Council.backend :=
             Council.OpenRouterBackend "or-key" "meta-llama/llama-3-70b-instruct"
               "https://openrouter.ai/api/v1/chat/completions" |}.
Proof. repeat split; vm_compute; reflexivity. Qed.

(** ** The analyze endpoint *)

Lemma env_only_ret {A} (a : A) : env_only (ret a).
Proof. now intros w1 w2 _. Qed.

Lemma env_only_raise {A} (e : exn) : env_only (@raise A e).
Proof. now intros w1 w2 _. Qed.

Lemma env_only_getenv name : env_only (Council.getenv name).
Proof. intros w1 w2 H. unfold Council.getenv. simpl. now rewrite H. Qed.

Lemma env_only_getenv_default name dflt : env_only (Council.getenv_default name dflt).
Proof. intros w1 w2 H. unfold Council.getenv_default. simpl. now rewrite H. Qed.

Lemma env_only_bind {A B} (m : M A) (k : A -> M B) :
  readonly m -> env_only m -> (forall a, env_only (k a)) -> env_only (bind m k).
Proof.
  intros Hr Hm Hk w1 w2 Henv. unfold bind.
  pose proof (Hr w1) as H1. pose proof (Hr w2) as H2. pose proof (Hm w1 w2 Henv) as Hf.
  destruct (m w1) as [[e1|a1] w1']; destruct (m w2) as [[e2|a2] w2'];
    simpl in *; subst; try discriminate.
  - now injection Hf as <-.
  - injection Hf as <-. now apply Hk.
Qed.

Ltac env_only_tac :=
  repeat first
    [ apply env_only_ret | apply env_only_raise
    | apply env_only_getenv | apply env_only_getenv_default
    | apply env_only_bind;
        [ first [ apply readonly_getenv | apply readonly_getenv_default ] | | intros ? ]
    | match goal with
      | |- env_only (if ?b then _ else _) => destruct b
      end ].

Lemma vision_init_readonly : readonly Council.VisionAgent_init.
Proof.
  unfold Council.VisionAgent_init.
  repeat first [ apply readonly_getenv | progress readonly_tac ].
Qed.

Lemma nutrition_init_readonly : readonly Council.NutritionCalculator_init.
Proof.
  unfold Council.NutritionCalculator_init.
  repeat first [ apply readonly_getenv | progress readonly_tac ].
Qed.

Lemma get_ai_council_env_only : env_only Council.get_ai_council.
Proof.
  unfold Council.get_ai_council, Council.AICouncil_init.
  apply env_only_bind; [apply vision_init_readonly| |intros v].
  { unfold Council.VisionAgent_init. env_only_tac. }
  apply env_only_bind; [apply nutrition_init_readonly| |intros n].
  { unfold Council.NutritionCalculator_init. env_only_tac. }
  apply env_only_bind; [intros w; now rewrite advisor_init_run| |intros a; apply env_only_ret].
  intros w1 w2 H. rewrite !advisor_init_run. simpl. now rewrite H.
Qed.

Lemma vision_run (P : providers) self image_bytes w :
  Council.VisionAgent_analyze_image P self image_bytes w
  = (vision_outcome P self image_bytes w,
     after_vision image_bytes (vision_outcome P self image_bytes w) w).
Proof.
  unfold Council.VisionAgent_analyze_image, vision_outcome, after_vision.
  rewrite traced_run by readonly_tac.
  simpl fst. unfold try_except, bind, get_world, lift, ret, raise. simpl.
  destruct (vision_api P _ _ image_bytes); reflexivity.
Qed.

(** [POST /analyze], case by case. *)
Lemma analyze_image_run (P : providers) image w :
  Main.analyze_image P image w =
    let fail e w' := (@inl exn Main.AnalyzeImageResponse (at_boundary "Image analysis" e), w') in
    match Main.content_type image with
    | None => fail (PyExc AttributeError "'NoneType' object has no attribute 'startswith'") w
    | Some ct =>
        if negb (PyStr.startswith ct "image/") then
          fail (HTTPException 400
                  "Invalid file type. Only images (JPEG/PNG) are supported.") w
        else if 10 * 1024 * 1024 <? Z.of_nat (length (Main.file_bytes image)) then
          fail (HTTPException 400 "Image too large (max 10MB).") w
        else
          match fst (Council.get_ai_council w) with
          | inl e => fail e w
          | inr council =>
              let r := vision_outcome P (Council.vision_agent council)
                         (Main.file_bytes image) w in
              match r with
              | inl e => fail e (after_vision (Main.file_bytes image) r w)
              | inr s =>
                  (inr {| Main.detected_text := s |},
                   after_vision (Main.file_bytes image) r w)
              end
          end
    end.
Proof.
  cbv zeta. unfold Main.analyze_image, try_except.
  unfold bind at 1.
  destruct (Main.content_type image) as [ct|];
    [|unfold raise at 1; apply endpoint_handler_run].
  unfold ret at 1.
  destruct (negb (PyStr.startswith ct "image/"));
    [unfold raise at 1; apply endpoint_handler_run|].
  destruct (10 * 1024 * 1024 <? Z.of_nat (length (Main.file_bytes image)));
    [unfold raise at 1; apply endpoint_handler_run|].
  unfold bind at 1.
  pose proof (get_ai_council_readonly w) as Hc.
  destruct (Council.get_ai_council w) as [[e|council] wc]; simpl in Hc; subst wc;
    [apply endpoint_handler_run|].
  simpl fst. unfold bind at 1. unfold Council.analyze_image. rewrite vision_run.
  destruct (vision_outcome P _ _ w) as [e|s]; [apply endpoint_handler_run|].
  reflexivity.
Qed.

(** C9. The analyze operation never touches the store: after
    [POST /analyze], and after the orchestrator's [analyze_image], the
    database and the environment are what they were. And against a
    vision provider whose answer is a function of the key and the image,
    the output is a function of the image and the environment: a second
    call with the same upload, made in the world the first one left,
    gives the same result. *)
Theorem analyze_image_has_no_persistence_effect
    (P : providers) (image : Main.UploadFile) (w : world) :
  let run := Main.analyze_image P image w in
  (w_db (snd run) = w_db w /\ w_env (snd run) = w_env w) /\
  (forall self image_bytes,
     w_db (snd (Council.analyze_image P self image_bytes w)) = w_db w /\
     w_env (snd (Council.analyze_image P self image_bytes w)) = w_env w) /\
  (deterministic_vision P ->
   (forall w', w_env w' = w_env w ->
               fst (Main.analyze_image P image w') = fst run) /\
   fst (Main.analyze_image P image (snd run)) = fst run).
Proof.
  cbv zeta.
  assert (Hstore : forall w0, w_db (snd (Main.analyze_image P image w0)) = w_db w0 /\
                              w_env (snd (Main.analyze_image P image w0)) = w_env w0).
  { intros w0. rewrite analyze_image_run. cbv zeta.
    destruct (Main.content_type image) as [ct|]; [|now split].
    destruct (negb _); [now split|].
    destruct (_ <? _); [now split|].
    destruct (fst (Council.get_ai_council w0)) as [e|council]; [now split|].
    destruct (vision_outcome P _ _ w0); now split. }
  split; [apply Hstore|].
  split.
  { intros self image_bytes. unfold Council.analyze_image. rewrite vision_run. now split. }
  intros Hdet.
  assert (Hsame : forall w', w_env w' = w_env w ->
            fst (Main.analyze_image P image w') = fst (Main.analyze_image P image w)).
  { intros w' Henv. rewrite !analyze_image_run. cbv zeta.
    destruct (Main.content_type image) as [ct|]; [|reflexivity].
    destruct (negb _); [reflexivity|].
    destruct (_ <? _); [reflexivity|].
    rewrite (get_ai_council_env_only w' w Henv).
    destruct (fst (Council.get_ai_council w)) as [e|council]; [reflexivity|].
    unfold vision_outcome.
    rewrite (Hdet (w_trace w' ++ [VisionBegin (Main.file_bytes image)])
               (w_trace w ++ [VisionBegin (Main.file_bytes image)])).
    destruct (description_of _); reflexivity. }
  split; [exact Hsame|].
  apply Hsame. apply Hstore.
Qed.

(** A photo analysed twice against a provider that always reads the
    same dish: the same description both times, and the store is as it
    was. *)
Lemma analyze_image_has_no_persistence_effect_witness :
  fst (Main.analyze_image Scenario.P_ok Scenario.photo Scenario.w0)
  = inr {| Main.detected_text := "Bowl of Lablabi with tuna and egg, approx 400g" |} /\
  fst (Main.analyze_image Scenario.P_ok Scenario.photo
         (snd (Main.analyze_image Scenario.P_ok Scenario.photo Scenario.w0)))
  = fst (Main.analyze_image Scenario.P_ok Scenario.photo Scenario.w0) /\
  w_db (snd (Main.analyze_image Scenario.P_ok Scenario.photo Scenario.w0))
  = w_db Scenario.w0.
Proof.
  destruct (analyze_image_has_no_persistence_effect Scenario.P_ok Scenario.photo Scenario.w0)
    as [[Hdb _] [_ Hdet]].
  destruct Hdet as [_ Hagain].
  { intros tr tr' key image_bytes. reflexivity. }
  split; [vm_compute; reflexivity|]. split; assumption.
Defined.

(** ** Missing goal fields *)

Lemma process_meal_set_db (P : providers) self text profile total d w :
  Council.process_meal P self text profile total (set_db d w)
  = (fst (Council.process_meal P self text profile total w),
     set_db d (snd (Council.process_meal P self text profile total w))).
Proof.
  rewrite !process_meal_run. cbv zeta.
  assert (Hn : nutrition_outcome P (Council.nutrition_calculator self) text (set_db d w)
               = nutrition_outcome P (Council.nutrition_calculator self) text w)
    by (now rewrite !nutrition_outcome_eq).
  rewrite Hn.
  destruct (nutrition_outcome P _ text w) as [e|n]; [reflexivity|].
  destruct (PyNum.add total (calories n)) as [e|new_total]; [reflexivity|].
  destruct (PyNum.sub _ new_total) as [e|rest]; [reflexivity|].
  cbv zeta.
  set (req := {| a_health_goal := _ |}).
  assert (Ha : advisor_outcome P (Council.advisor_agent self) req
                 (after_nutrition text (inr n) (set_db d w))
               = advisor_outcome P (Council.advisor_agent self) req
                   (after_nutrition text (inr n) w))
    by (now rewrite !advisor_outcome_eq).
  rewrite Ha. reflexivity.
Qed.

Lemma sub_from_default_goal x : exists rest, PyNum.sub (PyInt 2500) x = inr rest.
Proof.
  destruct x as [z|f]; unfold PyNum.sub, PyNum.lift2; [eauto|].
  assert (H : exists g, PyNum.float_of_int 2500 = inr g) by (vm_compute; eauto).
  destruct H as [g ->]. eauto.
Qed.

(** The events of a request that got as far as [process_meal] are the
    events of [process_meal]. *)
Lemma log_meal_events (P : providers) request w d oid user total council :
  w_db w = Some d ->
  ObjectId P (Main.user_id request) = Some oid ->
  users d !! oid = Some user ->
  Main.add_calories (PyFloat 0)
    (meals_since oid (Main.midnight (utcnow P (w_trace w))) d) = inr total ->
  fst (Council.get_ai_council w) = inr council ->
  new_events w (snd (Main.log_meal P request w))
  = new_events w (snd (Council.process_meal P council (Main.verified_text request)
                         (profile_of user) total w)).
Proof.
  intros Hdb Hoid Huser Htot Hc. rewrite log_meal_run. cbv zeta.
  rewrite Hdb, Hoid, Huser, Htot, Hc.
  destruct (fst (Council.process_meal P council _ _ total w)) as [e|res]; [reflexivity|].
  destruct (insert_error P (meal_logs d) _) as [e|]; [reflexivity|].
  destruct (Main.NutritionData (r_nutrition res)); reflexivity.
Qed.

(** C10. A [user_profile] without [daily_calorie_goal] is treated by
    [process_meal] exactly as one that gives 2500, and one without
    [health_goal] exactly as one that gives "maintain"; with both missing
    the Advisor Step is entered, with "maintain" and with
    [2500 - (current_daily_total + calories)], as soon as the Nutrition
    Step succeeds and the new total can be computed, so no failure is due
    to the missing fields. [log_meal] applies the same defaults to the
    stored user document: for a request that reaches the pipeline and
    whose Nutrition Step succeeds, the Advisor Step is entered with the
    stored health goal, or "maintain" when the document has none, and
    with the stored calorie goal, or 2500 when the document has none,
    minus the new total; the subtraction from 2500 never raises. Hence
    [log_meal] treats a stored user without these fields exactly as the
    same user with "maintain" and 2500 written out: same answer, same
    meal records, same trace. *)
Theorem missing_goal_fields_take_defaults
    (P : providers) (self : Council.AICouncil) (text : string) (total : pynum) (w : world) :
  (forall goal,
     Council.process_meal P self text
       {| up_health_goal := None; up_daily_calorie_goal := goal |} total w
     = Council.process_meal P self text
         {| up_health_goal := Some "maintain"; up_daily_calorie_goal := goal |} total w) /\
  (forall health,
     Council.process_meal P self text
       {| up_health_goal := health; up_daily_calorie_goal := None |} total w
     = Council.process_meal P self text
         {| up_health_goal := health; up_daily_calorie_goal := Some (PyInt 2500) |} total w) /\
  (forall n new_total,
     nutrition_outcome P (Council.nutrition_calculator self) text w = inr n ->
     PyNum.add total (calories n) = inr new_total ->
     exists rest req,
       PyNum.sub (PyInt 2500) new_total = inr rest /\
       req = {| a_health_goal := "maintain"; a_dish_name := text;
                a_total_calories := calories n; a_remaining_calories := rest |} /\
       new_events w
         (snd (Council.process_meal P self text
                 {| up_health_goal := None; up_daily_calorie_goal := None |} total w))
       = [NutritionBegin text; NutritionEnd (inr n); AdvisorBegin req;
          AdvisorEnd (advisor_outcome P (Council.advisor_agent self) req
                        (after_nutrition text (inr n) w))] /\
       fst (Council.process_meal P self text
              {| up_health_goal := None; up_daily_calorie_goal := None |} total w)
       = match advisor_outcome P (Council.advisor_agent self) req
                 (after_nutrition text (inr n) w) with
         | inl e => inl e
         | inr advice => inr {| r_nutrition := n; r_ai_advice := advice |}
         end) /\
  (forall request d oid user today council n new_total rest,
     w_db w = Some d ->
     ObjectId P (Main.user_id request) = Some oid ->
     users d !! oid = Some user ->
     Main.add_calories (PyFloat 0)
       (meals_since oid (Main.midnight (utcnow P (w_trace w))) d) = inr today ->
     fst (Council.get_ai_council w) = inr council ->
     nutrition_outcome P (Council.nutrition_calculator council)
       (Main.verified_text request) w = inr n ->
     PyNum.add today (calories n) = inr new_total ->
     PyNum.sub (PyInt match u_daily_calorie_goal user with
                      | Some goal => goal
                      | None => 2500
                      end) new_total = inr rest ->
     let req := {| a_health_goal := match u_health_goal user with
                                     | Some goal => goal
                                     | None => "maintain"
                                     end;
                   a_dish_name := Main.verified_text request;
                   a_total_calories := calories n;
                   a_remaining_calories := rest |} in
     new_events w (snd (Main.log_meal P request w))
     = [NutritionBegin (Main.verified_text request); NutritionEnd (inr n);
        AdvisorBegin req;
        AdvisorEnd (advisor_outcome P (Council.advisor_agent council) req
                      (after_nutrition (Main.verified_text request) (inr n) w))]) /\
  (forall new_total, exists rest, PyNum.sub (PyInt 2500) new_total = inr rest) /\
  (forall request d oid user,
     w_db w = Some d ->
     ObjectId P (Main.user_id request) = Some oid ->
     users d !! oid = Some user ->
     let w' := set_db (put_user oid (with_defaults user) d) w in
     fst (Main.log_meal P request w) = fst (Main.log_meal P request w') /\
     logs_of (snd (Main.log_meal P request w)) = logs_of (snd (Main.log_meal P request w')) /\
     w_trace (snd (Main.log_meal P request w)) = w_trace (snd (Main.log_meal P request w'))).
Proof.
  split; [reflexivity|]. split; [reflexivity|]. split; [|split; [|split]].
  - intros n new_total Hn Hadd.
    destruct (sub_from_default_goal new_total) as [rest Hsub].
    exists rest. eexists. split; [exact Hsub|]. split; [reflexivity|].
    rewrite process_meal_run. cbv zeta. rewrite Hn, Hadd. simpl default. rewrite Hsub.
    cbv zeta. simpl fst; simpl snd. split; [|reflexivity].
    apply new_events_app. simpl. now rewrite <- !app_assoc.
  - intros request d oid user today council n new_total rest
      Hdb Hoid Huser Htoday Hc Hn Hadd Hsub. cbv zeta.
    rewrite (log_meal_events P request w d oid user today council Hdb Hoid Huser Htoday Hc).
    rewrite process_meal_run. cbv zeta. rewrite Hn, Hadd.
    unfold profile_of. simpl up_daily_calorie_goal. simpl up_health_goal.
    simpl default at 1.
    assert (Hg : default 2500 (u_daily_calorie_goal user)
                 = match u_daily_calorie_goal user with
                   | Some goal => goal
                   | None => 2500
                   end) by now destruct (u_daily_calorie_goal user).
    rewrite Hg, Hsub. cbv zeta. simpl snd.
    apply new_events_app. simpl. rewrite <- !app_assoc.
    now destruct (u_health_goal user).
  - exact sub_from_default_goal.
  - intros request d oid user Hdb Hoid Huser. cbv zeta.
    rewrite !log_meal_run. cbv zeta.
    rewrite Hdb, Hoid, Huser. simpl w_db.
    unfold put_user at 1. simpl users. rewrite lookup_insert_eq.
    change (meals_since oid (Main.midnight (utcnow P (w_trace (set_db _ w))))
              (put_user oid (with_defaults user) d))
      with (meals_since oid (Main.midnight (utcnow P (w_trace w))) d).
    destruct (Main.add_calories _ _) as [e|total0];
      [repeat split; unfold logs_of; simpl; rewrite ?Hdb; reflexivity|].
    rewrite (get_ai_council_env_only (set_db (put_user oid (with_defaults user) d) w) w eq_refl).
    destruct (fst (Council.get_ai_council w)) as [e|council];
      [repeat split; unfold logs_of; simpl; rewrite ?Hdb; reflexivity|].
    change (profile_of (with_defaults user)) with (profile_of user).
    rewrite process_meal_set_db. simpl fst; simpl snd.
    destruct (process_meal_keeps_store P council (Main.verified_text request)
                (profile_of user) total0 w) as [Hk _].
    destruct (fst (Council.process_meal P council _ _ total0 w)) as [e|res].
    + simpl. unfold logs_of. simpl. rewrite Hk, Hdb. repeat split; reflexivity.
    + change (meal_logs (put_user oid (with_defaults user) d)) with (meal_logs d).
      change (w_trace (set_db (put_user oid (with_defaults user) d)
                         (snd (Council.process_meal P council (Main.verified_text request)
                                 (profile_of user) total0 w))))
        with (w_trace (snd (Council.process_meal P council (Main.verified_text request)
                              (profile_of user) total0 w))).
      destruct (insert_error P (meal_logs d) _) as [e|].
      * simpl. unfold logs_of. simpl. rewrite Hk, Hdb. repeat split; reflexivity.
      * destruct (Main.NutritionData (r_nutrition res));
          (repeat split; unfold logs_of; simpl; rewrite ?Hdb; reflexivity).
Qed.

(** A profile without goals: with 800 kcal eaten and a meal of 350 kcal
    the Advisor Step is given the goal [maintain] and 1350 kcal
    remaining. A stored user without goals who logs this meal as the
    first of the day: the Advisor Step is given [maintain] and
    [2500 - (0.0 + 350.0) = 2150.0], and [log_meal] answers as it answers
    the same user with the defaults filled in. *)
Lemma missing_goal_fields_take_defaults_witness :
  (exists advice,
     fst (Council.process_meal Scenario.P_ok Scenario.council
            "grilled fish with salad, 300g" Scenario.no_profile (PyFloat 800.0)
            Scenario.bare_world)
     = inr {| r_nutrition := {| calories := PyFloat 350.0; protein := PyFloat 40.0;
                                carbs := PyFloat 10.0; fats := PyFloat 12.0 |};
              r_ai_advice := advice |} /\
     In (AdvisorBegin {| a_health_goal := "maintain";
                         a_dish_name := "grilled fish with salad, 300g";
                         a_total_calories := PyFloat 350.0;
                         a_remaining_calories := PyFloat 1350.0 |})
        (new_events Scenario.bare_world
           (snd (Council.process_meal Scenario.P_ok Scenario.council
                   "grilled fish with salad, 300g" Scenario.no_profile (PyFloat 800.0)
                   Scenario.bare_world)))) /\
  new_events Scenario.bare_world
    (snd (Main.log_meal Scenario.P_ok Scenario.request0 Scenario.bare_world))
  = [NutritionBegin "grilled fish with salad, 300g";
     NutritionEnd (inr {| calories := PyFloat 350.0; protein := PyFloat 40.0;
                          carbs := PyFloat 10.0; fats := PyFloat 12.0 |});
     AdvisorBegin {| a_health_goal := "maintain";
                     a_dish_name := "grilled fish with salad, 300g";
                     a_total_calories := PyFloat 350.0;
                     a_remaining_calories := PyFloat 2150.0 |};
     AdvisorEnd (inr "Eat light tonight.")] /\
  (exists resp,
     fst (Main.log_meal Scenario.P_ok Scenario.request0 Scenario.bare_world) = inr resp /\
     fst (Main.log_meal Scenario.P_ok Scenario.request0
            (set_db (put_user Scenario.uid (with_defaults Scenario.bare_user)
                       {| users := {[ Scenario.uid := Scenario.bare_user ]};
                          meal_logs := [] |})
                    Scenario.bare_world))
     = inr resp).
Proof.
  destruct (missing_goal_fields_take_defaults Scenario.P_ok Scenario.council
              "grilled fish with salad, 300g" (PyFloat 800.0) Scenario.bare_world)
    as [_ [_ [Hadv [Hpin [_ Hlog]]]]].
  split; [|split].
  - destruct (Hadv {| calories := PyFloat 350.0; protein := PyFloat 40.0;
                      carbs := PyFloat 10.0; fats := PyFloat 12.0 |} (PyFloat 1150.0))
      as [rest [req [Hsub [Hreq [Hevs Hres]]]]].
    + vm_compute. reflexivity.
    + vm_compute. reflexivity.
    + assert (Hrest : rest = PyFloat 1350.0).
      { assert (H : PyNum.sub (PyInt 2500) (PyFloat 1150.0) = inr (PyFloat 1350.0))
          by (vm_compute; reflexivity).
        rewrite H in Hsub. now injection Hsub. }
      subst rest. subst req.
      exists "Eat light tonight.". split.
      * vm_compute. reflexivity.
      * unfold Scenario.no_profile. rewrite Hevs. simpl. tauto.
  - rewrite (Hpin Scenario.request0
               {| users := {[ Scenario.uid := Scenario.bare_user ]}; meal_logs := [] |}
               Scenario.uid Scenario.bare_user (PyFloat 0) Scenario.council
               {| calories := PyFloat 350.0; protein := PyFloat 40.0;
                  carbs := PyFloat 10.0; fats := PyFloat 12.0 |}
               (PyFloat 350.0) (PyFloat 2150.0));
      try (vm_compute; reflexivity).
  - destruct (Hlog Scenario.request0
                {| users := {[ Scenario.uid := Scenario.bare_user ]}; meal_logs := [] |}
                Scenario.uid Scenario.bare_user eq_refl eq_refl eq_refl)
      as [Hsame _].
    destruct (fst (Main.log_meal Scenario.P_ok Scenario.request0 Scenario.bare_world))
      as [e|resp] eqn:Hrun.
    + vm_compute in Hrun. discriminate.
    + exists resp. split; [reflexivity|]. symmetry. exact Hsame.
Defined.

(** * Further properties of the code *)

(** ** Credentials *)

Lemma advisor_init_first_missing w :
  fst (Council.AdvisorAgent_init w)
  = (if negb (PyStr.truthy (w_env w !! advisor_key (w_env w)))
     then inl (not_found (advisor_key (w_env w)))
     else fst (Council.AdvisorAgent_init w)).
Proof.
  rewrite advisor_init_run. cbv zeta. unfold advisor_key.
  destruct (String.eqb _ "openrouter").
  - destruct (negb (PyStr.truthy (w_env w !! "OPENROUTER_API_KEY"))); reflexivity.
  - destruct (negb (PyStr.truthy (w_env w !! "GROQ_API_KEY"))); reflexivity.
Qed.

Lemma advisor_init_inr w :
  PyStr.truthy (w_env w !! advisor_key (w_env w)) = true ->
  exists agent, fst (Council.AdvisorAgent_init w) = inr agent.
Proof.
  rewrite advisor_init_run. cbv zeta. unfold advisor_key.
  destruct (String.eqb _ "openrouter"); intros ->; simpl; eauto.
Qed.

(** [AICouncil()], case by case. *)
Lemma get_ai_council_run w :
  Council.get_ai_council w =
    (if negb (PyStr.truthy (w_env w !! "GOOGLE_API_KEY")) then
       inl (not_found "GOOGLE_API_KEY")
     else if negb (PyStr.truthy (w_env w !! "CALORIENINJAS_API_KEY")) then
       inl (not_found "CALORIENINJAS_API_KEY")
     else
       match fst (Council.AdvisorAgent_init w) with
       | inl e => inl e
       | inr a =>
           inr {| Council.vision_agent :=
                    {| Council.v_google_api_key := default "" (w_env w !! "GOOGLE_API_KEY");
                       Council.v_model := "gemini-1.5-flash" |};
                  Council.nutrition_calculator :=
                    {| Council.n_api_key := default "" (w_env w !! "CALORIENINJAS_API_KEY");
                       Council.n_base_url := "https://api.calorieninjas.com/v1/nutrition" |};
                  Council.advisor_agent := a |}
       end,
     w).
Proof.
  unfold Council.get_ai_council, Council.AICouncil_init, Council.VisionAgent_init,
    Council.NutritionCalculator_init, bind, Council.getenv, ret, raise.
  cbv beta zeta.
  destruct (negb (PyStr.truthy (w_env w !! "GOOGLE_API_KEY"))); [reflexivity|].
  destruct (negb (PyStr.truthy (w_env w !! "CALORIENINJAS_API_KEY"))); [reflexivity|].
  pose proof (advisor_init_readonly w) as Hro.
  destruct (Council.AdvisorAgent_init w) as [[e|a] w'] eqn:Ha; simpl in Hro; subst w';
    reflexivity.
Qed.

(** [AICouncil()] fails with the first missing credential. *)
Lemma get_ai_council_first_missing w :
  fst (Council.get_ai_council w)
  = match first_missing (w_env w) with
    | Some k => inl (not_found k)
    | None => fst (Council.get_ai_council w)
    end.
Proof.
  rewrite get_ai_council_run.
  unfold first_missing, required_keys. simpl List.find. simpl fst.
  destruct (PyStr.truthy (w_env w !! "GOOGLE_API_KEY")); simpl; [|reflexivity].
  destruct (PyStr.truthy (w_env w !! "CALORIENINJAS_API_KEY")); simpl; [|reflexivity].
  rewrite advisor_init_first_missing.
  destruct (PyStr.truthy (w_env w !! advisor_key (w_env w))); reflexivity.
Qed.

(** A council that was built holds the keys of the environment. *)
Lemma get_ai_council_keys w council :
  fst (Council.get_ai_council w) = inr council ->
  w_env w !! "GOOGLE_API_KEY"
  = Some (Council.v_google_api_key (Council.vision_agent council)) /\
  w_env w !! "CALORIENINJAS_API_KEY"
  = Some (Council.n_api_key (Council.nutrition_calculator council)).
Proof.
  rewrite get_ai_council_run. simpl fst.
  destruct (PyStr.truthy (w_env w !! "GOOGLE_API_KEY")) eqn:Hg; simpl; [|discriminate].
  destruct (PyStr.truthy (w_env w !! "CALORIENINJAS_API_KEY")) eqn:Hc; simpl; [|discriminate].
  destruct (fst (Council.AdvisorAgent_init w)) as [e|a]; [discriminate|].
  intros H. injection H as <-. simpl.
  destruct (truthy_inv _ Hg) as [g [-> _]]. destruct (truthy_inv _ Hc) as [c [-> _]].
  split; reflexivity.
Qed.

Lemma first_missing_none env :
  first_missing env = None ->
  Forall (fun k => PyStr.truthy (env !! k) = true) (required_keys env).
Proof.
  unfold first_missing, required_keys. simpl List.find.
  destruct (PyStr.truthy (env !! "GOOGLE_API_KEY")) eqn:Hg; simpl; [|discriminate].
  destruct (PyStr.truthy (env !! "CALORIENINJAS_API_KEY")) eqn:Hc; simpl; [|discriminate].
  destruct (PyStr.truthy (env !! advisor_key env)) eqn:Ha; simpl; [|discriminate].
  intros _. repeat constructor; assumption.
Qed.

Lemma get_ai_council_inr w :
  first_missing (w_env w) = None ->
  exists council, fst (Council.get_ai_council w) = inr council.
Proof.
  intros Hnone. apply first_missing_none in Hnone.
  inversion Hnone as [|? ? Hg Hrest]; subst. inversion Hrest as [|? ? Hc Hrest']; subst.
  inversion Hrest' as [|? ? Ha _]; subst.
  rewrite get_ai_council_run. simpl fst. rewrite Hg, Hc. simpl.
  destruct (advisor_init_inr w Ha) as [agent ->]. eauto.
Qed.

(** X1. [AICouncil()] succeeds exactly when [GOOGLE_API_KEY],
    [CALORIENINJAS_API_KEY] and the credential of the selected advice
    provider are all set and not empty. Otherwise it raises [ValueError]
    naming the first of them, in this order, that is unset or empty. It
    reads the environment and changes nothing; the agents it builds hold
    the keys it read. *)
Theorem council_needs_every_key (w : world) :
  snd (Council.get_ai_council w) = w /\
  match first_missing (w_env w) with
  | Some k =>
      In k (required_keys (w_env w)) /\
      PyStr.truthy (w_env w !! k) = false /\
      fst (Council.get_ai_council w) = inl (not_found k)
  | None =>
      exists council,
        fst (Council.get_ai_council w) = inr council /\
        w_env w !! "GOOGLE_API_KEY"
        = Some (Council.v_google_api_key (Council.vision_agent council)) /\
        w_env w !! "CALORIENINJAS_API_KEY"
        = Some (Council.n_api_key (Council.nutrition_calculator council)) /\
        Forall (fun k => exists v, w_env w !! k = Some v /\ v <> "")
          (required_keys (w_env w))
  end.
Proof.
  split; [apply get_ai_council_readonly|].
  pose proof (get_ai_council_first_missing w) as Hfm.
  destruct (first_missing (w_env w)) as [k|] eqn:Hk.
  - unfold first_missing in Hk. apply List.find_some in Hk. destruct Hk as [Hin Hneg].
    split; [exact Hin|]. split; [|exact Hfm].
    now destruct (PyStr.truthy (w_env w !! k)).
  - destruct (get_ai_council_inr w Hk) as [council Hc].
    exists council. split; [exact Hc|].
    destruct (get_ai_council_keys w council Hc) as [Hg Hn].
    split; [exact Hg|]. split; [exact Hn|].
    apply first_missing_none in Hk.
    induction Hk as [|k ks Hk _ IH]; constructor; [|exact IH].
    destruct (truthy_inv _ Hk) as [v [Hv Hne]]. eauto.
Qed.

(** ** POST /analyze *)

(** X2. [POST /analyze] checks the upload before it does anything else:
    a content type that does not start with "image/" is refused with
    HTTP 400, whatever the size; an image of more than 10 * 1024 * 1024
    bytes is refused with HTTP 400; an upload without content type ends
    in HTTP 500, the [AttributeError] of the first check being caught by
    the last [except] clause. In the three cases the environment is not
    read, no provider is called and the world is what it was. *)
Theorem analyze_image_refuses_before_any_call
    (P : providers) (image : Main.UploadFile) (w : world) :
  (Main.content_type image = None ->
   Main.analyze_image P image w
   = (inl (HTTPException 500
             "Image analysis failed: 'NoneType' object has no attribute 'startswith'"),
      w)) /\
  (forall ct,
     Main.content_type image = Some ct ->
     PyStr.startswith ct "image/" = false ->
     Main.analyze_image P image w
     = (inl (HTTPException 400 "Invalid file type. Only images (JPEG/PNG) are supported."),
        w)) /\
  (forall ct,
     Main.content_type image = Some ct ->
     PyStr.startswith ct "image/" = true ->
     max_image_bytes < Z.of_nat (length (Main.file_bytes image)) ->
     Main.analyze_image P image w = (inl (HTTPException 400 "Image too large (max 10MB)."), w)).
Proof.
  rewrite analyze_image_run. cbv zeta. split; [|split].
  - intros ->. reflexivity.
  - intros ct -> ->. reflexivity.
  - intros ct -> -> Hlen. simpl negb. cbv iota.
    unfold max_image_bytes in Hlen.
    destruct (10 * 1024 * 1024 <? _) eqn:Hlt; [reflexivity|].
    apply Z.ltb_ge in Hlt. lia.
Qed.

(** X3. What [POST /analyze] answers for an upload that passes the two
    checks (an image of exactly 10 * 1024 * 1024 bytes passes). It first
    builds the whole council: when one of the three credentials is
    missing, also one the Vision Step never uses, the answer is HTTP 500
    naming that variable and the vision provider is not called.
    Otherwise the vision provider is called once, with [GOOGLE_API_KEY]
    and the bytes of the upload: its answer, stripped, is the detected
    text; its failure ends in HTTP 500 "Image analysis failed: Vision
    Agent failed: ..." followed by the text of the exception. *)
Theorem analyze_image_outcome
    (P : providers) (image : Main.UploadFile) (w : world) :
  acceptable image ->
  let run := Main.analyze_image P image w in
  let image_bytes := Main.file_bytes image in
  match first_missing (w_env w) with
  | Some k =>
      run = (inl (HTTPException 500
                    ("Image analysis failed: " +:+ k +:+
                     " not found in environment variables")), w)
  | None =>
      exists key,
        w_env w !! "GOOGLE_API_KEY" = Some key /\
        let answer := vision_api P (w_trace w ++ [VisionBegin image_bytes]) key image_bytes in
        fst run
        = match answer with
          | inr content => inr {| Main.detected_text := PyStr.strip content |}
          | inl e =>
              inl (HTTPException 500
                     ("Image analysis failed: Vision Agent failed: " +:+ str_exn e))
          end /\
        new_events w (snd run) = [VisionBegin image_bytes; VisionEnd (description_of answer)]
  end.
Proof.
  intros [[ct [Hct Himg]] Hlen]. cbv zeta.
  rewrite analyze_image_run. cbv zeta. rewrite Hct, Himg. simpl negb. cbv iota.
  unfold max_image_bytes in Hlen.
  destruct (10 * 1024 * 1024 <? _) eqn:Hlt; [apply Z.ltb_lt in Hlt; lia|].
  pose proof (get_ai_council_first_missing w) as Hfm.
  destruct (first_missing (w_env w)) as [k|] eqn:Hk.
  - rewrite Hfm. reflexivity.
  - destruct (get_ai_council_inr w Hk) as [council Hc]. rewrite Hc.
    destruct (get_ai_council_keys w council Hc) as [Hg _].
    exists (Council.v_google_api_key (Council.vision_agent council)).
    split; [exact Hg|]. cbv zeta. unfold vision_outcome.
    destruct (vision_api P _ _ _) as [e|content]; simpl.
    + split; [reflexivity|]. apply new_events_app. simpl. now rewrite <- app_assoc.
    + split; [reflexivity|]. apply new_events_app. simpl. now rewrite <- app_assoc.
Qed.

(** The photo of the scenario is read as the dish the mock provider
    sees; without a key for the nutrition provider the same photo is
    answered with HTTP 500. *)
Lemma analyze_image_outcome_witness :
  fst (Main.analyze_image Scenario.P_ok Scenario.photo Scenario.w0)
  = inr {| Main.detected_text := "Bowl of Lablabi with tuna and egg, approx 400g" |} /\
  Main.analyze_image Scenario.P_ok Scenario.photo
    (Cases.world_of Cases.env_no_nutrition_key [])
  = (inl (HTTPException 500
            "Image analysis failed: CALORIENINJAS_API_KEY not found in environment variables"),
     Cases.world_of Cases.env_no_nutrition_key []).
Proof.
  assert (Hacc : acceptable Scenario.photo).
  { split; [exists "image/jpeg"; split; reflexivity | vm_compute; discriminate]. }
  split.
  - pose proof (analyze_image_outcome Scenario.P_ok Scenario.photo Scenario.w0 Hacc) as H.
    cbv zeta in H.
    replace (first_missing (w_env Scenario.w0)) with (@None string) in H
      by (vm_compute; reflexivity).
    destruct H as [key [_ [H _]]]. exact H.
  - pose proof (analyze_image_outcome Scenario.P_ok Scenario.photo
                  (Cases.world_of Cases.env_no_nutrition_key []) Hacc) as H.
    cbv zeta in H.
    replace (first_missing (w_env (Cases.world_of Cases.env_no_nutrition_key [])))
      with (Some "CALORIENINJAS_API_KEY") in H by (vm_compute; reflexivity).
    exact H.
Defined.

(** ** Requests the store endpoints refuse *)

(** X4. [POST /log-meal] and [GET /dashboard/{user_id}] refuse a request
    in the same three ways, tried in this order: HTTP 500 when the
    database is not connected (also for an identifier that is not
    valid), HTTP 400 when the identifier is not an [ObjectId], HTTP 404
    when the store has no user with it. In each case the clock is not
    read, no provider is called, nothing is stored: the world is what it
    was. *)
Theorem store_endpoints_refuse_in_order
    (P : providers) (request : Main.LogMealRequest) (uid : string) (w : world) :
  (w_db w = None ->
   Main.log_meal P request w
   = (inl (HTTPException 500 ("Meal logging failed: " +:+ str_exn not_connected)), w) /\
   Main.get_dashboard P uid w
   = (inl (HTTPException 500 ("Dashboard fetch failed: " +:+ str_exn not_connected)), w)) /\
  (forall d,
     w_db w = Some d ->
     (ObjectId P (Main.user_id request) = None ->
      Main.log_meal P request w = (inl (HTTPException 400 "Invalid user_id format."), w)) /\
     (ObjectId P uid = None ->
      Main.get_dashboard P uid w = (inl (HTTPException 400 "Invalid user_id format."), w)) /\
     (forall oid,
        ObjectId P (Main.user_id request) = Some oid -> users d !! oid = None ->
        Main.log_meal P request w = (inl (HTTPException 404 "User not found."), w)) /\
     (forall oid,
        ObjectId P uid = Some oid -> users d !! oid = None ->
        Main.get_dashboard P uid w = (inl (HTTPException 404 "User not found."), w))).
Proof.
  rewrite log_meal_run, get_dashboard_run. cbv zeta. split.
  - intros ->. split; reflexivity.
  - intros d ->. split; [|split; [|split]].
    + intros ->. reflexivity.
    + intros ->. reflexivity.
    + intros oid -> ->. reflexivity.
    + intros oid -> ->. reflexivity.
Qed.

(** ** What POST /log-meal stores *)

(** What [NutritionData] raises is not an [HTTPException]. *)
Lemma NutritionData_inl n e : Main.NutritionData n = inl e -> is_http_exception e = false.
Proof.
  assert (Hf : forall x e', Main.float_field x = inl e' -> is_http_exception e' = false).
  { intros x e'. unfold Main.float_field.
    destruct (match x with PyInt z => PyNum.float_of_int z | PyFloat f => inr f end)
      as [e0|f]; [intros H; now injection H as <-|].
    destruct (0 <=? f)%float; [discriminate|]. intros H. now injection H as <-. }
  unfold Main.NutritionData.
  destruct (Main.float_field (calories n)) as [e1|c] eqn:H1;
    [intros H; injection H as <-; exact (Hf _ _ H1)|].
  destruct (Main.float_field (protein n)) as [e2|p] eqn:H2;
    [intros H; injection H as <-; exact (Hf _ _ H2)|].
  destruct (Main.float_field (carbs n)) as [e3|cb] eqn:H3;
    [intros H; injection H as <-; exact (Hf _ _ H3)|].
  destruct (Main.float_field (fats n)) as [e4|f] eqn:H4;
    [intros H; injection H as <-; exact (Hf _ _ H4)|].
  discriminate.
Qed.

(** A failed [process_meal] leaves no successful Advisor Step in the
    trace. *)
Lemma process_meal_failure_events (P : providers) self text profile total w e :
  fst (Council.process_meal P self text profile total w) = inl e ->
  forall advice,
    ~ In (AdvisorEnd (inr advice))
         (new_events w (snd (Council.process_meal P self text profile total w))).
Proof.
  rewrite process_meal_run. cbv zeta.
  destruct (nutrition_outcome P _ text w) as [e0|n].
  { intros _ advice. simpl snd.
    rewrite (new_events_app w _ [NutritionBegin text; NutritionEnd (inl e0)])
      by (simpl; now rewrite <- app_assoc).
    intros [H|[H|[]]]; discriminate. }
  assert (Hstop : forall advice,
            ~ In (AdvisorEnd (inr advice))
                 (new_events w (after_nutrition text (inr n) w))).
  { intros advice.
    rewrite (new_events_app w _ [NutritionBegin text; NutritionEnd (inr n)])
      by (simpl; now rewrite <- app_assoc).
    intros [H|[H|[]]]; discriminate. }
  destruct (PyNum.add total (calories n)) as [e1|new_total]; [intros _; exact Hstop|].
  destruct (PyNum.sub _ new_total) as [e2|rest]; [intros _; exact Hstop|].
  cbv zeta. simpl fst; simpl snd.
  set (req := {| a_health_goal := _ |}).
  destruct (advisor_outcome P _ req _) as [e3|advice0]; [|discriminate].
  intros _ advice.
  rewrite (new_events_app w _ [NutritionBegin text; NutritionEnd (inr n);
                               AdvisorBegin req; AdvisorEnd (inl e3)])
    by (simpl; now rewrite <- !app_assoc).
  intros [H|[H|[H|[H|[]]]]]; discriminate.
Qed.

(** A request whose trace holds a successful Advisor Step went all the
    way to the write: the database was connected, the user was found,
    today's total was computed, the council was built and
    [process_meal] returned. *)
Lemma log_meal_advised (P : providers) request w advice :
  In (AdvisorEnd (inr advice)) (new_events w (snd (Main.log_meal P request w))) ->
  exists d oid user total council res,
    w_db w = Some d /\
    ObjectId P (Main.user_id request) = Some oid /\
    users d !! oid = Some user /\
    Main.add_calories (PyFloat 0)
      (meals_since oid (Main.midnight (utcnow P (w_trace w))) d) = inr total /\
    fst (Council.get_ai_council w) = inr council /\
    fst (Council.process_meal P council (Main.verified_text request)
           (profile_of user) total w) = inr res /\
    r_ai_advice res = advice.
Proof.
  rewrite log_meal_run. cbv zeta.
  assert (Hnil : forall ev, ~ In ev (new_events w w)).
  { intros ev. rewrite new_events_nil. intros []. }
  destruct (w_db w) as [d|] eqn:Hdb; [|intros H; destruct (Hnil _ H)].
  destruct (ObjectId P (Main.user_id request)) as [oid|] eqn:Hoid;
    [|intros H; destruct (Hnil _ H)].
  destruct (users d !! oid) as [user|] eqn:Huser; [|intros H; destruct (Hnil _ H)].
  destruct (Main.add_calories _ _) as [e|total] eqn:Htot; [intros H; destruct (Hnil _ H)|].
  destruct (fst (Council.get_ai_council w)) as [e|council] eqn:Hc;
    [intros H; destruct (Hnil _ H)|].
  destruct (fst (Council.process_meal P council _ _ total w)) as [e|res] eqn:Hpm.
  - simpl snd. intros H. destruct (process_meal_failure_events P council _ _ _ w e Hpm _ H).
  - destruct (process_meal_success_events P council _ _ _ w res Hpm) as [req Hevs].
    intros H.
    assert (H' : In (AdvisorEnd (inr advice))
                    [NutritionBegin (Main.verified_text request);
                     NutritionEnd (inr (r_nutrition res));
                     AdvisorBegin req; AdvisorEnd (inr (r_ai_advice res))]).
    { rewrite <- Hevs. destruct (insert_error P (meal_logs d) _); [exact H|].
      destruct (Main.NutritionData (r_nutrition res)); exact H. }
    destruct H' as [H'|[H'|[H'|[H'|[]]]]]; try discriminate.
    injection H' as <-.
    exists d, oid, user, total, council, res.
    do 6 (split; [assumption || reflexivity|]). reflexivity.
Qed.

(** Without a successful Advisor Step in its trace, a request left the
    database as it was. *)
Lemma log_meal_not_advised (P : providers) request w :
  (forall advice,
     ~ In (AdvisorEnd (inr advice)) (new_events w (snd (Main.log_meal P request w)))) ->
  w_db (snd (Main.log_meal P request w)) = w_db w.
Proof.
  rewrite log_meal_run. cbv zeta.
  destruct (w_db w) as [d|] eqn:Hdb; [|intros _; exact Hdb].
  destruct (ObjectId P (Main.user_id request)) as [oid|]; [|intros _; exact Hdb].
  destruct (users d !! oid) as [user|]; [|intros _; exact Hdb].
  destruct (Main.add_calories _ _) as [e|total]; [intros _; exact Hdb|].
  destruct (fst (Council.get_ai_council w)) as [e|council]; [intros _; exact Hdb|].
  destruct (process_meal_keeps_store P council (Main.verified_text request)
              (profile_of user) total w) as [Hkeep _].
  destruct (fst (Council.process_meal P council _ _ total w)) as [e|res] eqn:Hpm.
  - intros _. simpl snd. now rewrite Hkeep.
  - destruct (process_meal_success_events P council _ _ _ w res Hpm) as [req Hevs].
    intros Hno. exfalso. apply (Hno (r_ai_advice res)).
    destruct (insert_error P (meal_logs d) _); [simpl snd; rewrite Hevs; simpl; tauto|].
    destruct (Main.NutritionData (r_nutrition res)); simpl snd;
      rewrite new_events_set_db, Hevs; simpl; tauto.
Qed.

(** What a request does once [process_meal] has returned: the clock is
    read, [insert_one] is called, and only then the response is
    built. *)
Lemma log_meal_written (P : providers) request w d oid user total council res :
  w_db w = Some d ->
  ObjectId P (Main.user_id request) = Some oid ->
  users d !! oid = Some user ->
  Main.add_calories (PyFloat 0)
    (meals_since oid (Main.midnight (utcnow P (w_trace w))) d) = inr total ->
  fst (Council.get_ai_council w) = inr council ->
  let pm := Council.process_meal P council (Main.verified_text request)
              (profile_of user) total w in
  fst pm = inr res ->
  let run := Main.log_meal P request w in
  let doc := meal_log_of oid request res (utcnow P (w_trace (snd pm))) in
  w_trace (snd run) = w_trace (snd pm) /\
  match insert_error P (meal_logs d) doc with
  | Some e =>
      w_db (snd run) = Some d /\ fst run = inl (at_boundary "Meal logging" e)
  | None =>
      w_db (snd run) = Some (insert_meal doc d) /\
      fst run
      = match Main.NutritionData (r_nutrition res) with
        | inr checked =>
            inr {| Main.meal_id := inserted_id P (meal_logs d) doc;
                   Main.dish_name := Main.verified_text request;
                   Main.lm_nutrition := checked;
                   Main.ai_advice := r_ai_advice res;
                   Main.timestamp := m_timestamp doc |}
        | inl e => inl (HTTPException 500 ("Meal logging failed: " +:+ str_exn e))
        end
  end.
Proof.
  intros Hdb Hoid Huser Htot Hc. cbv zeta. intros Hpm.
  rewrite log_meal_run. cbv zeta. rewrite Hdb, Hoid, Huser, Htot, Hc, Hpm.
  destruct (process_meal_keeps_store P council (Main.verified_text request)
              (profile_of user) total w) as [Hkeep _].
  destruct (insert_error P (meal_logs d) _) as [e|].
  - simpl fst. simpl snd. rewrite Hkeep. auto.
  - destruct (Main.NutritionData (r_nutrition res)) as [e|checked] eqn:Hnd;
      simpl fst; simpl snd; (split; [reflexivity|]); (split; [reflexivity|]).
    + unfold at_boundary. now rewrite (NutritionData_inl _ _ Hnd).
    + reflexivity.
Qed.

(** A request that changed the store went all the way, and [insert_one]
    did not raise. *)
Lemma log_meal_stored (P : providers) request w :
  w_db (snd (Main.log_meal P request w)) <> w_db w ->
  exists d oid user total council res,
    w_db w = Some d /\
    ObjectId P (Main.user_id request) = Some oid /\
    users d !! oid = Some user /\
    Main.add_calories (PyFloat 0)
      (meals_since oid (Main.midnight (utcnow P (w_trace w))) d) = inr total /\
    fst (Council.get_ai_council w) = inr council /\
    fst (Council.process_meal P council (Main.verified_text request)
           (profile_of user) total w) = inr res /\
    insert_error P (meal_logs d)
      (meal_log_of oid request res
         (utcnow P (w_trace (snd (Council.process_meal P council
                                    (Main.verified_text request) (profile_of user)
                                    total w))))) = None.
Proof.
  intros Hch.
  destruct (w_db w) as [d|] eqn:Hdb.
  2:{ exfalso. apply Hch. rewrite log_meal_run. cbv zeta. now rewrite Hdb. }
  destruct (ObjectId P (Main.user_id request)) as [oid|] eqn:Hoid.
  2:{ exfalso. apply Hch. rewrite log_meal_run. cbv zeta. now rewrite Hdb, Hoid. }
  destruct (users d !! oid) as [user|] eqn:Huser.
  2:{ exfalso. apply Hch. rewrite log_meal_run. cbv zeta. now rewrite Hdb, Hoid, Huser. }
  destruct (Main.add_calories (PyFloat 0)
              (meals_since oid (Main.midnight (utcnow P (w_trace w))) d))
    as [e|total] eqn:Htot.
  { exfalso. apply Hch. rewrite log_meal_run. cbv zeta.
    now rewrite Hdb, Hoid, Huser, Htot. }
  destruct (fst (Council.get_ai_council w)) as [e|council] eqn:Hc.
  { exfalso. apply Hch. rewrite log_meal_run. cbv zeta.
    now rewrite Hdb, Hoid, Huser, Htot, Hc. }
  destruct (process_meal_keeps_store P council (Main.verified_text request)
              (profile_of user) total w) as [Hkeep _].
  destruct (fst (Council.process_meal P council (Main.verified_text request)
                   (profile_of user) total w)) as [e|res] eqn:Hpm.
  { exfalso. apply Hch. rewrite log_meal_run. cbv zeta.
    rewrite Hdb, Hoid, Huser, Htot, Hc, Hpm. simpl snd. now rewrite Hkeep. }
  exists d, oid, user, total, council, res.
  do 6 (split; [assumption || reflexivity|]).
  destruct (log_meal_written P request w d oid user total council res
              Hdb Hoid Huser Htot Hc Hpm) as [_ Hw].
  destruct (insert_error P (meal_logs d) _) as [e|]; [|reflexivity].
  destruct Hw as [Hw _]. exfalso. apply Hch. exact Hw.
Qed.

(** X5. [POST /log-meal] changes the store exactly when the Advisor Step
    of the request succeeded and [insert_one] then accepted the record.
    Without a successful Advisor Step nothing is written. After one,
    the record holds the user's identifier, the verified text, the image
    reference, the summary of the Nutrition Step, the advice, and the
    time the clock gave after the two steps; when [insert_one] raises
    (the store refuses the write, or BSON cannot encode a value) the
    store stays as it was and the client gets the error of the
    endpoint, HTTP 500 "Meal logging failed: ..."; otherwise the record
    is appended, its time cut to whole milliseconds. The record is
    written before the response is built: when [NutritionData] then
    refuses the summary the client gets HTTP 500 and the record stays;
    otherwise the response carries the store's identifier for the
    record and the time as the clock gave it. *)
Theorem log_meal_stores_iff_inserted
    (P : providers) (request : Main.LogMealRequest) (w : world) :
  let run := Main.log_meal P request w in
  let evs := new_events w (snd run) in
  ((forall advice, ~ In (AdvisorEnd (inr advice)) evs) -> w_db (snd run) = w_db w) /\
  (forall advice,
     In (AdvisorEnd (inr advice)) evs ->
     exists d oid n,
       w_db w = Some d /\
       ObjectId P (Main.user_id request) = Some oid /\
       In (NutritionEnd (inr n)) evs /\
       let stamp := utcnow P (w_trace (snd run)) in
       let doc := {| m_user_id := oid;
                     m_timestamp := stamp;
                     m_dish_name := Main.verified_text request;
                     m_image_url := Main.image_url request;
                     m_nutrition := Some (Main.nutrition_dict n);
                     m_ai_advice := advice |} in
       1000 * (stamp / 1000) <= stamp < 1000 * (stamp / 1000) + 1000 /\
       match insert_error P (meal_logs d) doc with
       | Some e =>
           w_db (snd run) = w_db w /\
           fst run
           = inl (if is_http_exception e then e
                  else HTTPException 500 ("Meal logging failed: " +:+ str_exn e))
       | None =>
           w_db (snd run)
           = Some {| users := users d;
                     meal_logs :=
                       meal_logs d
                       ++ [ {| m_user_id := oid;
                               m_timestamp := 1000 * (stamp / 1000);
                               m_dish_name := Main.verified_text request;
                               m_image_url := Main.image_url request;
                               m_nutrition := Some (Main.nutrition_dict n);
                               m_ai_advice := advice |} ] |} /\
           w_db (snd run) <> w_db w /\
           fst run
           = match Main.NutritionData n with
             | inr checked =>
                 inr {| Main.meal_id := inserted_id P (meal_logs d) doc;
                        Main.dish_name := Main.verified_text request;
                        Main.lm_nutrition := checked;
                        Main.ai_advice := advice;
                        Main.timestamp := stamp |}
             | inl e => inl (HTTPException 500 ("Meal logging failed: " +:+ str_exn e))
             end
       end).
Proof.
  cbv zeta. split; [apply log_meal_not_advised|].
  intros advice Hin.
  destruct (log_meal_advised P request w advice Hin)
    as [d [oid [user [total [council [res [Hdb [Hoid [Huser [Htot [Hc [Hpm <-]]]]]]]]]]]].
  destruct (process_meal_success_events P council _ _ _ w res Hpm) as [req Hevs].
  destruct (log_meal_written P request w d oid user total council res
              Hdb Hoid Huser Htot Hc Hpm) as [Htrace Hw].
  exists d, oid, (r_nutrition res).
  split; [exact Hdb|]. split; [exact Hoid|].
  split.
  { rewrite (log_meal_events P request w d oid user total council Hdb Hoid Huser Htot Hc).
    rewrite Hevs. simpl. tauto. }
  rewrite Htrace.
  set (pm := Council.process_meal P council _ _ total w) in *.
  split.
  { pose proof (Z.mod_pos_bound (utcnow P (w_trace (snd pm))) 1000 ltac:(lia)).
    pose proof (Z.div_mod (utcnow P (w_trace (snd pm))) 1000 ltac:(lia)). lia. }
  fold (meal_log_of oid request res (utcnow P (w_trace (snd pm)))).
  destruct (insert_error P (meal_logs d) _) as [e|].
  - destruct Hw as [Hw1 Hw2]. split; [now rewrite Hw1, Hdb|]. exact Hw2.
  - destruct Hw as [Hw1 Hw2]. split; [exact Hw1|]. split; [|exact Hw2].
    rewrite Hw1, Hdb. unfold insert_meal. intros H. injection H as H.
    apply (f_equal (fun x => length (meal_logs x))) in H. simpl in H.
    rewrite length_app in H. simpl in H. lia.
Qed.

(** The end-to-end scenario with a clock that shows 123456 microseconds:
    the record is stored with 123000, the response carries 123456. And a
    provider that answers with [2^63] calories, an integer: the Advisor
    Step succeeds, BSON cannot encode the summary, [insert_one] raises,
    nothing is stored and the client gets HTTP 500. *)
Lemma log_meal_stores_iff_inserted_witness :
  let run := Main.log_meal Cases.P_micro Scenario.request0 Scenario.w0 in
  let refused := Main.log_meal Cases.P_huge Scenario.request0 Scenario.w0 in
  option_map meal_logs (w_db (snd run))
  = Some [ {| m_user_id := Scenario.uid;
              m_timestamp := Scenario.t0 + 123000;
              m_dish_name := "grilled fish with salad, 300g";
              m_image_url := None;
              m_nutrition :=
                Some (Main.nutrition_dict
                        {| calories := PyFloat 350.0; protein := PyFloat 40.0;
                           carbs := PyFloat 10.0; fats := PyFloat 12.0 |});
              m_ai_advice := "Eat light tonight." |} ] /\
  (exists resp, fst run = inr resp /\ Main.timestamp resp = Scenario.t0 + 123456) /\
  In (AdvisorEnd (inr "Eat light tonight.")) (new_events Scenario.w0 (snd refused)) /\
  w_db (snd refused) = w_db Scenario.w0 /\
  fst refused
  = inl (HTTPException 500
           "Meal logging failed: MongoDB can only handle up to 8-byte ints").
Proof.
  cbv zeta.
  destruct (log_meal_stores_iff_inserted Cases.P_micro Scenario.request0 Scenario.w0)
    as [_ H].
  destruct (H "Eat light tonight.") as [d [oid [n [Hdb [Hoid [Hn [_ Hw]]]]]]].
  { vm_compute. do 3 right. left. reflexivity. }
  injection Hdb as <-. injection Hoid as <-.
  assert (Hn' : n = {| calories := PyFloat 350.0; protein := PyFloat 40.0;
                       carbs := PyFloat 10.0; fats := PyFloat 12.0 |}).
  { vm_compute in Hn. destruct Hn as [Hn|[Hn|[Hn|[Hn|[]]]]]; try discriminate.
    now injection Hn as <-. }
  subst n. cbv zeta in Hw. change (insert_error Cases.P_micro _ _) with (@None exn) in Hw.
  destruct Hw as [Hstore [_ Hresp]].
  destruct (log_meal_stores_iff_inserted Cases.P_huge Scenario.request0 Scenario.w0)
    as [_ H'].
  assert (Hadv : In (AdvisorEnd (inr "Eat light tonight."))
                    (new_events Scenario.w0
                       (snd (Main.log_meal Cases.P_huge Scenario.request0 Scenario.w0)))).
  { vm_compute. do 3 right. left. reflexivity. }
  destruct (H' "Eat light tonight." Hadv) as [d' [oid' [n' [Hdb' [Hoid' [Hn2 [_ Hw']]]]]]].
  injection Hdb' as <-. injection Hoid' as <-.
  assert (Hn2' : n' = {| calories := PyInt (2 ^ 63); protein := PyFloat 1.0;
                         carbs := PyFloat 2.0; fats := PyFloat 3.0 |}).
  { vm_compute in Hn2. destruct Hn2 as [Hn2|[Hn2|[Hn2|[Hn2|[]]]]]; try discriminate.
    now injection Hn2 as <-. }
  subst n'. cbv zeta in Hw'.
  change (insert_error Cases.P_huge _ _)
    with (Some (PyExc OverflowError "MongoDB can only handle up to 8-byte ints")) in Hw'.
  destruct Hw' as [Hsame Hfail].
  split; [rewrite Hstore; reflexivity|].
  split; [eexists; split; [exact Hresp|reflexivity]|].
  split; [exact Hadv|]. split; [exact Hsame|]. exact Hfail.
Defined.

(** ** A logged meal and the day it belongs to *)

Lemma midnight_whole_milliseconds t : Main.midnight t mod 1000 = 0.
Proof.
  destruct (midnight_spec t) as [_ H].
  apply Z.mod_divide in H; [|discriminate]. destruct H as [k Hk].
  rewrite Hk. unfold Main.microseconds_per_day.
  replace (k * (86400 * 1000000)) with (k * 86400000 * 1000) by lia.
  apply Z.mod_mul. discriminate.
Qed.

(** Cutting a time to whole milliseconds does not move it before a
    midnight it was not before. *)
Lemma stored_time_same_day t now :
  Main.midnight now <= t -> Main.midnight now <= 1000 * (t / 1000).
Proof.
  intros Hle. pose proof (midnight_whole_milliseconds now) as Hm.
  apply Z.mod_divide in Hm; [|discriminate]. destruct Hm as [k Hk].
  rewrite Hk in *.
  assert (k <= t / 1000) by (apply Z.div_le_lower_bound; lia). lia.
Qed.

Lemma meals_since_insert oid since doc d :
  m_user_id doc = oid -> since <= 1000 * (m_timestamp doc / 1000) ->
  meals_since oid since (insert_meal doc d) = meals_since oid since d ++ [Main.stored doc].
Proof.
  intros Hid Hle. unfold meals_since, insert_meal. simpl meal_logs.
  rewrite filter_app. f_equal.
  rewrite filter_cons_True; [reflexivity|].
  apply matches_true. split; [exact Hid|exact Hle].
Qed.

Lemma sum_from_snoc xs x acc s :
  PyNum.sum_from acc (xs ++ [x]) = inr s ->
  exists c, PyNum.sum_from acc xs = inr c /\ PyNum.add c x = inr s.
Proof.
  revert acc. induction xs as [|y xs IH]; intros acc; simpl.
  - destruct (PyNum.add acc x) as [e|acc'] eqn:Hadd; [discriminate|].
    intros H. injection H as <-. eauto.
  - destruct (PyNum.add acc y) as [e|acc']; [discriminate|]. apply IH.
Qed.

Lemma stored_calories oid request res t :
  Main.meal_get "calories" (Main.stored (meal_log_of oid request res t))
  = calories (r_nutrition res).
Proof.
  unfold Main.meal_get, meal_log_of, Main.nutrition_dict. simpl m_nutrition. simpl default.
  now rewrite lookup_insert_eq.
Qed.

(** X6. A meal that [POST /log-meal] has stored (the request changed
    the store) is one of the user's meals of the day for every later
    request whose day began at or before the time the meal was stamped
    with: though the store cuts the time to whole milliseconds, the
    record does not fall before midnight. The request then ran both
    steps, and the user's meals of the day are the ones of the store
    before the request, followed by the new record with the summary and
    the advice of the steps; the dashboard counts one meal more, and the
    calories it shows are the earlier running total plus the calories of
    the new meal, rounded with [round(., 1)]. *)
Theorem logged_meal_counts_today
    (P : providers) (request : Main.LogMealRequest) (w w2 : world) :
  let run := Main.log_meal P request w in
  let since := Main.midnight (utcnow P (w_trace w2)) in
  w_db (snd run) <> w_db w ->
  w_db w2 = w_db (snd run) ->
  since <= utcnow P (w_trace (snd run)) ->
  exists d d2 oid n advice doc,
    w_db w = Some d /\ w_db w2 = Some d2 /\
    ObjectId P (Main.user_id request) = Some oid /\
    In (NutritionEnd (inr n)) (new_events w (snd run)) /\
    In (AdvisorEnd (inr advice)) (new_events w (snd run)) /\
    m_dish_name doc = Main.verified_text request /\
    m_nutrition doc = Some (Main.nutrition_dict n) /\
    m_ai_advice doc = advice /\
    meal_logs d2 = meal_logs d ++ [doc] /\
    meals_since oid since d2 = meals_since oid since d ++ [doc] /\
    forall resp,
      fst (Main.get_dashboard P (Main.user_id request) w2) = inr resp ->
      Main.meals_today resp = S (length (meals_since oid since d)) /\
      exists c c',
        running_sum "calories" (meals_since oid since d) = inr c /\
        PyNum.add c (calories n) = inr c' /\
        Main.total_consumed resp = PyNum.round1 c'.
Proof.
  cbv zeta. intros Hch Hdb2 Hday.
  destruct (log_meal_stored P request w Hch)
    as [d [oid [user [total [council [res
         [Hdb [Hoid [Huser [Htot [Hc [Hpm Hins]]]]]]]]]]]].
  destruct (log_meal_written P request w d oid user total council res
              Hdb Hoid Huser Htot Hc Hpm) as [Htrace Hw].
  rewrite Hins in Hw. destruct Hw as [Hstore _].
  destruct (process_meal_success_events P council _ _ _ w res Hpm) as [req Hevs].
  assert (Hn : In (NutritionEnd (inr (r_nutrition res)))
                  (new_events w (snd (Main.log_meal P request w))) /\
               In (AdvisorEnd (inr (r_ai_advice res)))
                  (new_events w (snd (Main.log_meal P request w)))).
  { rewrite (log_meal_events P request w d oid user total council Hdb Hoid Huser Htot Hc).
    rewrite Hevs. simpl. tauto. }
  rewrite Htrace in Hday.
  set (stamp := utcnow P (w_trace (snd (Council.process_meal P council
                                          (Main.verified_text request) (profile_of user)
                                          total w)))) in *.
  set (doc := meal_log_of oid request res stamp) in *.
  rewrite Hstore in Hdb2.
  assert (Htoday : meals_since oid (Main.midnight (utcnow P (w_trace w2))) (insert_meal doc d)
                   = meals_since oid (Main.midnight (utcnow P (w_trace w2))) d
                     ++ [Main.stored doc]).
  { apply meals_since_insert; [reflexivity|]. now apply stored_time_same_day. }
  exists d, (insert_meal doc d), oid, (r_nutrition res), (r_ai_advice res), (Main.stored doc).
  split; [exact Hdb|]. split; [exact Hdb2|]. split; [exact Hoid|].
  split; [apply Hn|]. split; [apply Hn|].
  split; [reflexivity|]. split; [reflexivity|]. split; [reflexivity|].
  split; [reflexivity|]. split; [exact Htoday|].
  intros resp. rewrite get_dashboard_run. cbv zeta. rewrite Hdb2, Hoid.
  simpl users. rewrite Huser, Htoday.
  destruct (Main.aggregate _ _) as [e|tot] eqn:Hagg; [discriminate|].
  destruct (PyNum.sub _ _) as [e|rest]; [discriminate|].
  destruct (Main.NutritionData _) as [e|checked]; [discriminate|].
  simpl fst. intros H. injection H as <-. simpl Main.meals_today.
  simpl Main.total_consumed.
  destruct (aggregate_inr _ _ _ Hagg) as [Hsum [_ [_ [_ Hcount]]]].
  split; [rewrite Hcount, length_app; simpl; lia|].
  simpl Main.total_calories in Hsum. rewrite map_app in Hsum. simpl map in Hsum.
  destruct (sum_from_snoc _ _ _ _ Hsum) as [c [Hc1 Hc2]].
  exists c, (Main.total_calories tot).
  split; [exact Hc1|]. split; [|reflexivity].
  unfold doc in Hc2. now rewrite stored_calories in Hc2.
Qed.

(** The meal of the scenario, asked for on the dashboard right after it
    was logged at 17:30:00.123456: one meal, 350.0 kcal. *)
Lemma logged_meal_counts_today_witness :
  exists resp,
    fst (Main.get_dashboard Cases.P_micro Scenario.uid
           (snd (Main.log_meal Cases.P_micro Scenario.request0 Scenario.w0)))
    = inr resp /\
    Main.meals_today resp = 1%nat /\
    Main.total_consumed resp = PyFloat 350.0.
Proof.
  destruct (logged_meal_counts_today Cases.P_micro Scenario.request0 Scenario.w0
              (snd (Main.log_meal Cases.P_micro Scenario.request0 Scenario.w0)))
    as [d [d2 [oid [n [advice [doc [Hdb [_ [Hoid [_ [_ [_ [_ [_ [_ [_ Hdash]]]]]]]]]]]]]]]].
  { intros H. apply (f_equal (option_map (fun d => length (meal_logs d)))) in H.
    vm_compute in H. discriminate. }
  { reflexivity. }
  { vm_compute. discriminate. }
  injection Hdb as <-. injection Hoid as <-.
  eexists. split; [vm_compute; reflexivity|].
  destruct (Hdash _ ltac:(vm_compute; reflexivity)) as [Hcount _].
  split; [rewrite Hcount; reflexivity|reflexivity].
Defined.

(** ** The total the advice is based on *)

(** A request whose trace holds an entry of the Advisor Step got as far
    as computing the remaining calories. *)
Lemma log_meal_advisor_entered (P : providers) request w req :
  In (AdvisorBegin req) (new_events w (snd (Main.log_meal P request w))) ->
  exists d oid user total council n new_total,
    w_db w = Some d /\
    ObjectId P (Main.user_id request) = Some oid /\
    users d !! oid = Some user /\
    Main.add_calories (PyFloat 0)
      (meals_since oid (Main.midnight (utcnow P (w_trace w))) d) = inr total /\
    fst (Council.get_ai_council w) = inr council /\
    nutrition_outcome P (Council.nutrition_calculator council)
      (Main.verified_text request) w = inr n /\
    PyNum.add total (calories n) = inr new_total /\
    PyNum.sub (PyInt (default 2500 (u_daily_calorie_goal user))) new_total
    = inr (a_remaining_calories req) /\
    a_total_calories req = calories n /\
    a_health_goal req = default "maintain" (u_health_goal user) /\
    a_dish_name req = Main.verified_text request.
Proof.
  rewrite log_meal_run. cbv zeta.
  assert (Hnil : forall ev, ~ In ev (new_events w w)).
  { intros ev. rewrite new_events_nil. intros []. }
  destruct (w_db w) as [d|] eqn:Hdb; [|intros H; destruct (Hnil _ H)].
  destruct (ObjectId P (Main.user_id request)) as [oid|] eqn:Hoid;
    [|intros H; destruct (Hnil _ H)].
  destruct (users d !! oid) as [user|] eqn:Huser; [|intros H; destruct (Hnil _ H)].
  destruct (Main.add_calories _ _) as [e|total] eqn:Htot; [intros H; destruct (Hnil _ H)|].
  destruct (fst (Council.get_ai_council w)) as [e|council] eqn:Hc;
    [intros H; destruct (Hnil _ H)|].
  intros H.
  assert (H' : In (AdvisorBegin req)
                  (new_events w (snd (Council.process_meal P council
                                        (Main.verified_text request) (profile_of user)
                                        total w)))).
  { destruct (fst (Council.process_meal P council _ _ total w)) as [e|res]; [exact H|].
    destruct (insert_error P (meal_logs d) _); [exact H|].
    destruct (Main.NutritionData (r_nutrition res)); exact H. }
  clear H. revert H'. rewrite process_meal_run. cbv zeta.
  destruct (nutrition_outcome P _ _ w) as [e|n] eqn:Hn.
  { simpl snd.
    rewrite (new_events_app w _ [NutritionBegin (Main.verified_text request);
                                 NutritionEnd (inl e)])
      by (simpl; now rewrite <- app_assoc).
    intros [H|[H|[]]]; discriminate. }
  assert (Hstop : ~ In (AdvisorBegin req)
                       (new_events w (after_nutrition (Main.verified_text request)
                                        (inr n) w))).
  { rewrite (new_events_app w _ [NutritionBegin (Main.verified_text request);
                                 NutritionEnd (inr n)])
      by (simpl; now rewrite <- app_assoc).
    intros [H|[H|[]]]; discriminate. }
  destruct (PyNum.add total (calories n)) as [e|new_total] eqn:Hadd;
    [intros H; destruct (Hstop H)|].
  simpl default.
  destruct (PyNum.sub _ new_total) as [e|rest] eqn:Hsub; [intros H; destruct (Hstop H)|].
  cbv zeta. simpl snd.
  set (req0 := {| a_health_goal := _ |}).
  set (a := advisor_outcome P _ req0 _).
  rewrite (new_events_app w _ [NutritionBegin (Main.verified_text request);
                               NutritionEnd (inr n); AdvisorBegin req0; AdvisorEnd a])
    by (simpl; now rewrite <- !app_assoc).
  intros [H|[H|[H|[H|[]]]]]; try discriminate.
  injection H as <-.
  exists d, oid, user, total, council, n, new_total.
  repeat split; assumption || reflexivity.
Qed.

(** X7. The advice of [POST /log-meal] is based on the total the
    dashboard shows. For a request that reaches the Advisor Step, and a
    dashboard of the same user read from the same database at the same
    clock reading: the remaining calories the Advisor Step is given are
    the dashboard's goal minus the sum of the dashboard's total of
    calories, before it is rounded with [round(., 1)], and the calories
    of the new meal. *)
Theorem advice_uses_dashboard_total
    (P : providers) (request : Main.LogMealRequest) (w : world)
    (req : advice_request) (resp : Main.DashboardResponse) :
  In (AdvisorBegin req) (new_events w (snd (Main.log_meal P request w))) ->
  fst (Main.get_dashboard P (Main.user_id request) w) = inr resp ->
  exists d oid c n new_total,
    w_db w = Some d /\
    ObjectId P (Main.user_id request) = Some oid /\
    running_sum "calories" (meals_since oid (Main.midnight (utcnow P (w_trace w))) d)
    = inr c /\
    Main.total_consumed resp = PyNum.round1 c /\
    In (NutritionEnd (inr n)) (new_events w (snd (Main.log_meal P request w))) /\
    a_total_calories req = calories n /\
    PyNum.add c (calories n) = inr new_total /\
    PyNum.sub (PyInt (Main.daily_goal resp)) new_total = inr (a_remaining_calories req).
Proof.
  intros Hin Hdash.
  destruct (log_meal_advisor_entered P request w req Hin)
    as [d [oid [user [total [council [n [new_total
         [Hdb [Hoid [Huser [Htot [Hc [Hn [Hadd [Hsub [Hcal _]]]]]]]]]]]]]]]].
  rewrite get_dashboard_run in Hdash. cbv zeta in Hdash.
  rewrite Hdb, Hoid, Huser in Hdash. revert Hdash.
  destruct (Main.aggregate _ _) as [e|tot] eqn:Hagg; [discriminate|].
  destruct (PyNum.sub _ (Main.total_calories tot)) as [e|rest]; [discriminate|].
  destruct (Main.NutritionData _) as [e|checked]; [discriminate|].
  simpl fst. intros H. injection H as <-.
  destruct (aggregate_inr _ _ _ Hagg) as [Hsum _]. simpl Main.total_calories in Hsum.
  assert (Htot' := Htot). rewrite add_calories_sum_from in Htot'.
  assert (Heq : total = Main.total_calories tot) by congruence.
  subst total.
  exists d, oid, (Main.total_calories tot), n, new_total.
  split; [exact Hdb|]. split; [exact Hoid|]. split; [exact Hsum|].
  split; [reflexivity|]. split.
  { rewrite (log_meal_events P request w d oid user _ council Hdb Hoid Huser Htot Hc).
    rewrite process_meal_run. cbv zeta. rewrite Hn, Hadd. simpl default. rewrite Hsub.
    cbv zeta. simpl snd.
    erewrite new_events_app; [|simpl; rewrite <- !app_assoc; reflexivity].
    simpl. tauto. }
  split; [exact Hcal|]. split; [exact Hadd|]. exact Hsub.
Qed.

(** The store of the dashboard scenario (1450 kcal today, goal 2000) and
    the meal of the end-to-end scenario (350 kcal): the dashboard shows
    1450.0 and the Advisor Step is given 200.0. *)
Lemma advice_uses_dashboard_total_witness :
  let w := Scenario.world_with Scenario.dashboard_logs in
  exists req resp c new_total,
    In (AdvisorBegin req) (new_events w (snd (Main.log_meal Scenario.P_ok Scenario.request0 w))) /\
    fst (Main.get_dashboard Scenario.P_ok Scenario.uid w) = inr resp /\
    Main.total_consumed resp = PyNum.round1 c /\
    c = PyFloat 1450.0 /\
    PyNum.add c (PyFloat 350.0) = inr new_total /\
    PyNum.sub (PyInt 2000) new_total = inr (a_remaining_calories req) /\
    a_remaining_calories req = PyFloat 200.0.
Proof.
  cbv zeta.
  set (req := {| a_health_goal := "lose_weight";
                 a_dish_name := "grilled fish with salad, 300g";
                 a_total_calories := PyFloat 350.0;
                 a_remaining_calories := PyFloat 200.0 |}).
  set (resp := {| Main.d_user_id := Scenario.uid;
                  Main.daily_goal := 2000;
                  Main.total_consumed := PyFloat 1450.0;
                  Main.remaining := PyFloat 550.0;
                  Main.meals_today := 3;
                  Main.nutrition_totals :=
                    {| calories := PyFloat 1450.0; protein := PyFloat 80.0;
                       carbs := PyFloat 160.0; fats := PyFloat 45.0 |} |}).
  assert (Hin : In (AdvisorBegin req)
                   (new_events (Scenario.world_with Scenario.dashboard_logs)
                      (snd (Main.log_meal Scenario.P_ok Scenario.request0
                              (Scenario.world_with Scenario.dashboard_logs))))).
  { vm_compute. do 2 right. left. reflexivity. }
  assert (Hdash : fst (Main.get_dashboard Scenario.P_ok (Main.user_id Scenario.request0)
                         (Scenario.world_with Scenario.dashboard_logs)) = inr resp).
  { vm_compute. reflexivity. }
  destruct (advice_uses_dashboard_total Scenario.P_ok Scenario.request0
              (Scenario.world_with Scenario.dashboard_logs) req resp Hin Hdash)
    as [d [oid [c [n [new_total [Hdb [Hoid [Hsum [Hshown [_ [Hcal [Hadd Hsub]]]]]]]]]]]].
  injection Hdb as <-. injection Hoid as <-.
  assert (Hc : c = PyFloat 1450.0).
  { vm_compute in Hsum. now injection Hsum as <-. }
  exists req, resp, c, new_total.
  split; [exact Hin|]. split; [exact Hdash|]. split; [exact Hshown|]. split; [exact Hc|].
  split; [now rewrite <- Hcal in Hadd|]. split; [exact Hsub|]. reflexivity.
Defined.

(** ** When the dashboard answers *)

Lemma float_of_int_zero : PyNum.float_of_int 0 = inr 0%float.
Proof. vm_compute. reflexivity. Qed.

(** A running total of floats that are not negative, from a float that
    is not negative: it never raises and stays a float that is not
    negative. *)
Lemma sum_from_positive_floats xs :
  Forall zero_or_positive_float xs ->
  forall f, (0 <=? f)%float = true ->
  exists f', PyNum.sum_from (PyFloat f) xs = inr (PyFloat f') /\ (0 <=? f')%float = true.
Proof.
  induction 1 as [|x xs Hx _ IH]; intros f Hf; simpl.
  - eauto.
  - destruct Hx as [-> | [Hint Hge]].
    + unfold PyNum.add, PyNum.lift2. rewrite float_of_int_zero.
      apply IH. apply float_add_nonneg; [exact Hf|reflexivity].
    + destruct x as [z|g]; [discriminate|].
      unfold PyNum.add, PyNum.lift2. apply IH. now apply float_add_nonneg.
Qed.

Lemma well_stored_values key meals :
  In key nutrition_keys -> Forall well_stored meals ->
  Forall zero_or_positive_float (map (Main.meal_get key) meals).
Proof.
  intros Hkey. induction 1 as [|m ms Hm _ IH]; simpl; constructor; [|exact IH].
  unfold Main.meal_get. destruct (default ∅ (m_nutrition m) !! key) as [v|] eqn:Hv; simpl.
  - exact (Hm key v Hkey Hv).
  - now left.
Qed.

Lemma running_sum_positive key meals :
  In key nutrition_keys -> Forall well_stored meals ->
  exists f, running_sum key meals = inr (PyFloat f) /\ (0 <=? f)%float = true.
Proof.
  intros Hkey Hall. unfold running_sum.
  apply sum_from_positive_floats; [now apply well_stored_values|reflexivity].
Qed.

(** X8. [GET /dashboard/{user_id}] answers for every user of the store
    whose goal fits a float and whose meals of the day hold floats that
    are not negative (what [log_meal] stores for such summaries): the
    sums cannot raise and [NutritionData] cannot refuse the totals. The
    answer counts the meals of the day; on a day without meals it shows
    0.0 for every total and, as remaining, the goal as a float. *)
Theorem dashboard_answers
    (P : providers) (uid : string) (w : world)
    (d : database) (oid : string) (user : user_doc) (g : float) :
  w_db w = Some d ->
  ObjectId P uid = Some oid ->
  users d !! oid = Some user ->
  PyNum.float_of_int (default 2500 (u_daily_calorie_goal user)) = inr g ->
  let today := meals_since oid (Main.midnight (utcnow P (w_trace w))) d in
  Forall well_stored today ->
  (exists resp,
     fst (Main.get_dashboard P uid w) = inr resp /\
     Main.meals_today resp = length today /\
     Main.daily_goal resp = default 2500 (u_daily_calorie_goal user) /\
     summary_non_negative (Main.nutrition_totals resp)) /\
  (today = [] ->
   fst (Main.get_dashboard P uid w)
   = inr {| Main.d_user_id := uid;
            Main.daily_goal := default 2500 (u_daily_calorie_goal user);
            Main.total_consumed := PyFloat 0;
            Main.remaining := PyNum.round1 (PyFloat (g - 0));
            Main.meals_today := 0;
            Main.nutrition_totals :=
              {| calories := PyFloat 0; protein := PyFloat 0;
                 carbs := PyFloat 0; fats := PyFloat 0 |} |}).
Proof.
  intros Hdb Hoid Huser Hg. cbv zeta. intros Hall.
  rewrite get_dashboard_run. cbv zeta. rewrite Hdb, Hoid, Huser.
  set (today := meals_since oid _ d) in *.
  destruct (running_sum_positive "calories" today) as [c [Hc Hc0]]; [simpl; tauto|exact Hall|].
  destruct (running_sum_positive "protein" today) as [p [Hp Hp0]]; [simpl; tauto|exact Hall|].
  destruct (running_sum_positive "carbs" today) as [cb [Hcb Hcb0]]; [simpl; tauto|exact Hall|].
  destruct (running_sum_positive "fats" today) as [f [Hf Hf0]]; [simpl; tauto|exact Hall|].
  rewrite (aggregate_sums today Main.zero_totals _ _ _ _ Hc Hp Hcb Hf).
  simpl Main.total_calories. simpl Main.total_protein. simpl Main.total_carbs.
  simpl Main.total_fats. simpl Main.meals_count.
  unfold PyNum.sub, PyNum.lift2. rewrite Hg.
  assert (Hnn : summary_non_negative
                  {| calories := PyNum.round1 (PyFloat c); protein := PyNum.round1 (PyFloat p);
                     carbs := PyNum.round1 (PyFloat cb); fats := PyNum.round1 (PyFloat f) |}).
  { repeat split; apply round1_nonneg; assumption. }
  assert (Hok : Main.NutritionData
                  {| calories := PyNum.round1 (PyFloat c); protein := PyNum.round1 (PyFloat p);
                     carbs := PyNum.round1 (PyFloat cb); fats := PyNum.round1 (PyFloat f) |}
                = inr {| calories := PyNum.round1 (PyFloat c);
                         protein := PyNum.round1 (PyFloat p);
                         carbs := PyNum.round1 (PyFloat cb);
                         fats := PyNum.round1 (PyFloat f) |})
    by (apply NutritionData_inr; try reflexivity; now split).
  rewrite Hok. simpl fst. split.
  - eexists. split; [reflexivity|]. simpl. repeat split; try reflexivity; apply Hnn.
  - intros Hempty. rewrite Hempty in Hc, Hp, Hcb, Hf.
    injection Hc as <-. injection Hp as <-. injection Hcb as <-. injection Hf as <-.
    rewrite Hempty. reflexivity.
Qed.

(** A user without a goal and without meals: 2500.0 remain. *)
Lemma dashboard_answers_witness :
  fst (Main.get_dashboard Scenario.P_ok Scenario.uid Scenario.bare_world)
  = inr {| Main.d_user_id := Scenario.uid;
           Main.daily_goal := 2500;
           Main.total_consumed := PyFloat 0;
           Main.remaining := PyFloat 2500.0;
           Main.meals_today := 0;
           Main.nutrition_totals :=
             {| calories := PyFloat 0; protein := PyFloat 0;
                carbs := PyFloat 0; fats := PyFloat 0 |} |}.
Proof.
  destruct (dashboard_answers Scenario.P_ok Scenario.uid Scenario.bare_world
              {| users := {[ Scenario.uid := Scenario.bare_user ]}; meal_logs := [] |}
              Scenario.uid Scenario.bare_user 2500.0%float
              eq_refl eq_refl eq_refl eq_refl)
    as [_ H].
  { constructor. }
  exact (H eq_refl).
Defined.

(** ** When POST /log-meal succeeds *)

(** Sums of such values never raise and are such values. *)
Lemma sum_from_zero_or_positive xs :
  Forall zero_or_positive_float xs ->
  forall acc, zero_or_positive_float acc ->
  exists s, PyNum.sum_from acc xs = inr s /\ zero_or_positive_float s.
Proof.
  induction 1 as [|x xs Hx _ IH]; intros acc Hacc; simpl; [eauto|].
  assert (Hadd : exists acc', PyNum.add acc x = inr acc' /\ zero_or_positive_float acc').
  { unfold PyNum.add, PyNum.lift2.
    destruct Hacc as [-> | [Ha Ha0]]; destruct Hx as [-> | [Hx Hx0]].
    - eexists. split; [reflexivity|]. now left.
    - destruct x as [z|f]; [discriminate|]. rewrite float_of_int_zero.
      eexists. split; [reflexivity|]. right. split; [reflexivity|].
      apply float_add_nonneg; [reflexivity|exact Hx0].
    - destruct acc as [z|a]; [discriminate|]. rewrite float_of_int_zero.
      eexists. split; [reflexivity|]. right. split; [reflexivity|].
      apply float_add_nonneg; [exact Ha0|reflexivity].
    - destruct acc as [z|a]; [discriminate|]. destruct x as [z|f]; [discriminate|].
      eexists. split; [reflexivity|]. right. split; [reflexivity|].
      now apply float_add_nonneg. }
  destruct Hadd as [acc' [-> Hacc']]. now apply IH.
Qed.

Lemma round1_zero_or_positive x :
  zero_or_positive_float x -> zero_or_positive_float (PyNum.round1 x).
Proof.
  intros [-> | [Hx Hx0]]; [now left|].
  destruct x as [z|f]; [discriminate|]. right. split; [reflexivity|].
  now apply (round1_nonneg (PyFloat f)).
Qed.

Lemma zero_or_positive_ge0 x : zero_or_positive_float x -> PyNum.ge0 x = true.
Proof. intros [-> | [_ H]]; [reflexivity|exact H]. Qed.

Lemma sum_field_well_formed items key :
  Forall well_formed_item items -> In key macro_fields ->
  exists s, Council.sum_field key items = inr s /\ zero_or_positive_float s.
Proof.
  intros Hall Hkey. unfold Council.sum_field, PyNum.sum.
  apply sum_from_zero_or_positive; [|now left].
  induction Hall as [|it its Hit _ IH]; simpl; constructor; [|exact IH].
  unfold Council.item_get. destruct (it !! key) as [v|] eqn:Hv; simpl.
  - right. exact (Hit key v Hkey Hv).
  - now left.
Qed.

(** The summary of well-formed items. *)
Lemma summarise_well_formed items :
  Forall well_formed_item items ->
  exists n,
    summarise items = inr n /\
    zero_or_positive_float (calories n) /\ zero_or_positive_float (protein n) /\
    zero_or_positive_float (carbs n) /\ zero_or_positive_float (fats n).
Proof.
  intros Hall. unfold summarise.
  destruct (sum_field_well_formed items "calories" Hall) as [c [-> Hc]]; [simpl; tauto|].
  destruct (sum_field_well_formed items "protein_g" Hall) as [p [-> Hp]]; [simpl; tauto|].
  destruct (sum_field_well_formed items "carbohydrates_total_g" Hall) as [cb [-> Hcb]];
    [simpl; tauto|].
  destruct (sum_field_well_formed items "fat_total_g" Hall) as [f [-> Hf]]; [simpl; tauto|].
  eexists. split; [reflexivity|]. simpl.
  repeat split; now apply round1_zero_or_positive.
Qed.

(** The advisor of a council that was built is the agent its
    constructor returns. *)
Lemma get_ai_council_advisor w council :
  fst (Council.get_ai_council w) = inr council ->
  fst (Council.AdvisorAgent_init w) = inr (Council.advisor_agent council).
Proof.
  rewrite get_ai_council_run. simpl fst.
  destruct (negb (PyStr.truthy (w_env w !! "GOOGLE_API_KEY"))); [discriminate|].
  destruct (negb (PyStr.truthy (w_env w !! "CALORIENINJAS_API_KEY"))); [discriminate|].
  destruct (fst (Council.AdvisorAgent_init w)) as [e|a]; [discriminate|].
  intros H. now injection H as <-.
Qed.

(** The advisor of a council that was built asks the provider the
    environment selected when the council was built. *)
Lemma council_advisor_outcome (P : providers) w council req w1 :
  fst (Council.get_ai_council w) = inr council ->
  advisor_outcome P (Council.advisor_agent council) req w1
  = advice_of (selected_answer P (w_env w) (trace_at_advisor req w1) req).
Proof.
  intros Hc. apply get_ai_council_advisor in Hc.
  rewrite advisor_init_run in Hc. cbv zeta in Hc. simpl fst in Hc.
  rewrite advisor_outcome_eq. unfold selected_answer.
  destruct (String.eqb (PyStr.lower (default "groq" (w_env w !! "ADVISOR_PROVIDER")))
              "openrouter") eqn:Hsel.
  - destruct (negb (PyStr.truthy (w_env w !! "OPENROUTER_API_KEY"))); [discriminate|].
    injection Hc as <-. simpl Council.provider. rewrite Hsel. reflexivity.
  - destruct (negb (PyStr.truthy (w_env w !! "GROQ_API_KEY"))); [discriminate|].
    injection Hc as <-. simpl Council.provider. rewrite Hsel. reflexivity.
Qed.

Lemma selected_answer_available (P : providers) env tr req :
  advice_available P -> exists content, selected_answer P env tr req = inr content.
Proof.
  intros [Hgroq Hopen]. unfold selected_answer.
  destruct (String.eqb _ "openrouter"); [apply Hopen | apply Hgroq].
Qed.

(** [NutritionData] accepts a summary of such values, and holds the
    integer [0] of a member no item has as the float [0.0]. *)
Lemma float_field_zero_or_positive x :
  zero_or_positive_float x ->
  exists f, Main.float_field x = inr f /\ response_float x = PyFloat f.
Proof.
  intros [-> | [Hx Hx0]].
  - exists 0%float. split; reflexivity.
  - destruct x as [z|f]; [discriminate|]. exists f. simpl in Hx0.
    unfold Main.float_field. rewrite Hx0. split; reflexivity.
Qed.

Lemma NutritionData_response n :
  zero_or_positive_float (calories n) -> zero_or_positive_float (protein n) ->
  zero_or_positive_float (carbs n) -> zero_or_positive_float (fats n) ->
  Main.NutritionData n = inr (response_summary n).
Proof.
  intros Hc Hp Hcb Hf. unfold Main.NutritionData, response_summary.
  destruct (float_field_zero_or_positive _ Hc) as [c [-> ->]].
  destruct (float_field_zero_or_positive _ Hp) as [p [-> ->]].
  destruct (float_field_zero_or_positive _ Hcb) as [cb [-> ->]].
  destruct (float_field_zero_or_positive _ Hf) as [f [-> ->]].
  reflexivity.
Qed.

Lemma nutrition_dict_well_stored oid request res t :
  zero_or_positive_float (calories (r_nutrition res)) ->
  zero_or_positive_float (protein (r_nutrition res)) ->
  zero_or_positive_float (carbs (r_nutrition res)) ->
  zero_or_positive_float (fats (r_nutrition res)) ->
  well_stored (Main.stored (meal_log_of oid request res t)).
Proof.
  intros Hc Hp Hcb Hf key v Hkey. simpl m_nutrition. simpl default.
  unfold Main.nutrition_dict.
  destruct Hkey as [<-|[<-|[<-|[<-|[]]]]];
    repeat (rewrite lookup_insert_eq || (rewrite lookup_insert_ne by discriminate));
    intros H; injection H as <-; assumption.
Qed.

(** A store that refuses only what BSON cannot encode accepts every
    well-stored record. *)
Lemma bson_accepts_well_stored doc : well_stored doc -> Cases.bson_error doc = None.
Proof.
  intros Hdoc. unfold Cases.bson_error.
  assert (Hkey : forall key, In key nutrition_keys ->
            match Main.meal_get key doc with
            | PyNum.PyInt z => (z <? - 2 ^ 63) || (2 ^ 63 <=? z)
            | PyNum.PyFloat _ => false
            end = false).
  { intros key Hin. unfold Main.meal_get.
    destruct (default ∅ (m_nutrition doc) !! key) as [v|] eqn:Hv; [|reflexivity].
    destruct (Hdoc key v Hin Hv) as [-> | [Hi _]]; [reflexivity|].
    destruct v as [z|f]; [discriminate|reflexivity]. }
  replace (existsb _ nutrition_keys) with false; [reflexivity|].
  symmetry. simpl. rewrite !Hkey by (simpl; tauto). reflexivity.
Qed.

(** X9. [POST /log-meal] succeeds whenever nothing outside it fails: the
    database is connected and holds the user, the user's goal fits a
    float, the three credentials are set, the meals of the day are well
    stored, the nutrition provider answers with status 200 and at least
    one item, all items holding floats that are not negative, the
    advice provider answers and the store accepts well-stored records.
    The
    Advisor Step is then asked with the user's goal (or "maintain"), the
    verified text, the calories of the summary and the goal minus the
    new total; the response carries the verified text, the summary of
    the items with its values as floats (the integer [0] of a member no
    item has becomes [0.0]) and what the selected provider answered to
    that request, stripped. One record with the summary as the step
    returned it and with that advice is appended to the store, and the
    records of the store are well stored again, so that the dashboard of
    the user still answers. *)
Theorem log_meal_succeeds
    (P : providers) (request : Main.LogMealRequest) (w : world)
    (d : database) (oid : string) (user : user_doc) (g : float) (key : string)
    (response : http_response) (items : list item) :
  let text := Main.verified_text request in
  let today := meals_since oid (Main.midnight (utcnow P (w_trace w))) d in
  w_db w = Some d ->
  ObjectId P (Main.user_id request) = Some oid ->
  users d !! oid = Some user ->
  PyNum.float_of_int (default 2500 (u_daily_calorie_goal user)) = inr g ->
  Forall well_stored (meal_logs d) ->
  first_missing (w_env w) = None ->
  w_env w !! "CALORIENINJAS_API_KEY" = Some key ->
  nutrition_api P (trace_at_nutrition text w) key text = inr response ->
  status_code response = 200 ->
  json response = inr (Some items) ->
  items <> [] ->
  Forall well_formed_item items ->
  advice_available P ->
  write_accepted P d oid text ->
  exists n c nt content resp d',
    summarise items = inr n /\
    running_sum "calories" today = inr (PyFloat c) /\
    PyNum.add (PyFloat c) (calories n) = inr (PyFloat nt) /\
    let req := {| a_health_goal := default "maintain" (u_health_goal user);
                  a_dish_name := text;
                  a_total_calories := calories n;
                  a_remaining_calories := PyFloat (g - nt) |} in
    selected_answer P (w_env w)
      (trace_at_advisor req (after_nutrition text (inr n) w)) req = inr content /\
    fst (Main.log_meal P request w) = inr resp /\
    Main.dish_name resp = text /\
    Main.lm_nutrition resp = response_summary n /\
    Main.ai_advice resp = PyStr.strip content /\
    w_db (snd (Main.log_meal P request w)) = Some d' /\
    users d' = users d /\
    (exists doc,
       meal_logs d' = meal_logs d ++ [doc] /\
       m_user_id doc = oid /\ m_dish_name doc = text /\
       m_nutrition doc = Some (Main.nutrition_dict n) /\
       m_ai_advice doc = PyStr.strip content) /\
    Forall well_stored (meal_logs d').
Proof.
  cbv zeta.
  intros Hdb Hoid Huser Hg Hstored Hkeys Hkey Hresp Hstatus Hjson Hne Hitems Hadv Hwrite.
  destruct (get_ai_council_inr w Hkeys) as [council Hc].
  destruct (get_ai_council_keys w council Hc) as [_ Hnkey].
  rewrite Hkey in Hnkey. injection Hnkey as Hnkey.
  destruct (summarise_well_formed items Hitems) as [n [Hsum [Hn1 [Hn2 [Hn3 Hn4]]]]].
  assert (Hout : nutrition_outcome P (Council.nutrition_calculator council)
                   (Main.verified_text request) w = inr n).
  { rewrite nutrition_outcome_eq, <- Hnkey, Hresp, Hstatus, Hjson. simpl.
    destruct items as [|it its]; [contradiction|]. now rewrite Hsum. }
  set (today := meals_since oid (Main.midnight (utcnow P (w_trace w))) d).
  assert (Htoday : Forall well_stored today).
  { apply List.Forall_forall. intros m Hm. apply meals_since_In in Hm.
    destruct Hm as [Hm _]. rewrite List.Forall_forall in Hstored. now apply Hstored. }
  destruct (running_sum_positive "calories" today) as [c [Hc1 Hc0]];
    [simpl; tauto|exact Htoday|].
  assert (Htot : Main.add_calories (PyFloat 0) today = inr (PyFloat c)).
  { rewrite add_calories_sum_from. exact Hc1. }
  assert (Hadd : exists nt, PyNum.add (PyFloat c) (calories n) = inr (PyFloat nt)).
  { unfold PyNum.add, PyNum.lift2.
    destruct Hn1 as [-> | [Hi _]].
    - rewrite float_of_int_zero. eauto.
    - destruct (calories n) as [z|f]; [discriminate|]. eauto. }
  destruct Hadd as [nt Hadd].
  assert (Hsub : PyNum.sub (PyInt (default 2500 (u_daily_calorie_goal user))) (PyFloat nt)
                 = inr (PyFloat (g - nt))).
  { unfold PyNum.sub, PyNum.lift2. now rewrite Hg. }
  set (w1 := after_nutrition (Main.verified_text request) (inr n) w).
  set (req := {| a_health_goal := default "maintain" (u_health_goal user);
                 a_dish_name := Main.verified_text request;
                 a_total_calories := calories n;
                 a_remaining_calories := PyFloat (g - nt) |}).
  destruct (selected_answer_available P (w_env w) (trace_at_advisor req w1) req Hadv)
    as [content Hcontent].
  assert (Hs : advisor_outcome P (Council.advisor_agent council) req w1
               = inr (PyStr.strip content)).
  { rewrite (council_advisor_outcome P w council req w1 Hc), Hcontent. reflexivity. }
  assert (Hpm : Council.process_meal P council (Main.verified_text request)
                  (profile_of user) (PyFloat c) w
                = (inr {| r_nutrition := n; r_ai_advice := PyStr.strip content |},
                   after_advisor req (inr (PyStr.strip content)) w1)).
  { rewrite process_meal_run. cbv zeta. rewrite Hout, Hadd. simpl default. rewrite Hsub.
    cbv zeta. fold w1. fold req. now rewrite Hs. }
  pose proof (NutritionData_response n Hn1 Hn2 Hn3 Hn4) as Hok.
  assert (Hins : forall t,
            insert_error P (meal_logs d)
              (meal_log_of oid request
                 {| r_nutrition := n; r_ai_advice := PyStr.strip content |} t) = None).
  { intros t. apply Hwrite; [reflexivity|reflexivity|].
    exact (nutrition_dict_well_stored oid request
             {| r_nutrition := n; r_ai_advice := PyStr.strip content |} t Hn1 Hn2 Hn3 Hn4). }
  rewrite log_meal_run. cbv zeta. rewrite Hdb, Hoid, Huser.
  fold today. rewrite Htot, Hc, Hpm. simpl fst. simpl snd. simpl r_nutrition.
  rewrite Hins, Hok.
  exists n, c, nt, content. eexists. eexists.
  split; [exact Hsum|]. split; [exact Hc1|]. split; [exact Hadd|].
  split; [exact Hcontent|].
  split; [reflexivity|]. split; [reflexivity|].
  split; [reflexivity|]. split; [reflexivity|]. split; [reflexivity|].
  split; [reflexivity|]. split.
  - eexists. split; [reflexivity|]. repeat split; reflexivity.
  - unfold insert_meal. simpl meal_logs. apply Forall_app. split; [exact Hstored|].
    constructor; [|constructor].
    apply nutrition_dict_well_stored; assumption.
Qed.

(** The end-to-end scenario of the specification; and, with a store
    that refuses what BSON cannot encode, a provider whose one item has
    no carbohydrates member: the step's summary holds the integer [0]
    for them, the response the float [0.0]. *)
Lemma log_meal_succeeds_witness :
  (exists resp,
     fst (Main.log_meal Scenario.P_ok Scenario.request0 Scenario.w0) = inr resp /\
     Main.lm_nutrition resp
     = {| calories := PyFloat 350.0; protein := PyFloat 40.0;
          carbs := PyFloat 10.0; fats := PyFloat 12.0 |} /\
     Main.ai_advice resp = "Eat light tonight.") /\
  (exists resp,
     summarise [Cases.bare_item]
     = inr {| calories := PyFloat 200.0; protein := PyFloat 35.0;
              carbs := PyInt 0; fats := PyFloat 10.0 |} /\
     fst (Main.log_meal (Cases.with_bson_store Cases.P_bare) Scenario.request0 Scenario.w0)
     = inr resp /\
     Main.lm_nutrition resp
     = {| calories := PyFloat 200.0; protein := PyFloat 35.0;
          carbs := PyFloat 0; fats := PyFloat 10.0 |}).
Proof.
  split.
  - destruct (log_meal_succeeds Scenario.P_ok Scenario.request0 Scenario.w0
                {| users := {[ Scenario.uid := Scenario.user0 ]}; meal_logs := [] |}
                Scenario.uid Scenario.user0 2000.0%float "c-key"
                {| status_code := 200; text := "";
                   json := inr (Some Scenario.fish_and_salad) |}
                Scenario.fish_and_salad
                eq_refl eq_refl eq_refl eq_refl)
      as [n [c [nt [content [resp [d' [Hsum [_ [_ [Hcontent [Hrun [_ [Hn [Hadv _]]]]]]]]]]]]]].
    { constructor. }
    { vm_compute. reflexivity. }
    { reflexivity. }
    { reflexivity. }
    { reflexivity. }
    { reflexivity. }
    { discriminate. }
    { constructor; [|constructor; [|constructor]];
        intros key v [<-|[<-|[<-|[<-|[]]]]] Hv;
        vm_compute in Hv; injection Hv as <-; split; reflexivity. }
    { split; intros; eexists; reflexivity. }
    { intros doc _ _ _. reflexivity. }
    exists resp. split; [exact Hrun|].
    assert (Hn' : n = {| calories := PyFloat 350.0; protein := PyFloat 40.0;
                         carbs := PyFloat 10.0; fats := PyFloat 12.0 |}).
    { vm_compute in Hsum. now injection Hsum as <-. }
    subst n. split; [rewrite Hn; reflexivity|].
    rewrite Hadv. cbv zeta in Hcontent. injection Hcontent as <-.
    vm_compute. reflexivity.
  - destruct (log_meal_succeeds (Cases.with_bson_store Cases.P_bare) Scenario.request0
                Scenario.w0
                {| users := {[ Scenario.uid := Scenario.user0 ]}; meal_logs := [] |}
                Scenario.uid Scenario.user0 2000.0%float "c-key"
                {| status_code := 200; text := "";
                   json := inr (Some [Cases.bare_item]) |}
                [Cases.bare_item]
                eq_refl eq_refl eq_refl eq_refl)
      as [n [c [nt [content [resp [d' [Hsum [_ [_ [_ [Hrun [_ [Hn _]]]]]]]]]]]]].
    { constructor. }
    { vm_compute. reflexivity. }
    { reflexivity. }
    { reflexivity. }
    { reflexivity. }
    { reflexivity. }
    { discriminate. }
    { constructor; [|constructor].
      intros key v [<-|[<-|[<-|[<-|[]]]]] Hv;
        vm_compute in Hv; try discriminate; injection Hv as <-; split; reflexivity. }
    { split; intros; eexists; reflexivity. }
    { intros doc _ _ Hdoc. exact (bson_accepts_well_stored doc Hdoc). }
    assert (Hn' : n = {| calories := PyFloat 200.0; protein := PyFloat 35.0;
                         carbs := PyInt 0; fats := PyFloat 10.0 |}).
    { vm_compute in Hsum. now injection Hsum as <-. }
    subst n. exists resp. split; [vm_compute; reflexivity|].
    split; [exact Hrun|]. rewrite Hn. reflexivity.
Defined.

(** ** The failures of the Nutrition Step *)

Lemma contains_app needle a b :
  PyStr.contains needle b = true -> PyStr.contains needle (a +:+ b) = true.
Proof.
  intros H. induction a as [|c a IH]; simpl; [exact H|].
  rewrite IH. apply orb_true_r.
Qed.

Lemma prefix_app p x : String.prefix p (p +:+ x) = true.
Proof.
  induction p as [|c p IH]; simpl.
  - now destruct x.
  - destruct (Ascii.ascii_dec c c) as [_|Hne]; [exact IH|contradiction].
Qed.

(** X10. The Nutrition Step tells its failures apart by their text. An
    exception it raises either holds the text "No food items
    recognized", and then it is the exception that was caught, passed on
    as it is, or it is a plain [Exception] whose text is the timeout
    message or begins with "Nutrition calculation failed: ". So an
    answer with another status than 200 whose body holds that text is
    passed on as "CalorieNinjas API error: ..." without the "Nutrition
    calculation failed: " in front, like the error for no items. *)
Theorem nutrition_failures_by_text
    (P : providers) (self : Council.NutritionCalculator) (q : string) (w : world) :
  let answer := nutrition_api P (trace_at_nutrition q w) (Council.n_api_key self) q in
  (forall e,
     nutrition_outcome P self q w = inl e ->
     PyStr.contains marker (str_exn e) = true \/
     e = PyExc Exception Council.timeout_message \/
     exists msg, e = PyExc Exception msg /\
                 PyStr.startswith msg "Nutrition calculation failed: " = true) /\
  (forall response,
     answer = inr response ->
     status_code response <> 200 ->
     PyStr.contains marker (text response) = true ->
     nutrition_outcome P self q w
     = inl (PyExc Exception
              ("CalorieNinjas API error: " +:+ pretty (status_code response)
               +:+ " - " +:+ text response))) /\
  (forall response,
     answer = inr response ->
     status_code response <> 200 ->
     PyStr.contains marker
       ("CalorieNinjas API error: " +:+ pretty (status_code response)
        +:+ " - " +:+ text response) = false ->
     nutrition_outcome P self q w
     = inl (PyExc Exception
              ("Nutrition calculation failed: CalorieNinjas API error: "
               +:+ pretty (status_code response) +:+ " - " +:+ text response))).
Proof.
  cbv zeta. split; [|split].
  - intros e. rewrite nutrition_outcome_eq.
    assert (Hfail : forall e0,
              inl (nutrition_failure e0) = @inl exn nutrition e ->
              PyStr.contains marker (str_exn e) = true \/
              e = PyExc Exception Council.timeout_message \/
              exists msg, e = PyExc Exception msg /\
                          PyStr.startswith msg "Nutrition calculation failed: " = true).
    { intros e0 H. injection H as <-. unfold nutrition_failure.
      destruct (is_timeout e0); [right; left; reflexivity|].
      fold marker. destruct (PyStr.contains marker (str_exn e0)) eqn:Hm; [now left|].
      right. right. eexists. split; [reflexivity|]. apply prefix_app. }
    destruct (nutrition_api P _ _ q) as [e0|response]; [apply Hfail|].
    destruct (negb (status_code response =? 200)); [apply Hfail|].
    destruct (json response) as [e0|data]; [apply Hfail|].
    destruct (default [] data) as [|it its]; [apply Hfail|].
    destruct (summarise (it :: its)) as [e0|n]; [apply Hfail|discriminate].
  - intros response Hans Hstatus Hbody. rewrite nutrition_outcome_eq, Hans.
    destruct (status_code response =? 200) eqn:Heq; [apply Z.eqb_eq in Heq; contradiction|].
    cbn [negb]. unfold nutrition_failure. cbn [is_timeout str_exn]. fold marker.
    assert (Hfull : PyStr.contains marker
                      ("CalorieNinjas API error: " +:+ pretty (status_code response)
                       +:+ " - " +:+ text response) = true)
      by (do 3 apply contains_app; exact Hbody).
    now rewrite Hfull.
  - intros response Hans Hstatus Hno. rewrite nutrition_outcome_eq, Hans.
    destruct (status_code response =? 200) eqn:Heq; [apply Z.eqb_eq in Heq; contradiction|].
    cbn [negb]. unfold nutrition_failure. cbn [is_timeout str_exn]. fold marker.
    now rewrite Hno.
Qed.

(** A gateway error that quotes the text is passed on unwrapped. *)
Lemma nutrition_failures_by_text_witness :
  nutrition_outcome Cases.P_quoting Scenario.nc "hlalem" Scenario.w0
  = inl (PyExc Exception "CalorieNinjas API error: 502 - upstream: No food items recognized").
Proof.
  destruct (nutrition_failures_by_text Cases.P_quoting Scenario.nc "hlalem" Scenario.w0)
    as [_ [H _]].
  apply (H {| status_code := 502; text := "upstream: No food items recognized";
              json := inl (PyExc ProviderError
                             "Expecting value: line 1 column 1 (char 0)") |}).
  - reflexivity.
  - discriminate.
  - vm_compute. reflexivity.
Defined.

(** ** Texts without surrounding whitespace *)

Lemma drop_spaces_fixed sp2 sp3 l :
  space_ahead sp2 sp3 l = false -> PyStr.drop_spaces sp2 sp3 l = l.
Proof.
  destruct l as [|a [|b [|c l]]]; simpl; try reflexivity.
  - now destruct (PyStr.is_space a).
  - destruct (PyStr.is_space a); [discriminate|]. now destruct (sp2 a b).
  - destruct (PyStr.is_space a); [discriminate|]. destruct (sp2 a b); [discriminate|].
    now destruct (sp3 a b c).
Qed.

Lemma drop_spaces_spec sp2 sp3 n : forall l,
  (length l <= n)%nat ->
  space_ahead sp2 sp3 (PyStr.drop_spaces sp2 sp3 l) = false /\
  exists p, l = p ++ PyStr.drop_spaces sp2 sp3 l.
Proof.
  induction n as [|n IH]; intros l Hn.
  - destruct l; [|simpl in Hn; lia]. split; [reflexivity|]. now exists [].
  - destruct l as [|a l1]; [split; [reflexivity|now exists []]|].
    simpl in Hn. simpl PyStr.drop_spaces.
    destruct (PyStr.is_space a) eqn:Ha.
    { destruct (IH l1 ltac:(lia)) as [H1 [p Hp]]. split; [exact H1|].
      exists (a :: p). simpl. now rewrite <- Hp. }
    destruct l1 as [|b l2].
    { split; [simpl; now rewrite Ha|now exists []]. }
    simpl in Hn. destruct (sp2 a b) eqn:Hb.
    { destruct (IH l2 ltac:(lia)) as [H1 [p Hp]]. split; [exact H1|].
      exists (a :: b :: p). simpl. now rewrite <- Hp. }
    destruct l2 as [|c l3].
    { split; [simpl; now rewrite Ha, Hb|now exists []]. }
    simpl in Hn. destruct (sp3 a b c) eqn:Hc.
    { destruct (IH l3 ltac:(lia)) as [H1 [p Hp]]. split; [exact H1|].
      exists (a :: b :: c :: p). simpl. now rewrite <- Hp. }
    split; [simpl; now rewrite Ha, Hb, Hc|now exists []].
Qed.

Lemma drop_spaces_ahead sp2 sp3 l :
  space_ahead sp2 sp3 (PyStr.drop_spaces sp2 sp3 l) = false.
Proof. exact (proj1 (drop_spaces_spec sp2 sp3 (length l) l (le_n _))). Qed.

Lemma drop_spaces_suffix sp2 sp3 l : exists p, l = p ++ PyStr.drop_spaces sp2 sp3 l.
Proof. exact (proj2 (drop_spaces_spec sp2 sp3 (length l) l (le_n _))). Qed.

(** A whitespace character at the front of a prefix is at the front of
    the whole. *)
Lemma space_ahead_app sp2 sp3 l q :
  space_ahead sp2 sp3 (l ++ q) = false -> space_ahead sp2 sp3 l = false.
Proof.
  destruct l as [|a [|b [|c l]]]; simpl; try reflexivity.
  - destruct (PyStr.is_space a); [now destruct q|reflexivity].
  - destruct (PyStr.is_space a); [discriminate|]. simpl.
    destruct (sp2 a b); [discriminate|]. reflexivity.
  - auto.
Qed.

Lemma starts_with_space_of_list l :
  starts_with_space (string_of_list_ascii l)
  = match l with [] => false | a :: _ => PyStr.is_space a end.
Proof. now destruct l. Qed.

Lemma ends_with_space_of_list l :
  ends_with_space (string_of_list_ascii l)
  = match rev l with [] => false | a :: _ => PyStr.is_space a end.
Proof.
  induction l as [|a l IH]; [reflexivity|].
  simpl string_of_list_ascii. simpl rev.
  destruct l as [|b l]; [reflexivity|].
  change (ends_with_space (String a (string_of_list_ascii (b :: l))))
    with (ends_with_space (string_of_list_ascii (b :: l))).
  rewrite IH. simpl rev. destruct (rev l ++ [b]) eqn:Hr; [|reflexivity].
  destruct (rev l); discriminate.
Qed.

Lemma space_ahead_head sp2 sp3 l :
  space_ahead sp2 sp3 l = false ->
  match l with [] => false | a :: _ => PyStr.is_space a end = false.
Proof.
  destruct l as [|a l]; [reflexivity|]. simpl.
  now destruct (PyStr.is_space a).
Qed.

(** What [str.strip] returns has no whitespace at either end, and
    stripping it again changes nothing. *)
Lemma strip_trimmed s :
  starts_with_space (PyStr.strip s) = false /\
  ends_with_space (PyStr.strip s) = false /\
  PyStr.strip (PyStr.strip s) = PyStr.strip s.
Proof.
  unfold PyStr.strip, PyStr.rstrip, PyStr.lstrip.
  rewrite !list_ascii_of_string_of_list_ascii.
  set (sp2' := fun b a => PyStr.is_space2 a b).
  set (sp3' := fun c b a => PyStr.is_space3 a b c).
  set (t := PyStr.drop_spaces PyStr.is_space2 PyStr.is_space3 (list_ascii_of_string s)).
  set (u := PyStr.drop_spaces sp2' sp3' (rev t)).
  assert (Ht : space_ahead PyStr.is_space2 PyStr.is_space3 t = false)
    by apply drop_spaces_ahead.
  assert (Hu : space_ahead sp2' sp3' u = false) by apply drop_spaces_ahead.
  destruct (drop_spaces_suffix sp2' sp3' (rev t)) as [p Hp]. fold u in Hp.
  assert (Hpre : t = rev u ++ rev p).
  { rewrite <- rev_app_distr, <- Hp. symmetry. apply rev_involutive. }
  assert (Hfront : space_ahead PyStr.is_space2 PyStr.is_space3 (rev u) = false).
  { apply (space_ahead_app _ _ _ (rev p)). now rewrite <- Hpre. }
  split; [|split].
  - rewrite starts_with_space_of_list. exact (space_ahead_head _ _ _ Hfront).
  - rewrite ends_with_space_of_list, rev_involutive. exact (space_ahead_head _ _ _ Hu).
  - rewrite (drop_spaces_fixed _ _ _ Hfront), rev_involutive.
    now rewrite (drop_spaces_fixed _ _ _ Hu).
Qed.

(** X11. The texts the pipeline returns have no whitespace (tab, line
    feed, vertical tab, form feed, carriage return, the four separators
    28 to 31, space) at either end, and stripping them again changes
    nothing: the description of the Vision Step and of [POST /analyze],
    and the advice of the Advisor Step, which is the advice
    [process_meal] returns. *)
Theorem returned_texts_are_stripped (P : providers) (w : world) :
  (forall self image_bytes s,
     fst (Council.VisionAgent_analyze_image P self image_bytes w) = inr s ->
     starts_with_space s = false /\ ends_with_space s = false /\ PyStr.strip s = s) /\
  (forall image resp,
     fst (Main.analyze_image P image w) = inr resp ->
     starts_with_space (Main.detected_text resp) = false /\
     ends_with_space (Main.detected_text resp) = false) /\
  (forall self health_goal dish_name total_calories remaining_calories s,
     fst (Council.generate_advice P self health_goal dish_name total_calories
            remaining_calories w) = inr s ->
     starts_with_space s = false /\ ends_with_space s = false /\ PyStr.strip s = s) /\
  (forall self text profile total res,
     fst (Council.process_meal P self text profile total w) = inr res ->
     starts_with_space (r_ai_advice res) = false /\
     ends_with_space (r_ai_advice res) = false).
Proof.
  assert (Hvision : forall self image_bytes w0 s,
            vision_outcome P self image_bytes w0 = inr s ->
            starts_with_space s = false /\ ends_with_space s = false /\ PyStr.strip s = s).
  { intros self image_bytes w0 s. unfold vision_outcome, description_of.
    destruct (vision_api P _ _ _) as [e|content]; [discriminate|].
    intros H. injection H as <-. apply strip_trimmed. }
  assert (Hadvice : forall self req w0 s,
            advisor_outcome P self req w0 = inr s ->
            starts_with_space s = false /\ ends_with_space s = false /\ PyStr.strip s = s).
  { intros self req w0 s. rewrite advisor_outcome_eq. unfold advice_of.
    destruct (if String.eqb _ _ then _ else _) as [e|content]; [discriminate|].
    intros H. injection H as <-. apply strip_trimmed. }
  split; [|split; [|split]].
  - intros self image_bytes s. rewrite vision_run. apply Hvision.
  - intros image resp. rewrite analyze_image_run. cbv zeta.
    destruct (Main.content_type image) as [ct|]; [|discriminate].
    destruct (negb (PyStr.startswith ct "image/")); [discriminate|].
    destruct (10 * 1024 * 1024 <? _); [discriminate|].
    destruct (fst (Council.get_ai_council w)) as [e|council]; [discriminate|].
    destruct (vision_outcome P _ _ w) as [e|s] eqn:Hs; [discriminate|].
    intros H. injection H as <-. simpl.
    destruct (Hvision _ _ _ _ Hs) as [H1 [H2 _]]. now split.
  - intros self health_goal dish_name total_calories remaining_calories s.
    apply (Hadvice self {| a_health_goal := health_goal; a_dish_name := dish_name;
                           a_total_calories := total_calories;
                           a_remaining_calories := remaining_calories |}).
  - intros self text profile total res. rewrite process_meal_run. cbv zeta.
    destruct (nutrition_outcome P _ text w) as [e|n]; [discriminate|].
    destruct (PyNum.add total (calories n)) as [e|new_total]; [discriminate|].
    destruct (PyNum.sub _ new_total) as [e|rest]; [discriminate|].
    cbv zeta. simpl fst.
    destruct (advisor_outcome P _ _ _) as [e|advice] eqn:Ha; [discriminate|].
    intros H. injection H as <-. simpl.
    destruct (Hadvice _ _ _ _ Ha) as [H1 [H2 _]]. now split.
Qed.

(** ** Only the four macro-nutrients count *)

Lemma sum_field_same_macros key items items' :
  In key macro_fields -> Forall2 same_macros items items' ->
  Council.sum_field key items = Council.sum_field key items'.
Proof.
  intros Hkey Hsame. unfold Council.sum_field. f_equal.
  induction Hsame as [|a b items items' Hab _ IH]; simpl; [reflexivity|].
  now rewrite (Hab key Hkey), IH.
Qed.

(** X12. The Nutrition Step reads four members of every item and
    nothing else, and takes a missing one for the integer 0: two
    answers with status 200 whose items agree, one by one, on these
    four values give the same result, whatever else the items hold
    (serving sizes, other nutrients). *)
Theorem only_the_macros_count
    (P P' : providers) (self : Council.NutritionCalculator) (q : string) (w w' : world)
    (response response' : http_response) (items items' : list item) :
  nutrition_api P (trace_at_nutrition q w) (Council.n_api_key self) q = inr response ->
  nutrition_api P' (trace_at_nutrition q w') (Council.n_api_key self) q = inr response' ->
  status_code response = 200 -> status_code response' = 200 ->
  json response = inr (Some items) -> json response' = inr (Some items') ->
  Forall2 same_macros items items' ->
  nutrition_outcome P self q w = nutrition_outcome P' self q w'.
Proof.
  intros Hr Hr' Hs Hs' Hj Hj' Hsame.
  rewrite !nutrition_outcome_eq, Hr, Hr', Hs, Hs', Hj, Hj'. simpl.
  assert (Hsum : summarise items = summarise items').
  { unfold summarise.
    rewrite (sum_field_same_macros "calories" items items'),
      (sum_field_same_macros "protein_g" items items'),
      (sum_field_same_macros "carbohydrates_total_g" items items'),
      (sum_field_same_macros "fat_total_g" items items'); simpl; tauto. }
  destruct Hsame as [|a b items items' Hab Hrest]; [reflexivity|].
  now rewrite Hsum.
Qed.

(** An item with a serving size and sugars gives the summary of the
    same item without them. *)
Lemma only_the_macros_count_witness :
  nutrition_outcome Cases.P_rich Scenario.nc "tuna" Scenario.w0
  = nutrition_outcome Cases.P_bare Scenario.nc "tuna" Scenario.w0 /\
  nutrition_outcome Cases.P_bare Scenario.nc "tuna" Scenario.w0
  = inr {| calories := PyFloat 200.0; protein := PyFloat 35.0;
           carbs := PyInt 0; fats := PyFloat 10.0 |}.
Proof.
  split; [|vm_compute; reflexivity].
  apply (only_the_macros_count Cases.P_rich Cases.P_bare Scenario.nc "tuna"
           Scenario.w0 Scenario.w0
           {| status_code := 200; text := ""; json := inr (Some [Cases.rich_item]) |}
           {| status_code := 200; text := ""; json := inr (Some [Cases.bare_item]) |}
           [Cases.rich_item] [Cases.bare_item]); try reflexivity.
  constructor; [|constructor].
  intros key [<-|[<-|[<-|[<-|[]]]]]; vm_compute; reflexivity.
Defined.

(** ** The pipeline writes nothing *)

(** X13. The steps and the orchestrator never touch the database or the
    environment: after [calculate_nutrition], [generate_advice] and
    [process_meal] both are what they were, whatever the providers
    answered, and the trace has grown by the entry and the exit of the
    steps that ran: two events for a step, two or four for
    [process_meal]. Persisting is left to the caller. *)
Theorem pipeline_writes_nothing (P : providers) (w : world) :
  (forall self q,
     let run := Council.calculate_nutrition P self q w in
     w_db (snd run) = w_db w /\ w_env (snd run) = w_env w /\
     w_trace (snd run) = w_trace w ++ [NutritionBegin q; NutritionEnd (fst run)]) /\
  (forall self health_goal dish_name total_calories remaining_calories,
     let run := Council.generate_advice P self health_goal dish_name total_calories
                  remaining_calories w in
     w_db (snd run) = w_db w /\ w_env (snd run) = w_env w /\
     w_trace (snd run)
     = w_trace w ++ [AdvisorBegin {| a_health_goal := health_goal;
                                     a_dish_name := dish_name;
                                     a_total_calories := total_calories;
                                     a_remaining_calories := remaining_calories |};
                     AdvisorEnd (fst run)]) /\
  (forall self text profile total,
     let run := Council.process_meal P self text profile total w in
     w_db (snd run) = w_db w /\ w_env (snd run) = w_env w /\
     exists evs,
       w_trace (snd run) = w_trace w ++ evs /\
       (length evs = 2%nat \/ length evs = 4%nat)).
Proof.
  split; [|split].
  - intros self q. cbv zeta. rewrite calculate_nutrition_run. simpl.
    split; [reflexivity|]. split; [reflexivity|]. now rewrite <- app_assoc.
  - intros self health_goal dish_name total_calories remaining_calories. cbv zeta.
    rewrite generate_advice_run. simpl.
    split; [reflexivity|]. split; [reflexivity|]. now rewrite <- app_assoc.
  - intros self text profile total. cbv zeta.
    destruct (process_meal_keeps_store P self text profile total w) as [Hdb Henv].
    split; [exact Hdb|]. split; [exact Henv|].
    rewrite process_meal_run. cbv zeta.
    destruct (nutrition_outcome P _ text w) as [e|n].
    { eexists. split; [simpl; rewrite <- app_assoc; reflexivity|]. now left. }
    destruct (PyNum.add total (calories n)) as [e|new_total].
    { eexists. split; [simpl; rewrite <- app_assoc; reflexivity|]. now left. }
    destruct (PyNum.sub _ new_total) as [e|rest].
    { eexists. split; [simpl; rewrite <- app_assoc; reflexivity|]. now left. }
    cbv zeta. eexists. split; [simpl; rewrite <- !app_assoc; reflexivity|]. now right.
Qed.

(** ** The connection to the database (database.py) *)

(** X14. What [connect_to_mongo] leaves behind. When the client cannot
    be made the globals are what they were. When the client is made and
    the database is taken from it, the globals are set before the
    server is pinged: if the ping fails [connect_to_mongo] raises the
    exception of the ping, and [get_database] nevertheless returns the
    handle of the new client from then on instead of raising
    [RuntimeError]. The URI and the name are those of the environment,
    "mongodb://localhost:27017" and "nutrisnap_db" when it has none. *)
Theorem connect_sets_database_before_ping (drv : Database.driver) (s : Database.state) :
  let uri := mongo_uri (Database.environ s) in
  let name := database_name (Database.environ s) in
  let run := Database.connect_to_mongo drv s in
  (forall e,
     Database.client_error drv uri = Some e ->
     fst run = inl e /\
     Database._client (snd run) = Database._client s /\
     Database._database (snd run) = Database._database s /\
     Database.heap (snd run) = Database.heap s) /\
  (Database.client_error drv uri = None ->
   Database.database_error drv name = None ->
   fst run = match Database.ping_error drv uri (Database.pings s) with
             | Some e => inl e
             | None => inr tt
             end /\
   Database.get_database (snd run)
   = inr {| Database.of_client := length (Database.heap s); Database.name := name |} /\
   Database._client (snd run) = Some (length (Database.heap s)) /\
   Database.heap (snd run)
   = Database.heap s ++ [{| Database.uri := uri; Database.closed := false |}]).
Proof.
  cbv zeta. unfold Database.connect_to_mongo, mongo_uri, database_name. split.
  - intros e ->. repeat split; reflexivity.
  - intros -> ->.
    destruct (Database.ping_error drv _ (Database.pings s)); repeat split; reflexivity.
Qed.

(** A server that does not answer the ping: [connect_to_mongo] raises,
    and [get_database] returns a handle. *)
Lemma connect_sets_database_before_ping_witness :
  let drv := {| Database.client_error := fun _ => None;
                Database.database_error := fun _ => None;
                Database.ping_error :=
                  fun _ _ => Some (PyExc ProviderError "localhost:27017: timed out") |} in
  let run := Database.connect_to_mongo drv (imported ∅) in
  fst run = inl (PyExc ProviderError "localhost:27017: timed out") /\
  Database.get_database (imported ∅)
  = inl (PyExc RuntimeError
           "Database not connected. Ensure connect_to_mongo() was called during startup.") /\
  Database.get_database (snd run)
  = inr {| Database.of_client := 0; Database.name := "nutrisnap_db" |}.
Proof.
  cbv zeta.
  destruct (connect_sets_database_before_ping
              {| Database.client_error := fun _ => None;
                 Database.database_error := fun _ => None;
                 Database.ping_error :=
                   fun _ _ => Some (PyExc ProviderError "localhost:27017: timed out") |}
              (imported ∅)) as [_ H].
  destruct (H eq_refl eq_refl) as [H1 [H2 _]].
  split; [exact H1|]. split; [reflexivity|exact H2].
Defined.

Lemma get_database_after_call c s db :
  Database.get_database s = inr db ->
  exists db', Database.get_database (after_call c s) = inr db'.
Proof.
  unfold Database.get_database.
  destruct (Database._database s) as [db0|] eqn:Hdb; [|discriminate]. intros _.
  assert (Hconnect : forall drv s0,
            Database._database s0 = Some db0 ->
            exists db1, Database._database (snd (Database.connect_to_mongo drv s0)) = Some db1).
  { intros drv s0 H0. unfold Database.connect_to_mongo.
    destruct (Database.client_error drv _); [simpl; rewrite H0; eauto|].
    destruct (Database.database_error drv _); [simpl; rewrite H0; eauto|].
    destruct (Database.ping_error drv _ _); simpl; eauto. }
  assert (Hclose : forall s0,
            Database._database s0 = Some db0 ->
            Database._database (snd (Database.close_mongo_connection s0)) = Some db0).
  { intros s0 H0. unfold Database.close_mongo_connection.
    destruct (Database._client s0); simpl; exact H0. }
  destruct c as [drv| |drv|]; simpl.
  - destruct (Hconnect drv s Hdb) as [db1 ->]. eauto.
  - rewrite (Hclose s Hdb). eauto.
  - unfold Database.lifespan_startup.
    destruct (Hconnect drv (Database.print "🚀 NutriSnap Backend Starting..." s) Hdb)
      as [db1 ->].
    eauto.
  - unfold Database.lifespan_shutdown.
    rewrite (Hclose (Database.print "🛑 NutriSnap Backend Shutting Down..." s) Hdb). eauto.
Qed.

(** X15. Nothing unsets the database. Once [get_database] has returned
    a handle it returns one, and the two collection accessors return
    its [users] and [meal_logs] collections, after every further
    sequence of [connect_to_mongo], [close_mongo_connection] and of the
    startup and the shutdown of the application's lifespan, whatever the
    driver does. In particular after a connection that succeeded and
    was closed, [get_database] does not raise: it returns the handle
    taken from the client that is now closed. *)
Theorem database_is_never_unset (s : Database.state) :
  (forall db cs,
     Database.get_database s = inr db ->
     exists db',
       Database.get_database (after_calls cs s) = inr db' /\
       Database.get_users_collection (after_calls cs s)
       = inr {| Database.of_database := db'; Database.collection := "users" |} /\
       Database.get_meal_logs_collection (after_calls cs s)
       = inr {| Database.of_database := db'; Database.collection := "meal_logs" |}) /\
  (forall drv,
     fst (Database.connect_to_mongo drv s) = inr tt ->
     let s' := after_calls [Connect drv; Close] s in
     exists db,
       Database.get_database s' = inr db /\
       Database.name db = database_name (Database.environ s) /\
       on_closed_client s' db).
Proof.
  split.
  - intros db cs. revert s db. induction cs as [|c cs IH]; intros s db Hdb.
    + simpl. exists db. unfold Database.get_users_collection,
        Database.get_meal_logs_collection. rewrite Hdb. repeat split; reflexivity.
    + simpl. destruct (get_database_after_call c s db Hdb) as [db' Hdb'].
      exact (IH _ _ Hdb').
  - intros drv. unfold after_calls. simpl fold_left. unfold after_call.
    unfold Database.connect_to_mongo, database_name.
    destruct (Database.client_error drv _); [discriminate|].
    destruct (Database.database_error drv _); [discriminate|].
    destruct (Database.ping_error drv _ _); [discriminate|].
    intros _. cbv zeta. simpl.
    eexists. split; [reflexivity|]. split; [reflexivity|].
    unfold on_closed_client. simpl.
    exists {| Database.uri := default "mongodb://localhost:27017"
                                (Database.environ s !! "MONGO_URI");
              Database.closed := true |}.
    split; [|reflexivity].
    rewrite list_lookup_alter_eq, (list_lookup_middle _ _ _ _ eq_refl). reflexivity.
Qed.

(** A lifespan that starts and shuts down: the module still hands out
    the database, on a closed client. *)
Lemma database_is_never_unset_witness :
  let drv := {| Database.client_error := fun _ => None;
                Database.database_error := fun _ => None;
                Database.ping_error := fun _ _ => None |} in
  exists db,
    Database.get_database (after_calls [Startup drv; Shutdown] (imported ∅)) = inr db /\
    Database.get_database (after_calls [Connect drv; Close] (imported ∅)) = inr db /\
    on_closed_client (after_calls [Connect drv; Close] (imported ∅)) db.
Proof.
  cbv zeta.
  destruct (database_is_never_unset (imported ∅)) as [_ H].
  destruct (H {| Database.client_error := fun _ => None;
                 Database.database_error := fun _ => None;
                 Database.ping_error := fun _ _ => None |} eq_refl)
    as [db [Hdb [_ Hclosed]]].
  exists db. split; [|split; assumption].
  rewrite <- Hdb. reflexivity.
Defined.

(** ** Seeding the database (seed_db.py) *)

Lemma find_app_new {A} (f : A -> bool) l x :
  List.find f l = None -> f x = true -> List.find f (l ++ [x]) = Some x.
Proof.
  intros Hnone Hx. induction l as [|a l IH]; simpl in *; [now rewrite Hx|].
  destruct (f a); [discriminate|]. now apply IH.
Qed.

(** [seed_database], case by case, as far as the collections and the
    clients go. *)
Lemma seed_database_run drv srv s :
  let uri := mongo_uri (Seed.environ s) in
  let name := database_name (Seed.environ s) in
  let run := Seed.seed_database drv srv s in
  let opened := Seed.heap s ++ [{| Database.uri := uri; Database.closed := false |}] in
  Seed.environ (snd run) = Seed.environ s /\
  match Database.client_error drv uri with
  | Some e => run = (inl e, s)
  | None =>
  match Database.database_error drv name with
  | Some e => fst run = inl e /\ Seed.users (snd run) = Seed.users s
  | None =>
  match Seed.operation_error srv (Seed.operations s) with
  | Some e => fst run = inl e /\ Seed.users (snd run) = Seed.users s
  | None =>
  match Seed.find_one Seed.is_test_user (seeded_collection s) with
  | Some existing =>
      fst run = inr tt /\ Seed.users (snd run) = Seed.users s /\
      Seed.heap (snd run) = opened
  | None =>
  match Seed.operation_error srv (S (Seed.operations s)) with
  | Some e => fst run = inl e /\ Seed.users (snd run) = Seed.users s
  | None =>
      fst run = inr tt /\
      Seed.users (snd run)
      = <[(uri, name) :=
            seeded_collection s
            ++ [(Seed.new_id srv (seeded_collection s), Seed.test_user)]]> (Seed.users s) /\
      Seed.heap (snd run)
      = Seed.heap s ++ [{| Database.uri := uri; Database.closed := true |}]
  end end end end end.
Proof.
  cbv zeta. unfold Seed.seed_database, seeded_collection, mongo_uri, database_name.
  destruct (Database.client_error drv _); [split; reflexivity|].
  destruct (Database.database_error drv _); [repeat split; reflexivity|].
  destruct (Seed.operation_error srv (Seed.operations s)); [repeat split; reflexivity|].
  destruct (Seed.find_one Seed.is_test_user _); [repeat split; reflexivity|].
  simpl Seed.operations.
  destruct (Seed.operation_error srv (S (Seed.operations s))); [repeat split; reflexivity|].
  split; [reflexivity|]. split; [reflexivity|]. split; [reflexivity|].
  simpl. rewrite alter_app_r_alt by reflexivity. now rewrite Nat.sub_diag.
Qed.

Lemma seeded_collection_same s s' :
  Seed.environ s' = Seed.environ s -> Seed.users s' = Seed.users s ->
  seeded_collection s' = seeded_collection s.
Proof. unfold seeded_collection. now intros -> ->. Qed.

Lemma seeded_collection_inserted s s' docs :
  Seed.environ s' = Seed.environ s ->
  Seed.users s'
  = <[(mongo_uri (Seed.environ s), database_name (Seed.environ s)) := docs]> (Seed.users s) ->
  seeded_collection s' = docs.
Proof.
  unfold seeded_collection. intros -> ->. now rewrite lookup_insert_eq.
Qed.

Lemma test_user_matches id : Seed.is_test_user (id, Seed.test_user) = true.
Proof. reflexivity. Qed.

(** After a run that returned, the collection holds a test user. *)
Lemma seeded_after_return drv srv s :
  fst (Seed.seed_database drv srv s) = inr tt ->
  exists user,
    Seed.find_one Seed.is_test_user (seeded_collection (snd (Seed.seed_database drv srv s)))
    = Some user.
Proof.
  destruct (seed_database_run drv srv s) as [Henv Hrun]. cbv zeta in Hrun.
  destruct (Database.client_error drv _); [rewrite Hrun; discriminate|].
  destruct (Database.database_error drv _); [destruct Hrun as [-> _]; discriminate|].
  destruct (Seed.operation_error srv (Seed.operations s));
    [destruct Hrun as [-> _]; discriminate|].
  destruct (Seed.find_one Seed.is_test_user (seeded_collection s)) as [existing|] eqn:Hfind.
  - destruct Hrun as [_ [Husers _]]. intros _.
    rewrite (seeded_collection_same _ _ Henv Husers). eauto.
  - destruct (Seed.operation_error srv (S (Seed.operations s)));
      [destruct Hrun as [-> _]; discriminate|].
    destruct Hrun as [_ [Husers _]]. intros _.
    rewrite (seeded_collection_inserted _ _ _ Henv Husers).
    eexists. apply find_app_new; [exact Hfind|apply test_user_matches].
Qed.

(** X16. [seed_database] adds at most one document and touches nothing
    else. The collections of other databases are what they were; the
    [users] collection of the database the environment names keeps its
    documents, in their order, and gets at most the test user at its
    end: username "test_user", goal 2500, "gain_muscle", 175.0 cm,
    70.0 kg. When the collection already holds a document with that
    username nothing is written, whatever the other fields of that
    document are. After a run that returned, the collection holds a
    test user. *)
Theorem seeding_adds_at_most_one_user
    (drv : Database.driver) (srv : Seed.server) (s : Seed.state) :
  let run := Seed.seed_database drv srv s in
  let key := (mongo_uri (Seed.environ s), database_name (Seed.environ s)) in
  (forall k, k <> key -> Seed.users (snd run) !! k = Seed.users s !! k) /\
  (exists new,
     seeded_collection (snd run) = seeded_collection s ++ new /\
     (new = [] \/ new = [(Seed.new_id srv (seeded_collection s), Seed.test_user)])) /\
  (forall existing,
     Seed.find_one Seed.is_test_user (seeded_collection s) = Some existing ->
     Seed.users (snd run) = Seed.users s) /\
  (fst run = inr tt ->
   exists user, Seed.find_one Seed.is_test_user (seeded_collection (snd run)) = Some user).
Proof.
  cbv zeta. split; [|split; [|split]]; [| | |apply seeded_after_return].
  - intros k Hk.
    destruct (seed_database_run drv srv s) as [Henv Hrun]. cbv zeta in Hrun.
    destruct (Database.client_error drv _); [now rewrite Hrun|].
    destruct (Database.database_error drv _); [destruct Hrun as [_ ->]; reflexivity|].
    destruct (Seed.operation_error srv (Seed.operations s));
      [destruct Hrun as [_ ->]; reflexivity|].
    destruct (Seed.find_one Seed.is_test_user (seeded_collection s));
      [destruct Hrun as [_ [-> _]]; reflexivity|].
    destruct (Seed.operation_error srv (S (Seed.operations s)));
      [destruct Hrun as [_ ->]; reflexivity|].
    destruct Hrun as [_ [-> _]]. now rewrite lookup_insert_ne.
  - destruct (seed_database_run drv srv s) as [Henv Hrun]. cbv zeta in Hrun.
    assert (Hsame : Seed.users (snd (Seed.seed_database drv srv s)) = Seed.users s ->
                    exists new,
                      seeded_collection (snd (Seed.seed_database drv srv s))
                      = seeded_collection s ++ new /\
                      (new = [] \/
                       new = [(Seed.new_id srv (seeded_collection s), Seed.test_user)])).
    { intros Husers. exists []. rewrite (seeded_collection_same _ _ Henv Husers).
      split; [now rewrite app_nil_r|now left]. }
    destruct (Database.client_error drv _); [apply Hsame; now rewrite Hrun|].
    destruct (Database.database_error drv _); [apply Hsame, Hrun|].
    destruct (Seed.operation_error srv (Seed.operations s)); [apply Hsame, Hrun|].
    destruct (Seed.find_one Seed.is_test_user (seeded_collection s)); [apply Hsame, Hrun|].
    destruct (Seed.operation_error srv (S (Seed.operations s))); [apply Hsame, Hrun|].
    destruct Hrun as [_ [Husers _]].
    eexists. split; [exact (seeded_collection_inserted _ _ _ Henv Husers)|now right].
  - intros existing Hfind.
    destruct (seed_database_run drv srv s) as [_ Hrun]. cbv zeta in Hrun.
    rewrite Hfind in Hrun.
    destruct (Database.client_error drv _); [now rewrite Hrun|].
    destruct (Database.database_error drv _); [apply Hrun|].
    destruct (Seed.operation_error srv (Seed.operations s)); apply Hrun.
Qed.

(** X17. Seeding again changes nothing. After a run of [seed_database]
    that returned, a second run, whatever the driver and the server do
    then, leaves every collection as it is. And a run that finds the
    test user returns before [client.close()]: the client it made stays
    open. *)
Theorem seeding_again_changes_nothing
    (drv drv' : Database.driver) (srv srv' : Seed.server) (s : Seed.state) :
  fst (Seed.seed_database drv srv s) = inr tt ->
  let s1 := snd (Seed.seed_database drv srv s) in
  let again := Seed.seed_database drv' srv' s1 in
  Seed.users (snd again) = Seed.users s1 /\
  (fst again = inr tt ->
   Seed.heap (snd again)
   = Seed.heap s1 ++ [{| Database.uri := mongo_uri (Seed.environ s);
                         Database.closed := false |}]).
Proof.
  intros Hret. cbv zeta.
  destruct (seeded_after_return drv srv s Hret) as [user Hfind].
  destruct (seed_database_run drv srv s) as [Henv _].
  set (s1 := snd (Seed.seed_database drv srv s)) in *.
  destruct (seed_database_run drv' srv' s1) as [_ Hrun]. cbv zeta in Hrun.
  rewrite Hfind, Henv in Hrun.
  destruct (Database.client_error drv' _).
  { rewrite Hrun. split; [reflexivity|discriminate]. }
  destruct (Database.database_error drv' _).
  { destruct Hrun as [-> ->]. split; [reflexivity|discriminate]. }
  destruct (Seed.operation_error srv' (Seed.operations s1)).
  { destruct Hrun as [-> ->]. split; [reflexivity|discriminate]. }
  destruct Hrun as [_ [-> ->]]. split; reflexivity.
Qed.

(** An empty server is seeded with the identifier the server gives; the
    second run finds the user and leaves its client open. *)
Lemma seeding_again_changes_nothing_witness :
  let drv := {| Database.client_error := fun _ => None;
                Database.database_error := fun _ => None;
                Database.ping_error := fun _ _ => None |} in
  let srv := {| Seed.operation_error := fun _ => None;
                Seed.new_id := fun _ => "507f1f77bcf86cd799439011" |} in
  let s := {| Seed.users := ∅; Seed.heap := []; Seed.environ := ∅;
              Seed.stdout := []; Seed.operations := 0 |} in
  let s1 := snd (Seed.seed_database drv srv s) in
  let s2 := snd (Seed.seed_database drv srv s1) in
  Seed.users s1 !! ("mongodb://localhost:27017", "nutrisnap_db")
  = Some [("507f1f77bcf86cd799439011", Seed.test_user)] /\
  Seed.users s2 = Seed.users s1 /\
  Seed.heap s2
  = [ {| Database.uri := "mongodb://localhost:27017"; Database.closed := true |};
      {| Database.uri := "mongodb://localhost:27017"; Database.closed := false |} ].
Proof.
  cbv zeta.
  set (drv := {| Database.client_error := fun _ => None;
                 Database.database_error := fun _ => None;
                 Database.ping_error := fun _ _ => None |}).
  set (srv := {| Seed.operation_error := fun _ => None;
                 Seed.new_id := fun _ => "507f1f77bcf86cd799439011" |}).
  set (s := {| Seed.users := ∅; Seed.heap := []; Seed.environ := ∅;
               Seed.stdout := []; Seed.operations := 0 |}).
  destruct (seeding_again_changes_nothing drv drv srv srv s eq_refl) as [Husers Hheap].
  split; [reflexivity|]. split; [exact Husers|].
  rewrite (Hheap eq_refl). reflexivity.
Defined.

(** ** Which steps an endpoint runs *)

(** X18. Every endpoint runs its own steps and no other, each at most
    once. [POST /analyze] runs the Vision Step or nothing;
    [POST /log-meal] runs nothing, or the Nutrition Step alone, or the
    Nutrition Step, ended successfully, followed by the Advisor Step,
    both on the verified text of the request;
    [GET /dashboard/{user_id}] runs no step and leaves the world as it
    is. *)
Theorem endpoints_run_only_their_steps (P : providers) (w : world) :
  (forall image,
     let evs := new_events w (snd (Main.analyze_image P image w)) in
     evs = [] \/
     exists r, evs = [VisionBegin (Main.file_bytes image); VisionEnd r]) /\
  (forall request,
     let evs := new_events w (snd (Main.log_meal P request w)) in
     let text := Main.verified_text request in
     evs = [] \/
     (exists r, evs = [NutritionBegin text; NutritionEnd r]) \/
     (exists n req a,
        a_dish_name req = text /\ a_total_calories req = calories n /\
        evs = [NutritionBegin text; NutritionEnd (inr n); AdvisorBegin req; AdvisorEnd a])) /\
  (forall uid, snd (Main.get_dashboard P uid w) = w).
Proof.
  split; [|split].
  - intros image. cbv zeta. rewrite analyze_image_run. cbv zeta.
    destruct (Main.content_type image) as [ct|]; [|left; apply new_events_nil].
    destruct (negb (PyStr.startswith ct "image/")); [left; apply new_events_nil|].
    destruct (10 * 1024 * 1024 <? _); [left; apply new_events_nil|].
    destruct (fst (Council.get_ai_council w)) as [e|council]; [left; apply new_events_nil|].
    right. exists (vision_outcome P (Council.vision_agent council) (Main.file_bytes image) w).
    destruct (vision_outcome P _ _ w); apply new_events_app; simpl;
      now rewrite <- app_assoc.
  - intros request. cbv zeta. rewrite log_meal_run. cbv zeta.
    destruct (w_db w) as [d|]; [|left; apply new_events_nil].
    destruct (ObjectId P (Main.user_id request)) as [oid|]; [|left; apply new_events_nil].
    destruct (users d !! oid) as [user|]; [|left; apply new_events_nil].
    destruct (Main.add_calories _ _) as [e|total]; [left; apply new_events_nil|].
    destruct (fst (Council.get_ai_council w)) as [e|council]; [left; apply new_events_nil|].
    right.
    assert (Hpm : let evs := new_events w (snd (Council.process_meal P council
                                (Main.verified_text request) (profile_of user) total w)) in
                  (exists r, evs = [NutritionBegin (Main.verified_text request);
                                    NutritionEnd r]) \/
                  (exists n req a,
                     a_dish_name req = Main.verified_text request /\
                     a_total_calories req = calories n /\
                     evs = [NutritionBegin (Main.verified_text request);
                            NutritionEnd (inr n); AdvisorBegin req; AdvisorEnd a])).
    { cbv zeta. rewrite process_meal_run. cbv zeta.
      destruct (nutrition_outcome P _ _ w) as [e|n].
      { left. eexists. apply new_events_app. simpl. now rewrite <- app_assoc. }
      destruct (PyNum.add total (calories n)) as [e|new_total].
      { left. eexists. apply new_events_app. simpl. now rewrite <- app_assoc. }
      destruct (PyNum.sub _ new_total) as [e|rest].
      { left. eexists. apply new_events_app. simpl. now rewrite <- app_assoc. }
      cbv zeta. right. eexists. eexists. eexists.
      split; [|split]; [| |apply new_events_app; simpl; rewrite <- !app_assoc; reflexivity];
        reflexivity. }
    cbv zeta in Hpm.
    destruct (fst (Council.process_meal P council _ _ total w)) as [e|res]; [exact Hpm|].
    destruct (insert_error P (meal_logs d) _); [exact Hpm|].
    destruct (Main.NutritionData (r_nutrition res)); exact Hpm.
  - intros uid. rewrite get_dashboard_run. cbv zeta.
    destruct (w_db w) as [d|]; [|reflexivity].
    destruct (ObjectId P uid) as [oid|]; [|reflexivity].
    destruct (users d !! oid) as [user|]; [|reflexivity].
    destruct (Main.aggregate _ _) as [e|tot]; [reflexivity|].
    destruct (PyNum.sub _ _) as [e|rest]; [reflexivity|].
    destruct (Main.NutritionData _); reflexivity.
Qed.
